(** * RA8875 touch panel driver: calibration, noise filter and touch state

    A shallow embedding of the touch-panel part of the RA8875 display driver
    (RA8875_Touch.cpp together with the declarations of DisplayDefs.h and of
    the class header), and the properties of it that the design document
    states.

    Conventions of the embedding:
    - [int] and [int32_t] are 32 bits wide on the target (ARM Cortex-M); a
      value is a [Z] and every arithmetic operation is followed by its
      two's-complement wrap-around, written out ([int32]).  [loc_t] is a
      16-bit signed integer ([int16]), [dim_t] and [numberOfTouchPoints] are
      16-bit unsigned, a register read is 8 bits unsigned.
    - the members of the driver object that the touch code uses, and the
      function statics of [TouchPanelA2DFiltered], are the fields of the
      record [RA8875]; a member function takes the object and returns it.
    - an output pointer is modelled by the value the caller's variable holds
      before the call and the value it holds after it; a pointer that may be
      NULL is an [option].
    - a hardware register read is an input of the function that does it
      ([Regs]); the two timers are microsecond counters. *)

From Stdlib Require Import ZArith Lia Bool List.
From stdpp Require Import base decidable option list numbers vector sorting.
Import ListNotations.

Local Open Scope Z_scope.

(** ** Machine integers *)

Definition wrap (bits z : Z) : Z :=
  (z + 2 ^ (bits - 1)) mod 2 ^ bits - 2 ^ (bits - 1).

Definition int32 (z : Z) : Z := wrap 32 z.
Definition int16 (z : Z) : Z := wrap 16 z.
Definition uint16 (z : Z) : Z := z mod 2 ^ 16.
Definition uint8 (z : Z) : Z := z mod 2 ^ 8.

Definition add32 (a b : Z) : Z := int32 (a + b).
Definition sub32 (a b : Z) : Z := int32 (a - b).
Definition mul32 (a b : Z) : Z := int32 (a * b).
(** C's [/] truncates toward zero. *)
Definition div32 (a b : Z) : Z := int32 (Z.quot a b).

Arguments wrap : simpl never.
Arguments int32 : simpl never.
Arguments int16 : simpl never.
Arguments uint16 : simpl never.
Arguments uint8 : simpl never.
Arguments add32 : simpl never.
Arguments sub32 : simpl never.
Arguments mul32 : simpl never.
Arguments div32 : simpl never.

(** The operators of [int] expressions. *)
Infix "⊕" := add32 (at level 50, left associativity).
Infix "⊖" := sub32 (at level 50, left associativity).
Infix "⊗" := mul32 (at level 40, left associativity).
Infix "⊘" := div32 (at level 40, left associativity).

(** ** DisplayDefs.h *)

Inductive RetCode_t :=
  | noerror
  | bad_parameter
  | file_not_found
  | not_bmp_format
  | not_ico_format
  | not_supported_format
  | image_too_big
  | not_enough_ram
  | touch_cal_timeout
  | external_abort
  | LastErrCode.

Inductive TouchCode_t :=
  | no_touch
  | touch
  | held
  | release
  | no_cal.

#[global] Instance RetCode_eq_dec : EqDecision RetCode_t.
Proof. solve_decision. Defined.

#[global] Instance TouchCode_eq_dec : EqDecision TouchCode_t.
Proof. solve_decision. Defined.

(** A [TouchCode_t] used as a C condition: true unless it is [no_touch] (0). *)
Definition truthy (t : TouchCode_t) : bool :=
  match t with no_touch => false | _ => true end.

Record point_t := mkPoint { px : Z; py : Z }.

Record tpMatrix_t := mkMatrix {
  An : Z; Bn : Z; Cn : Z; Dn : Z; En : Z; Fn : Z; Divider : Z
}.

(** ** The driver object *)

Inductive WhichTP_T := TP_NONE | TP_RES | TP_CAP.

#[global] Instance WhichTP_eq_dec : EqDecision WhichTP_T.
Proof. solve_decision. Defined.

Record touchInfo_T := mkTouchInfo {
  touchID : Z;
  touchCode : TouchCode_t;
  coordinates : point_t
}.

#[global] Instance touchInfo_inhabited : Inhabited touchInfo_T :=
  populate (mkTouchInfo 0 no_touch (mkPoint 0 0)).

Definition NOTOUCH_TIMEOUT_uS : Z := 100000.
Definition TOUCH_TICKER_uS : Z := 1000.
Definition TPBUFSIZE : Z := 16.

Record RA8875 := mkRA8875 {
  useTouchPanel : WhichTP_T;
  touchState : TouchCode_t;
  numberOfTouchPoints : Z;
  touchInfo : vec touchInfo_T 5;      (* touchInfo_T touchInfo[5] *)
  panelTouched : bool;
  touchTimer : Z;                     (* Timer touchTimer, in microseconds *)
  touchSample : Z;
  tpMatrix : tpMatrix_t;
  xbuf : list Z;                      (* static int xbuf[TPBUFSIZE] *)
  ybuf : list Z;                      (* static int ybuf[TPBUFSIZE] *)
  lastX : Z;                          (* static int lastX *)
  lastY : Z                           (* static int lastY *)
}.

Definition set_touchState (v : TouchCode_t) (s : RA8875) : RA8875 :=
  mkRA8875 (useTouchPanel s) v (numberOfTouchPoints s) (touchInfo s)
    (panelTouched s) (touchTimer s) (touchSample s) (tpMatrix s)
    (xbuf s) (ybuf s) (lastX s) (lastY s).

Definition set_numberOfTouchPoints (v : Z) (s : RA8875) : RA8875 :=
  mkRA8875 (useTouchPanel s) (touchState s) v (touchInfo s)
    (panelTouched s) (touchTimer s) (touchSample s) (tpMatrix s)
    (xbuf s) (ybuf s) (lastX s) (lastY s).

Definition set_touchInfo (v : vec touchInfo_T 5) (s : RA8875) : RA8875 :=
  mkRA8875 (useTouchPanel s) (touchState s) (numberOfTouchPoints s) v
    (panelTouched s) (touchTimer s) (touchSample s) (tpMatrix s)
    (xbuf s) (ybuf s) (lastX s) (lastY s).

Definition set_panelTouched (v : bool) (s : RA8875) : RA8875 :=
  mkRA8875 (useTouchPanel s) (touchState s) (numberOfTouchPoints s)
    (touchInfo s) v (touchTimer s) (touchSample s) (tpMatrix s)
    (xbuf s) (ybuf s) (lastX s) (lastY s).

Definition set_touchTimer (v : Z) (s : RA8875) : RA8875 :=
  mkRA8875 (useTouchPanel s) (touchState s) (numberOfTouchPoints s)
    (touchInfo s) (panelTouched s) v (touchSample s) (tpMatrix s)
    (xbuf s) (ybuf s) (lastX s) (lastY s).

Definition set_touchSample (v : Z) (s : RA8875) : RA8875 :=
  mkRA8875 (useTouchPanel s) (touchState s) (numberOfTouchPoints s)
    (touchInfo s) (panelTouched s) (touchTimer s) v (tpMatrix s)
    (xbuf s) (ybuf s) (lastX s) (lastY s).

Definition set_tpMatrix (v : tpMatrix_t) (s : RA8875) : RA8875 :=
  mkRA8875 (useTouchPanel s) (touchState s) (numberOfTouchPoints s)
    (touchInfo s) (panelTouched s) (touchTimer s) (touchSample s) v
    (xbuf s) (ybuf s) (lastX s) (lastY s).

Definition set_xbuf (v : list Z) (s : RA8875) : RA8875 :=
  mkRA8875 (useTouchPanel s) (touchState s) (numberOfTouchPoints s)
    (touchInfo s) (panelTouched s) (touchTimer s) (touchSample s)
    (tpMatrix s) v (ybuf s) (lastX s) (lastY s).

Definition set_ybuf (v : list Z) (s : RA8875) : RA8875 :=
  mkRA8875 (useTouchPanel s) (touchState s) (numberOfTouchPoints s)
    (touchInfo s) (panelTouched s) (touchTimer s) (touchSample s)
    (tpMatrix s) (xbuf s) v (lastX s) (lastY s).

Definition set_lastX (v : Z) (s : RA8875) : RA8875 :=
  mkRA8875 (useTouchPanel s) (touchState s) (numberOfTouchPoints s)
    (touchInfo s) (panelTouched s) (touchTimer s) (touchSample s)
    (tpMatrix s) (xbuf s) (ybuf s) v (lastY s).

Definition set_lastY (v : Z) (s : RA8875) : RA8875 :=
  mkRA8875 (useTouchPanel s) (touchState s) (numberOfTouchPoints s)
    (touchInfo s) (panelTouched s) (touchTimer s) (touchSample s)
    (tpMatrix s) (xbuf s) (ybuf s) (lastX s) v.

Definition set_Divider (v : Z) (m : tpMatrix_t) : tpMatrix_t :=
  mkMatrix (An m) (Bn m) (Cn m) (Dn m) (En m) (Fn m) v.

(** ** TouchPanelSetMatrix *)

(** [matrixPtr] may be NULL. *)
Definition TouchPanelSetMatrix (matrixPtr : option tpMatrix_t) (s : RA8875)
  : RetCode_t * RA8875 :=
  match matrixPtr with
  | None => (bad_parameter, s)
  | Some m =>
      if Divider m =? 0 then (bad_parameter, s)
      else (noerror, set_touchState no_touch (set_tpMatrix m s))
  end.

(** ** TouchPanelComputeCalibration *)

(** [point_t display[3]] and [point_t screen[3]]. *)
Record points3 := mkPoints3 { pt0 : point_t; pt1 : point_t; pt2 : point_t }.

Definition calc_Divider (screenPtr : points3) : Z :=
  let s0 := pt0 screenPtr in let s1 := pt1 screenPtr in
  let s2 := pt2 screenPtr in
  ((px s0 ⊖ px s2) ⊗ (py s1 ⊖ py s2)) ⊖
  ((px s1 ⊖ px s2) ⊗ (py s0 ⊖ py s2)).

Definition calc_An (displayPtr screenPtr : points3) : Z :=
  let d0 := pt0 displayPtr in let d1 := pt1 displayPtr in
  let d2 := pt2 displayPtr in
  let s0 := pt0 screenPtr in let s1 := pt1 screenPtr in
  let s2 := pt2 screenPtr in
  ((px d0 ⊖ px d2) ⊗ (py s1 ⊖ py s2)) ⊖
  ((px d1 ⊖ px d2) ⊗ (py s0 ⊖ py s2)).

Definition calc_Bn (displayPtr screenPtr : points3) : Z :=
  let d0 := pt0 displayPtr in let d1 := pt1 displayPtr in
  let d2 := pt2 displayPtr in
  let s0 := pt0 screenPtr in let s1 := pt1 screenPtr in
  let s2 := pt2 screenPtr in
  ((px s0 ⊖ px s2) ⊗ (px d1 ⊖ px d2)) ⊖
  ((px d0 ⊖ px d2) ⊗ (px s1 ⊖ px s2)).

Definition calc_Cn (displayPtr screenPtr : points3) : Z :=
  let d0 := pt0 displayPtr in let d1 := pt1 displayPtr in
  let d2 := pt2 displayPtr in
  let s0 := pt0 screenPtr in let s1 := pt1 screenPtr in
  let s2 := pt2 screenPtr in
  (px s2 ⊗ px d1 ⊖ px s1 ⊗ px d2) ⊗ py s0 ⊕
  (px s0 ⊗ px d2 ⊖ px s2 ⊗ px d0) ⊗ py s1 ⊕
  (px s1 ⊗ px d0 ⊖ px s0 ⊗ px d1) ⊗ py s2.

Definition calc_Dn (displayPtr screenPtr : points3) : Z :=
  let d0 := pt0 displayPtr in let d1 := pt1 displayPtr in
  let d2 := pt2 displayPtr in
  let s0 := pt0 screenPtr in let s1 := pt1 screenPtr in
  let s2 := pt2 screenPtr in
  ((py d0 ⊖ py d2) ⊗ (py s1 ⊖ py s2)) ⊖
  ((py d1 ⊖ py d2) ⊗ (py s0 ⊖ py s2)).

Definition calc_En (displayPtr screenPtr : points3) : Z :=
  let d0 := pt0 displayPtr in let d1 := pt1 displayPtr in
  let d2 := pt2 displayPtr in
  let s0 := pt0 screenPtr in let s1 := pt1 screenPtr in
  let s2 := pt2 screenPtr in
  ((px s0 ⊖ px s2) ⊗ (py d1 ⊖ py d2)) ⊖
  ((py d0 ⊖ py d2) ⊗ (px s1 ⊖ px s2)).

Definition calc_Fn (displayPtr screenPtr : points3) : Z :=
  let d0 := pt0 displayPtr in let d1 := pt1 displayPtr in
  let d2 := pt2 displayPtr in
  let s0 := pt0 screenPtr in let s1 := pt1 screenPtr in
  let s2 := pt2 screenPtr in
  (px s2 ⊗ py d1 ⊖ px s1 ⊗ py d2) ⊗ py s0 ⊕
  (px s0 ⊗ py d2 ⊖ px s2 ⊗ py d0) ⊗ py s1 ⊕
  (px s1 ⊗ py d0 ⊖ px s0 ⊗ py d1) ⊗ py s2.

(** The function works in the member [tpMatrix]: [Divider] is stored there
    before it is tested, the six coefficients only when it is not 0, and the
    result is copied to [matrixPtr] (when not NULL) at the end of the
    successful branch. *)
Definition TouchPanelComputeCalibration
    (displayPtr screenPtr : points3) (matrixPtr : option tpMatrix_t)
    (s : RA8875) : RetCode_t * option tpMatrix_t * RA8875 :=
  let s1 := set_tpMatrix (set_Divider (calc_Divider screenPtr) (tpMatrix s)) s in
  if Divider (tpMatrix s1) =? 0 then
    (bad_parameter, matrixPtr, s1)
  else
    let m := mkMatrix (calc_An displayPtr screenPtr)
                      (calc_Bn displayPtr screenPtr)
                      (calc_Cn displayPtr screenPtr)
                      (calc_Dn displayPtr screenPtr)
                      (calc_En displayPtr screenPtr)
                      (calc_Fn displayPtr screenPtr)
                      (Divider (tpMatrix s1)) in
    let s2 := set_touchState no_touch (set_tpMatrix m s1) in
    (noerror,
     match matrixPtr with Some _ => Some (tpMatrix s2) | None => None end,
     s2).

(** ** The resistive panel's registers *)

(** The contents of the touch registers at the reads of one call. *)
Record Regs := mkRegs { INTC2 : Z; TPXH : Z; TPYH : Z; TPXYL : Z }.

Definition RA8875_INT_TP : Z := Z.shiftl 1 2.

(** [unsigned char ReadCommand(unsigned char command)]. *)
Definition ReadCommand (r : Regs) (command : Regs -> Z) : Z := uint8 (command r).

(** D[9:2] from reg TPYH, D[1:0] from reg TPXYL[3:2]. *)
Definition sampleY (r : Regs) : Z :=
  Z.lor (Z.shiftl (ReadCommand r TPYH) 2)
        (Z.shiftr (Z.land (ReadCommand r TPXYL) 12) 2).

(** D[9:2] from reg TPXH, D[1:0] from reg TPXYL[1:0]. *)
Definition sampleX (r : Regs) : Z :=
  Z.lor (Z.shiftl (ReadCommand r TPXH) 2)
        (Z.land (ReadCommand r TPXYL) 3).

Definition tp_interrupt_pending (r : Regs) : bool :=
  negb (Z.land (ReadCommand r INTC2) RA8875_INT_TP =? 0).

Arguments sampleX : simpl never.
Arguments sampleY : simpl never.
Arguments tp_interrupt_pending : simpl never.

(** ** InsertionSort *)

(** [buf[i]] and [buf[i] = v] on a buffer.  An access outside the buffer is
    not defined in C: here the load gives 0 and the store leaves the buffer
    as it is (a negative [touchSample] would count as slot 0).  The driver
    keeps [touchSample] within the buffers
    ([TouchPanelA2DFiltered_touchSample]). *)
Definition load (buf : list Z) (i : nat) : Z := default 0 (buf !! i).
Definition store (buf : list Z) (i : nat) (v : Z) : list Z := <[i:=v]> buf.

(** The inner loop, from [j] downwards, and the store that follows it:
    [while (j && buf[j-1] > temp) { buf[j] = buf[j-1]; j = j-1; } buf[j] = temp;] *)
Fixpoint shift_down (buf : list Z) (temp : Z) (j : nat) : list Z :=
  match j with
  | O => store buf O temp
  | S j' =>
      if load buf j' >? temp
      then shift_down (store buf j (load buf j')) temp j'
      else store buf j temp
  end.

(** [n] rounds of the outer loop, from index [i]. *)
Fixpoint sort_from (n i : nat) (buf : list Z) : list Z :=
  match n with
  | O => buf
  | S n' => sort_from n' (S i) (shift_down buf (load buf i) i)
  end.

(** [for (i = 1; i < bufsize; i++)]. *)
Definition InsertionSort (buf : list Z) (bufsize : Z) : list Z :=
  sort_from (Z.to_nat (bufsize - 1)) 1 buf.

Arguments InsertionSort : simpl never.

(** ** _TouchTicker *)

(** The timer runs: [us] microseconds pass. *)
Definition elapse (us : Z) (s : RA8875) : RA8875 :=
  set_touchTimer (touchTimer s + us) s.

Definition _TouchTicker (s : RA8875) : RA8875 :=
  if touchTimer s >? NOTOUCH_TIMEOUT_uS then
    let s := set_touchSample 0 s in
    let s := if decide (touchState s = held)
             then set_touchState release s
             else set_touchState no_touch s in
    set_touchTimer 0 s
  else s.

(** The ticker is attached with period [TOUCH_TICKER_uS]: one period passes
    and the callback runs, [n] times.  Nothing else touches the object. *)
Fixpoint run_ticker (n : nat) (s : RA8875) : RA8875 :=
  match n with
  | O => s
  | S n' => run_ticker n' (_TouchTicker (elapse TOUCH_TICKER_uS s))
  end.

(** ** TouchPanelA2DFiltered *)

(** [for (i = lo; i < lo + n; i++) j += buf[i];] *)
Fixpoint sum_from (buf : list Z) (lo n : nat) (j : Z) : Z :=
  match n with
  | O => j
  | S n' => sum_from buf (S lo) n' (add32 j (load buf lo))
  end.

(** [j = 0; for (i = (TPBUFSIZE/4) - 1; i < TPBUFSIZE - TPBUFSIZE/4; i++) j += buf[i];] *)
Definition middle_sum (buf : list Z) : Z :=
  let lo := TPBUFSIZE / 4 - 1 in
  let hi := TPBUFSIZE - TPBUFSIZE / 4 in
  sum_from buf (Z.to_nat lo) (Z.to_nat (hi - lo)) 0.

(** [j * (float)2/TPBUFSIZE] converted back to [int].  The product and the
    quotient by 16 are exact in single precision for |j| < 2^23, which
    covers every sum of 10-bit samples, and the conversion truncates. *)
Definition scale_average (j : Z) : Z := int32 (Z.quot (j * 2) TPBUFSIZE).

Arguments middle_sum : simpl never.
Arguments scale_average : simpl never.

Definition touch_or_held (t : TouchCode_t) : bool :=
  match t with touch | held => true | _ => false end.

(** [x] and [y] are the values of the caller's variables before the call;
    the result holds them after it. *)
Definition TouchPanelA2DFiltered (r : Regs) (x y : Z) (s : RA8875)
  : TouchCode_t * Z * Z * RA8875 :=
  let ret := touchState s in
  if tp_interrupt_pending r then
    let s := set_touchTimer 0 s in
    let s := set_ybuf (store (ybuf s) (Z.to_nat (touchSample s)) (sampleY r)) s in
    let s := set_xbuf (store (xbuf s) (Z.to_nat (touchSample s)) (sampleX r)) s in
    let s := set_touchSample (add32 (touchSample s) 1) s in
    if touchSample s =? TPBUFSIZE then
      let s := set_ybuf (InsertionSort (ybuf s) TPBUFSIZE) s in
      let s := set_xbuf (InsertionSort (xbuf s) TPBUFSIZE) s in
      let s := set_lastY (scale_average (middle_sum (ybuf s))) s in
      let y := lastY s in
      let s := set_lastX (scale_average (middle_sum (xbuf s))) s in
      let x := lastX s in
      let s := if touch_or_held (touchState s)
               then set_touchState held s
               else set_touchState touch s in
      let ret := touchState s in
      let s := set_touchSample 0 s in
      (ret, x, y, s)
    else
      if touch_or_held (touchState s)
      then (held, lastX s, lastY s, set_touchState held s)
      else (ret, x, y, s)
  else
    if touch_or_held (touchState s) then
      (held, lastX s, lastY s, set_touchState held s)
    else if decide (touchState s = release) then
      (release, lastX s, lastY s, set_touchState no_touch s)
    else (ret, x, y, s).

(** ** TouchPanelReadable *)

(** The transform of [TouchPanelReadable], stored into [loc_t] fields. *)
Definition getDisplayPoint (m : tpMatrix_t) (a2dX a2dY : Z) : point_t :=
  mkPoint
    (int16 (((An m ⊗ a2dX) ⊕ (Bn m ⊗ a2dY) ⊕ Cn m) ⊘ Divider m))
    (int16 (((Dn m ⊗ a2dX) ⊕ (En m ⊗ a2dY) ⊕ Fn m) ⊘ Divider m)).

#[local] Arguments vinsert : simpl never.

(** [touchInfo[0]]. *)
Definition touchInfo0 (s : RA8875) : touchInfo_T := touchInfo s !!! 0%fin.

Definition set_touchInfo0 (v : touchInfo_T) (s : RA8875) : RA8875 :=
  set_touchInfo (vinsert 0%fin v (touchInfo s)) s.

Definition set_touchID0 (v : Z) (s : RA8875) : RA8875 :=
  let t := touchInfo0 s in
  set_touchInfo0 (mkTouchInfo v (touchCode t) (coordinates t)) s.

Definition set_touchCode0 (v : TouchCode_t) (s : RA8875) : RA8875 :=
  let t := touchInfo0 s in
  set_touchInfo0 (mkTouchInfo (touchID t) v (coordinates t)) s.

Definition set_coordinates0 (v : point_t) (s : RA8875) : RA8875 :=
  let t := touchInfo0 s in
  set_touchInfo0 (mkTouchInfo (touchID t) (touchCode t) v) s.

(** [TouchPoint] may be NULL; otherwise it points to a [point_t] of the
    caller, whose value after the call is in the result. *)
Definition TouchPanelReadable (r : Regs) (TouchPoint : option point_t)
    (s : RA8875) : TouchCode_t * option point_t * RA8875 :=
  let '(ts, s) :=
    match useTouchPanel s with
    | TP_RES =>
        let s := set_touchID0 0 s in
        let '(ts, a2dX, a2dY, s) := TouchPanelA2DFiltered r 0 0 s in
        let '(ts, s) :=
          if decide (ts <> no_touch) then
            let s := set_panelTouched true s in
            let s := set_numberOfTouchPoints 1 s in
            if decide (Divider (tpMatrix s) <> 0) then
              (ts, set_coordinates0 (getDisplayPoint (tpMatrix s) a2dX a2dY) s)
            else (no_cal, s)
          else (ts, set_numberOfTouchPoints 0 s) in
        (ts, set_touchCode0 ts s)
    | _ => (no_touch, s)
    end in
  if panelTouched s then
    let s := set_panelTouched false s in
    match TouchPoint with
    | Some _ => (touchCode (touchInfo0 s), Some (coordinates (touchInfo0 s)), s)
    | None => (touch, None, s)
    end
  else (ts, TouchPoint, s).

(** ** TouchPanelCalibrate *)

(** What the session does that is not a change of the driver object. *)
Inductive Event :=
  | EvWaitExpired   (* a wait loop was left because [timeout.read() < maxwait_s] failed *)
  | EvSolver.       (* [TouchPanelComputeCalibration] was called *)

#[global] Instance Event_eq_dec : EqDecision Event.
Proof. solve_decision. Defined.

(** The driver object with its surroundings: how many times the touch
    registers have been polled, how many times the idle callback has been
    called, and the events so far (latest first). *)
Record World := mkWorld {
  dev : RA8875;
  polls : nat;
  idles : nat;
  trace : list Event
}.

Definition set_dev (d : RA8875) (w : World) : World :=
  mkWorld d (polls w) (idles w) (trace w).

Definition log (e : Event) (w : World) : World :=
  mkWorld (dev w) (polls w) (idles w) (e :: trace w).

(** A step of the session either leaves the function with a return code or
    goes on with a value. *)
Inductive Flow (A : Type) :=
  | Leave (r : RetCode_t) (w : World)
  | Go (a : A) (w : World).
Arguments Leave {A} r w.
Arguments Go {A} a w.

Definition bindF {A B : Type} (m : option (Flow A))
    (k : A -> World -> option (Flow B)) : option (Flow B) :=
  match m with
  | None => None
  | Some (Leave r w) => Some (Leave r w)
  | Some (Go a w) => k a w
  end.

Section Session.
(** The surroundings of a session: the touch registers as the [k]-th poll
    finds them, the idle callback (when one is attached, what its [k]-th
    call returns), and the size of the display. *)
Variable hw : nat -> Regs.
Variable idle_callback : option (nat -> RetCode_t).
Variables width height : Z.

(** [TouchPanelA2DFiltered(&x, &y)] on the registers of this poll. *)
Definition poll (x y : Z) (w : World) : TouchCode_t * Z * Z * World :=
  let '(ts, x, y, d) := TouchPanelA2DFiltered (hw (polls w)) x y (dev w) in
  (ts, x, y, mkWorld d (S (polls w)) (idles w) (trace w)).

(** [wait_ms(ms)]: the ticker, attached by [TouchPanelInit] with a period
    of one millisecond, fires meanwhile.  The session's own timer is
    advanced by the caller. *)
Definition wait_ms (ms : Z) (w : World) : World :=
  set_dev (run_ticker (Z.to_nat (ms * 1000 / TOUCH_TICKER_uS)) (dev w)) w.

(** The call of the idle callback, when one is attached, with the reason
    [touchcal_wait]: true when it returns [external_abort]. *)
Definition idle (w : World) : bool * World :=
  match idle_callback with
  | None => (false, w)
  | Some cb =>
      (bool_decide (cb (idles w) = external_abort),
       mkWorld (dev w) (polls w) (S (idles w)) (trace w))
  end.

(** The session's own [Timer timeout] is the microsecond counter [t];
    [timeout.read() < maxwait_s] compares seconds. *)
Definition in_time (t maxwait_s : Z) : bool := t <? maxwait_s * 1000000.

(** The three wait loops:
    [while (TouchPanelA2DFiltered(&x, &y) && timeout.read() < maxwait_s)] for
    [touched = true], and [while (!TouchPanelA2DFiltered(&x, &y) && ...)]
    for [touched = false], with the body
    [wait_ms(20); if (idle_callback) ... return external_abort;]. *)
Fixpoint wait_while (touched : bool) (fuel : nat) (maxwait_s : Z)
    (t x y : Z) (w : World) : option (Flow (Z * Z * Z)) :=
  match fuel with
  | O => None
  | S fuel' =>
      let '(ts, x, y, w) := poll x y w in
      if bool_decide (truthy ts = touched) then
        if in_time t maxwait_s then
          let w := wait_ms 20 w in
          let t := t + 20000 in
          let '(stop, w) := idle w in
          if stop then Some (Leave external_abort w)
          else wait_while touched fuel' maxwait_s t x y w
        else Some (Go (t, x, y) (log EvWaitExpired w))
      else Some (Go (t, x, y) w)
  end.

(** [for (int t=0; t<100; t++) { wait_ms(20); if (idle_callback) ... }],
    with [n] rounds to go. *)
Fixpoint settle (n : nat) (t : Z) (w : World) : Flow Z :=
  match n with
  | O => Go t w
  | S n' =>
      let w := wait_ms 20 w in
      let t := t + 20000 in
      let '(stop, w) := idle w in
      if stop then Leave external_abort w else settle n' t w
  end.

(** One round of [for (int i=0; i<3; i++)]: the result is the timer, [x],
    [y], and [pSample[i]]. *)
Definition target (fuel : nat) (maxwait_s : Z) (t x y : Z) (w : World)
  : option (Flow (Z * Z * Z * point_t)) :=
  bindF (wait_while false fuel maxwait_s t x y w) (fun '(t, x, y) w =>
  let pSample_i := mkPoint (int16 x) (int16 y) in
  bindF (wait_while true fuel maxwait_s t x y w) (fun '(t, x, y) w =>
  match settle 100 t w with
  | Leave r w => Some (Leave r w)
  | Go t w => Some (Go (t, x, y, pSample_i) w)
  end)).

(** [pTest]: the three targets. *)
Definition pTest : points3 :=
  mkPoints3 (mkPoint 50 50)
            (mkPoint (int16 (sub32 (uint16 width) 50))
                     (int16 (div32 (uint16 height) 2)))
            (mkPoint (int16 (div32 (uint16 width) 2))
                     (int16 (sub32 (uint16 height) 50))).

(** [x0] and [y0] are what the uninitialised locals [x] and [y] hold.
    The drawing and text calls ([cls], [puts], [SetTextCursor],
    [foreground], [printf], [line]) do not touch the state modelled here.
    [None] only when [fuel] rounds do not end a wait loop. *)
Definition TouchPanelCalibrate (fuel : nat) (matrix : option tpMatrix_t)
    (maxwait_s : Z) (x0 y0 : Z) (w : World)
  : option (RetCode_t * option tpMatrix_t * World) :=
  let session :=
    bindF (wait_while true fuel maxwait_s 0 x0 y0 w) (fun '(t, x, y) w =>
    bindF (target fuel maxwait_s t x y w) (fun '(t, x, y, s0) w =>
    bindF (target fuel maxwait_s t x y w) (fun '(t, x, y, s1) w =>
    bindF (target fuel maxwait_s t x y w) (fun '(t, x, y, s2) w =>
    Some (Go (t, mkPoints3 s0 s1 s2) w))))) in
  match session with
  | None => None
  | Some (Leave r w) => Some (r, matrix, w)
  | Some (Go (t, pSample) w) =>
      if in_time t maxwait_s then
        let '(r, m, d) :=
          TouchPanelComputeCalibration pTest pSample matrix (dev w) in
        Some (r, m, log EvSolver (set_dev d w))
      else Some (touch_cal_timeout, matrix, w)
  end.
End Session.

(** ** TouchPanelInit *)

(** [TouchPanelInit(void)]; the register writes of the resistive branch and
    the mode write of the capacitive one are outside the state modelled. *)
Definition TouchPanelInit (s : RA8875) : RetCode_t * RA8875 :=
  let s := set_panelTouched false s in
  match useTouchPanel s with
  | TP_CAP => (noerror, s)
  | _ =>
      let s := set_touchSample 0 s in
      let s := set_touchState no_cal s in
      (noerror, set_touchTimer 0 s)
  end.

(** ** Runs and data used in the statements *)

(** [n] calls of [TouchPanelA2DFiltered] in a row, each finding the
    registers [r]; the result is that of the last call. *)
Fixpoint feed (n : nat) (r : Regs) (x y : Z) (s : RA8875)
  : TouchCode_t * Z * Z * RA8875 :=
  match n with
  | O => (touchState s, x, y, s)
  | S n' =>
      let '(_, x, y, s) := feed n' r x y s in
      TouchPanelA2DFiltered r x y s
  end.

(** The touch registers holding a new sample [(vx, vy)], interrupt pending. *)
Definition sample_regs (vx vy : Z) : Regs :=
  mkRegs RA8875_INT_TP (Z.shiftr vx 2) (Z.shiftr vy 2)
         (Z.lor (Z.land vx 3) (Z.shiftl (Z.land vy 3) 2)).

(** The touch registers with no interrupt pending. *)
Definition quiet_regs : Regs := mkRegs 0 0 0 0.

(** A resistive-panel object after construction and [TouchPanelInit], with
    the member [tpMatrix] holding [m]: static buffers zeroed. *)
Definition fresh (m : tpMatrix_t) : RA8875 :=
  (TouchPanelInit
     (mkRA8875 TP_RES no_touch 0
        (vreplicate 5 (mkTouchInfo 0 no_touch (mkPoint 0 0)))
        false 0 0 m (replicate 16 0) (replicate 16 0) 0 0)).2.

(** The calibration of the design document's end-to-end scenario. *)
Definition scenario_display : points3 :=
  mkPoints3 (mkPoint 50 50) (mkPoint 430 150) (mkPoint 225 250).
Definition scenario_screen : points3 :=
  mkPoints3 (mkPoint 100 100) (mkPoint 900 300) (mkPoint 500 600).
Definition scenario_matrix : tpMatrix_t :=
  mkMatrix 155000 (-12000) 1700000 10000 120000 3000000 320000.

(** An object with [scenario_matrix] installed by [TouchPanelSetMatrix]. *)
Definition calibrated : RA8875 :=
  (TouchPanelSetMatrix (Some scenario_matrix) (fresh (mkMatrix 0 0 0 0 0 0 0))).2.

(** Three raw samples on one line, and three of a 12-bit digitizer. *)
Definition collinear_screen : points3 :=
  mkPoints3 (mkPoint 100 100) (mkPoint 200 200) (mkPoint 300 300).
Definition wide_screen : points3 :=
  mkPoints3 (mkPoint 0 0) (mkPoint 4095 0) (mkPoint 0 4095).

(** Coordinates of a 10-bit digitizer, or of a display up to 1024 pixels. *)
Definition in10 (z : Z) : Prop := 0 <= z <= 1023.
Definition point_in10 (p : point_t) : Prop := in10 (px p) /\ in10 (py p).
Definition points_in10 (p : points3) : Prop :=
  point_in10 (pt0 p) /\ point_in10 (pt1 p) /\ point_in10 (pt2 p).

(** The return code of the filter on the registers [r]. *)
Definition filtered_code (r : Regs) (s : RA8875) : TouchCode_t :=
  (TouchPanelA2DFiltered r 0 0 s).1.1.1.

(** What a session keeps true as long as it has not called the solver:
    its timer [t] is not negative, the active matrix is still [m0], the
    solver has not been called, and once a wait loop has run out of time the
    budget [maxwait_s] is spent. *)
Definition session_inv (maxwait_s : Z) (m0 : tpMatrix_t) (t : Z) (w : World)
  : Prop :=
  0 <= t /\
  tpMatrix (dev w) = m0 /\
  ~ In EvSolver (trace w) /\
  (In EvWaitExpired (trace w) -> in_time t maxwait_s = false).

(** The same for a step's outcome: a step leaves the function only on the
    idle callback's request. *)
Definition flow_inv {A : Type} (idle_callback : option (nat -> RetCode_t))
    (maxwait_s : Z) (m0 : tpMatrix_t) (time : A -> Z) (f : Flow A) : Prop :=
  match f with
  | Leave r w =>
      r = external_abort /\ idle_callback <> None /\
      tpMatrix (dev w) = m0 /\ ~ In EvSolver (trace w)
  | Go a w => session_inv maxwait_s m0 (time a) w
  end.

(** Enough rounds for a wait loop of a session with budget [maxwait_s]:
    one per 20 ms of the budget, and the round that leaves the loop. *)
Definition enough_fuel (maxwait_s : Z) (fuel : nat) : Prop :=
  (Z.to_nat (maxwait_s * 50) < fuel)%nat.

(** A registered idle callback that answers [external_abort] at its call
    number [k] (counted from 0) and [noerror] at the others. *)
Definition abort_at (k : nat) : option (nat -> RetCode_t) :=
  Some (fun i => if Nat.eqb i k then external_abort else noerror).

(** A panel that is never touched. *)
Definition untouched : nat -> Regs := fun _ => quiet_regs.

(** Congruence modulo 2^32. *)
Definition eqm32 (a b : Z) : Prop := a mod 2 ^ 32 = b mod 2 ^ 32.

(** ** TouchPanelA2DRaw *)

Definition TouchPanelA2DRaw (r : Regs) (x y : Z) (s : RA8875)
  : TouchCode_t * Z * Z * RA8875 :=
  if tp_interrupt_pending r then
    let s := set_touchTimer 0 s in
    let y := sampleY r in
    let x := sampleX r in
    let s := set_touchState touch s in
    (touchState s, x, y, s)
  else
    let s := set_touchState no_touch s in
    (touchState s, x, y, s).

(** ** TouchPanelGet *)

Section Get.
(** The surroundings of the loop: the touch registers as the [k]-th call of
    [TouchPanelReadable] finds them, what the timer and interrupt callbacks
    have done to the object by then, and the idle callback. *)
Variable hw : nat -> Regs.
Variable async : nat -> RA8875 -> RA8875.
Variable idle_callback : option (nat -> RetCode_t).

(** [while (true) { t = TouchPanelReadable(TouchPoint); if (t != no_touch)
    break; if (idle_callback) ... return no_touch; } return t;] with [fuel]
    rounds to go; [None] when they do not end the loop. *)
Fixpoint TouchPanelGet (fuel : nat) (TouchPoint : option point_t) (w : World)
  : option (TouchCode_t * option point_t * World) :=
  match fuel with
  | O => None
  | S fuel' =>
      let '(t, TouchPoint, d) :=
        TouchPanelReadable (hw (polls w)) TouchPoint (async (polls w) (dev w)) in
      let w := mkWorld d (S (polls w)) (idles w) (trace w) in
      if decide (t <> no_touch) then Some (t, TouchPoint, w)
      else
        let '(stop, w) := idle idle_callback w in
        if stop then Some (no_touch, TouchPoint, w)
        else TouchPanelGet fuel' TouchPoint w
  end.
End Get.

(** ** TouchPanelInit with parameters, TouchChannels *)

Definition TP_ENABLE : Z := uint8 (Z.shiftl 1 7).
Definition TP_DISABLE : Z := uint8 (Z.shiftl 0 7).
Definition TP_MODE_AUTO : Z := uint8 (Z.shiftl 0 6).
Definition TP_MODE_MANUAL : Z := uint8 (Z.shiftl 1 6).
Definition TP_DEBOUNCE_OFF : Z := uint8 (Z.shiftl 0 2).
Definition TP_DEBOUNCE_ON : Z := uint8 (Z.shiftl 1 2).
Definition TP_MANUAL_LATCH_Y : Z := 3.
Definition TP_ADC_CLKDIV_128 : Z := 7.
Definition TP_ADC_SAMPLE_65536_CLKS : Z := uint8 (Z.shiftl 7 4).

(** What a call does to the ticker and the timer: attach and start them,
    or detach and stop them. *)
Inductive TickerCmd := TickerAttach | TickerDetach.

(** The six parameters are [uint8_t].  The register writes are outside the
    state modelled; the second component of the result is what was done to
    the ticker and the timer, if anything. *)
Definition TouchPanelInitParams
    (bTpEnable bTpAutoManual bTpDebounce bTpManualMode bTpAdcClkDiv
       bTpAdcSampleTime : Z) (s : RA8875)
  : RetCode_t * option TickerCmd * RA8875 :=
  let bTpEnable := uint8 bTpEnable in
  let bTpAutoManual := uint8 bTpAutoManual in
  let bTpDebounce := uint8 bTpDebounce in
  let bTpManualMode := uint8 bTpManualMode in
  let bTpAdcClkDiv := uint8 bTpAdcClkDiv in
  let bTpAdcSampleTime := uint8 bTpAdcSampleTime in
  match useTouchPanel s with
  | TP_CAP => (noerror, None, (TouchPanelInit s).2)
  | _ =>
      if negb ((bTpEnable =? TP_ENABLE) || (bTpEnable =? TP_ENABLE))
         || negb ((bTpAutoManual =? TP_MODE_AUTO) || (bTpAutoManual =? TP_MODE_MANUAL))
         || negb ((bTpDebounce =? TP_DEBOUNCE_OFF) || (bTpDebounce =? TP_DEBOUNCE_ON))
         || negb (bTpManualMode <=? TP_MANUAL_LATCH_Y)
         || negb (bTpAdcClkDiv <=? TP_ADC_CLKDIV_128)
         || negb (bTpAdcSampleTime <=? TP_ADC_SAMPLE_65536_CLKS)
      then (bad_parameter, None, s)
      else
        let s := set_touchSample 0 s in
        let s := set_touchState no_cal s in
        if bTpEnable =? TP_ENABLE
        then (noerror, Some TickerAttach, set_touchTimer 0 s)
        else (noerror, Some TickerDetach, s)
  end.

Definition TouchChannels (s : RA8875) : Z :=
  match useTouchPanel s with
  | TP_CAP => 5
  | TP_RES => 1
  | TP_NONE => 0
  end.

(** ** The capacitive panel: getTouchPositions, TouchPanelISR *)

(** The driver object with the member [gesture]. *)
Record CapPanel := mkCap { obj : RA8875; gesture : Z }.

Definition FT5206_GEST_ID : Z := 1.
Definition FT5206_TD_STATUS : Z := 2.
Definition FT5206_TOUCH1_XH : Z := 3.
Definition FT5206_TOUCH1_XL : Z := 4.
Definition FT5206_TOUCH1_YH : Z := 5.
Definition FT5206_TOUCH1_YL : Z := 6.
Definition FT5206_TOUCH2_XH : Z := 9.
Definition FT5206_TOUCH2_XL : Z := 10.
Definition FT5206_TOUCH2_YH : Z := 11.
Definition FT5206_TOUCH2_YL : Z := 12.
Definition FT5206_TOUCH3_XH : Z := 15.
Definition FT5206_TOUCH3_XL : Z := 16.
Definition FT5206_TOUCH3_YH : Z := 17.
Definition FT5206_TOUCH3_YL : Z := 18.
Definition FT5206_TOUCH4_XH : Z := 21.
Definition FT5206_TOUCH4_XL : Z := 22.
Definition FT5206_TOUCH4_YH : Z := 23.
Definition FT5206_TOUCH4_YL : Z := 24.
Definition FT5206_TOUCH5_XH : Z := 27.
Definition FT5206_TOUCH5_XL : Z := 28.
Definition FT5206_TOUCH5_YH : Z := 29.
Definition FT5206_TOUCH5_YL : Z := 30.

(** [uint8_t readRegister8(uint8_t reg)] on the registers of the FT5206 as
    one interrupt finds them: [i2c reg] is the content of register [reg]. *)
Definition readRegister8 (i2c : Z -> Z) (reg : Z) : Z := uint8 (i2c (uint8 reg)).

(** [EventFlagToTouchCode[i]], for the two-bit index the code uses. *)
Definition EventFlagToTouchCode (i : Z) : TouchCode_t :=
  match i with
  | 0 => touch
  | 1 => release
  | 2 => held
  | _ => no_touch
  end.

(** One [case] of the [switch]: the record of one touch, from its four
    registers.  Cases 4 to 1 read the XH register a second time for the
    coordinate; it is the same register content. *)
Definition read_touch (i2c : Z -> Z) (XH XL YH YL : Z) : touchInfo_T :=
  let valXH := readRegister8 i2c XH in
  let valYH := readRegister8 i2c YH in
  mkTouchInfo
    (uint8 (Z.shiftr valYH 4))
    (EventFlagToTouchCode (Z.shiftr valXH 6))
    (mkPoint
       (int16 (Z.land (readRegister8 i2c XH) 15 ⊗ 256 ⊕ readRegister8 i2c XL))
       (int16 (Z.land valYH 15 ⊗ 256 ⊕ readRegister8 i2c YL))).

(** [switch (5)]: every case runs, from [touchInfo[4]] down to
    [touchInfo[0]]. *)
Definition getTouchPositions (i2c : Z -> Z) (c : CapPanel) : Z * CapPanel :=
  let s := obj c in
  let s := set_numberOfTouchPoints
             (uint16 (Z.land (readRegister8 i2c FT5206_TD_STATUS) 15)) s in
  let g := readRegister8 i2c FT5206_GEST_ID in
  let s := set_touchInfo (vinsert 4%fin
             (read_touch i2c FT5206_TOUCH5_XH FT5206_TOUCH5_XL
                FT5206_TOUCH5_YH FT5206_TOUCH5_YL) (touchInfo s)) s in
  let s := set_touchInfo (vinsert 3%fin
             (read_touch i2c FT5206_TOUCH4_XH FT5206_TOUCH4_XL
                FT5206_TOUCH4_YH FT5206_TOUCH4_YL) (touchInfo s)) s in
  let s := set_touchInfo (vinsert 2%fin
             (read_touch i2c FT5206_TOUCH3_XH FT5206_TOUCH3_XL
                FT5206_TOUCH3_YH FT5206_TOUCH3_YL) (touchInfo s)) s in
  let s := set_touchInfo (vinsert 1%fin
             (read_touch i2c FT5206_TOUCH2_XH FT5206_TOUCH2_XL
                FT5206_TOUCH2_YH FT5206_TOUCH2_YL) (touchInfo s)) s in
  let s := set_touchInfo (vinsert 0%fin
             (read_touch i2c FT5206_TOUCH1_XH FT5206_TOUCH1_XL
                FT5206_TOUCH1_YH FT5206_TOUCH1_YL) (touchInfo s)) s in
  (uint8 (numberOfTouchPoints s), mkCap s g).

Definition TouchPanelISR (i2c : Z -> Z) (c : CapPanel) : CapPanel :=
  let c := (getTouchPositions i2c c).2 in
  mkCap (set_panelTouched true (obj c)) (gesture c).

(** ** The per-channel accessors of the class declaration *)

(** [(channel < 5) ? touchInfo[channel] : touchInfo[0]], [channel] a
    [uint8_t]. *)
Definition touchInfo_at (channel : Z) (s : RA8875) : touchInfo_T :=
  match uint8 channel with
  | 0 => touchInfo s !!! 0%fin
  | 1 => touchInfo s !!! 1%fin
  | 2 => touchInfo s !!! 2%fin
  | 3 => touchInfo s !!! 3%fin
  | 4 => touchInfo s !!! 4%fin
  | _ => touchInfo s !!! 0%fin
  end.

Definition TouchID (channel : Z) (s : RA8875) : Z :=
  touchID (touchInfo_at channel s).
Definition TouchCode (channel : Z) (s : RA8875) : TouchCode_t :=
  touchCode (touchInfo_at channel s).
Definition TouchCoordinates (channel : Z) (s : RA8875) : point_t :=
  coordinates (touchInfo_at channel s).
Definition TouchCount (s : RA8875) : Z := numberOfTouchPoints s.
Definition TouchGesture (c : CapPanel) : Z := gesture c.

(** ** A run of polls *)

(** [TouchPanelA2DFiltered] called once for each entry of [rs], in order,
    each call finding that entry in the registers: the codes returned, and
    the caller's variables and the object after the last call. *)
Fixpoint poll_all (rs : list Regs) (x y : Z) (s : RA8875)
  : list TouchCode_t * Z * Z * RA8875 :=
  match rs with
  | [] => ([], x, y, s)
  | r :: rs' =>
      let '(t, x, y, s) := TouchPanelA2DFiltered r x y s in
      let '(ts, x, y, s) := poll_all rs' x y s in
      (t :: ts, x, y, s)
  end.

(** ** The public calls on one driver object *)

(** One call of the touch interface with the arguments and registers it
    finds, or of the ticker's callback after [us] microseconds. *)
Inductive Call :=
| CInit
| CInitParams (bTpEnable bTpAutoManual bTpDebounce bTpManualMode
                 bTpAdcClkDiv bTpAdcSampleTime : Z)
| CSetMatrix (matrixPtr : option tpMatrix_t)
| CComputeCalibration (displayPtr screenPtr : points3)
                      (matrixPtr : option tpMatrix_t)
| CA2DRaw (r : Regs) (x y : Z)
| CA2DFiltered (r : Regs) (x y : Z)
| CReadable (r : Regs) (TouchPoint : option point_t)
| CTicker (us : Z).

(** The object after the call. *)
Definition call (c : Call) (s : RA8875) : RA8875 :=
  match c with
  | CInit => (TouchPanelInit s).2
  | CInitParams a b c d e f => (TouchPanelInitParams a b c d e f s).2
  | CSetMatrix m => (TouchPanelSetMatrix m s).2
  | CComputeCalibration d p m => (TouchPanelComputeCalibration d p m s).2
  | CA2DRaw r x y => (TouchPanelA2DRaw r x y s).2
  | CA2DFiltered r x y => (TouchPanelA2DFiltered r x y s).2
  | CReadable r p => (TouchPanelReadable r p s).2
  | CTicker us => _TouchTicker (elapse us s)
  end.

Definition calls (cs : list Call) (s : RA8875) : RA8875 :=
  fold_left (fun s c => call c s) cs s.

(** The sampling buffers as the filter needs them: the index within them,
    [TPBUFSIZE] entries each, all of them 10-bit values, and the last
    averages not above 9 * 1023 / 8. *)
Definition buffers_ok (s : RA8875) : Prop :=
  0 <= touchSample s < TPBUFSIZE /\
  length (xbuf s) = 16%nat /\ length (ybuf s) = 16%nat /\
  Forall in10 (xbuf s) /\ Forall in10 (ybuf s) /\
  0 <= lastX s <= 1150 /\ 0 <= lastY s <= 1150.

(** ** A session that succeeds *)

(** The registers of a panel tapped three times: of every 32 polls, the
    polls 1 to 16 find a new sample, the same one throughout a tap, and the
    others find none. *)
Definition three_taps : nat -> Regs := fun k =>
  if ((1 <=? k mod 32) && (k mod 32 <=? 16))%nat then
    match (k / 32)%nat with
    | O => sample_regs 100 100
    | 1%nat => sample_regs 900 300
    | _ => sample_regs 500 600
    end
  else quiet_regs.

(** ** A run of polls, call by call *)

(** The entries of [rs] that hold a new sample. *)
Definition pending_regs (rs : list Regs) : list Regs :=
  List.filter tp_interrupt_pending rs.

(** [TouchPanelA2DFiltered] called once for each entry of [rs], in order:
    what each call returned and wrote to the caller's variables, and the
    object after the last call. *)
Fixpoint poll_log (rs : list Regs) (x y : Z) (s : RA8875)
  : list (TouchCode_t * Z * Z) * Z * Z * RA8875 :=
  match rs with
  | [] => ([], x, y, s)
  | r :: rs =>
      let '(t, x, y, s) := TouchPanelA2DFiltered r x y s in
      let '(l, x', y', s') := poll_log rs x y s in
      ((t, x, y) :: l, x', y', s')
  end.

(** ** The idle callback's answers in a session *)

(** No call of the idle callback made since its call number [i0] has been
    answered with [external_abort]. *)
Definition no_abort_since (idle_callback : option (nat -> RetCode_t))
    (i0 : nat) (w : World) : Prop :=
  (i0 <= idles w)%nat /\
  forall cb k, idle_callback = Some cb -> (i0 <= k < idles w)%nat ->
               cb k <> external_abort.

(** An idle callback is attached, it has been called since its call number
    [i0], its latest call was answered with [external_abort] and none of
    the calls before that one was. *)
Definition abort_requested (idle_callback : option (nat -> RetCode_t))
    (i0 : nat) (w : World) : Prop :=
  exists cb, idle_callback = Some cb /\
    (i0 < idles w)%nat /\
    cb (pred (idles w)) = external_abort /\
    forall k, (i0 <= k < pred (idles w))%nat -> cb k <> external_abort.

(** A step is left exactly on the callback's request. *)
Definition flow_idle {A : Type} (idle_callback : option (nat -> RetCode_t))
    (i0 : nat) (f : Flow A) : Prop :=
  match f with
  | Leave r w => r = external_abort /\ abort_requested idle_callback i0 w
  | Go _ w => no_abort_since idle_callback i0 w
  end.

(** * Properties *)

(** ** Machine integers *)

Lemma int32_small z : - 2 ^ 31 <= z < 2 ^ 31 -> int32 z = z.
Proof.
  intros H. unfold int32, wrap. change (2 ^ (32 - 1)) with (2 ^ 31).
  rewrite Z.mod_small; lia.
Qed.

Lemma int16_small z : - 2 ^ 15 <= z < 2 ^ 15 -> int16 z = z.
Proof.
  intros H. unfold int16, wrap. change (2 ^ (16 - 1)) with (2 ^ 15).
  rewrite Z.mod_small; lia.
Qed.

Lemma int32_range z : - 2 ^ 31 <= int32 z < 2 ^ 31.
Proof.
  unfold int32, wrap. change (2 ^ (32 - 1)) with (2 ^ 31).
  pose proof (Z.mod_pos_bound (z + 2 ^ 31) (2 ^ 32)). lia.
Qed.

#[global] Instance eqm32_equiv : Equivalence eqm32.
Proof.
  split.
  - intros a. reflexivity.
  - intros a b H. unfold eqm32 in *. congruence.
  - intros a b c H1 H2. unfold eqm32 in *. congruence.
Qed.

#[global] Instance add_eqm32 : Proper (eqm32 ==> eqm32 ==> eqm32) Z.add.
Proof.
  intros a a' Ha b b' Hb. unfold eqm32 in *.
  rewrite (Z.add_mod a), (Z.add_mod a') by lia. congruence.
Qed.

#[global] Instance sub_eqm32 : Proper (eqm32 ==> eqm32 ==> eqm32) Z.sub.
Proof.
  intros a a' Ha b b' Hb. unfold eqm32 in *.
  rewrite (Zminus_mod a), (Zminus_mod a'). congruence.
Qed.

#[global] Instance mul_eqm32 : Proper (eqm32 ==> eqm32 ==> eqm32) Z.mul.
Proof.
  intros a a' Ha b b' Hb. unfold eqm32 in *.
  rewrite (Z.mul_mod a), (Z.mul_mod a') by lia. congruence.
Qed.

Lemma int32_eqm z : eqm32 (int32 z) z.
Proof.
  unfold eqm32, int32, wrap. change (2 ^ (32 - 1)) with (2 ^ 31).
  rewrite Zminus_mod, Z.mod_mod by lia.
  rewrite <- Zminus_mod. f_equal. lia.
Qed.

(** Two 32-bit values that are congruent are equal. *)
Lemma eqm32_inj a b :
  eqm32 a b -> - 2 ^ 31 <= a < 2 ^ 31 -> - 2 ^ 31 <= b < 2 ^ 31 -> a = b.
Proof.
  unfold eqm32. intros H Ha Hb.
  pose proof (Z.div_mod a (2 ^ 32)) as Ea.
  pose proof (Z.div_mod b (2 ^ 32)) as Eb.
  pose proof (Z.mod_pos_bound b (2 ^ 32)).
  rewrite H in Ea. lia.
Qed.

#[global] Instance int32_eqm32 : Proper (eqm32 ==> eqm32) int32.
Proof. intros a b H. rewrite !int32_eqm. exact H. Qed.

Lemma mul_bound u v k :
  0 <= k -> - k <= u <= k -> - k <= v <= k -> - (k * k) <= u * v <= k * k.
Proof. intros Hk Hu Hv. nia. Qed.

(** ** TouchPanelSetMatrix *)

(** C10: [TouchPanelSetMatrix] returns [bad_parameter] and leaves the object
    (active matrix and touch state included) as it was when its argument
    is NULL or a matrix whose [Divider] is 0; otherwise it copies the seven
    fields into the active matrix and sets the touch state to [no_touch];
    so a matrix it has installed has a [Divider] other than 0. *)
Theorem TouchPanelSetMatrix_spec (s : RA8875) :
  TouchPanelSetMatrix None s = (bad_parameter, s) /\
  (forall m, Divider m = 0 ->
     TouchPanelSetMatrix (Some m) s = (bad_parameter, s)) /\
  (forall m, Divider m <> 0 ->
     TouchPanelSetMatrix (Some m) s
       = (noerror, set_touchState no_touch (set_tpMatrix m s)) /\
     tpMatrix (TouchPanelSetMatrix (Some m) s).2 = m /\
     touchState (TouchPanelSetMatrix (Some m) s).2 = no_touch) /\
  (forall matrixPtr,
     (TouchPanelSetMatrix matrixPtr s).1 = noerror ->
     Some (tpMatrix (TouchPanelSetMatrix matrixPtr s).2) = matrixPtr /\
     Divider (tpMatrix (TouchPanelSetMatrix matrixPtr s).2) <> 0).
Proof.
  unfold TouchPanelSetMatrix. repeat split.
  - intros m Hm. now rewrite Hm.
  - destruct (Z.eqb_spec (Divider m) 0); [contradiction | reflexivity].
  - destruct (Z.eqb_spec (Divider m) 0); [contradiction | reflexivity].
  - destruct (Z.eqb_spec (Divider m) 0); [contradiction | reflexivity].
  - destruct matrixPtr as [m|]; [|discriminate].
    destruct (Z.eqb_spec (Divider m) 0); [discriminate | reflexivity].
  - destruct matrixPtr as [m|]; [|discriminate].
    destruct (Z.eqb_spec (Divider m) 0); [discriminate | assumption].
Qed.

(** ** TouchPanelComputeCalibration *)

(** C1, as the code has it: on three raw samples whose computed [Divider]
    is 0, [TouchPanelComputeCalibration] returns [bad_parameter], writes
    nothing to the caller's matrix and leaves the six coefficients [An] to
    [Fn] of the active matrix and the rest of the object as they were; the
    [Divider] of the active matrix is the computed one, 0. *)
Theorem TouchPanelComputeCalibration_collinear
    (displayPtr screenPtr : points3) (matrixPtr : option tpMatrix_t)
    (s : RA8875) :
  calc_Divider screenPtr = 0 ->
  TouchPanelComputeCalibration displayPtr screenPtr matrixPtr s
    = (bad_parameter, matrixPtr,
       set_tpMatrix (set_Divider 0 (tpMatrix s)) s).
Proof.
  intros H. unfold TouchPanelComputeCalibration. rewrite H. reflexivity.
Qed.

Lemma TouchPanelComputeCalibration_collinear_witness :
  TouchPanelComputeCalibration scenario_display collinear_screen
      (Some (mkMatrix 1 2 3 4 5 6 7)) calibrated
    = (bad_parameter, Some (mkMatrix 1 2 3 4 5 6 7),
       set_tpMatrix (set_Divider 0 (tpMatrix calibrated)) calibrated).
Proof.
  apply TouchPanelComputeCalibration_collinear. reflexivity.
Defined.

(** C1 as stated fails: with [scenario_matrix] installed, a collinear
    calibration input is refused with [bad_parameter], and the active
    matrix is no longer the installed one: its [Divider] went from 320000
    to 0. *)
Lemma TouchPanelComputeCalibration_collinear_changes_matrix :
  calc_Divider collinear_screen = 0 /\
  tpMatrix calibrated = scenario_matrix /\
  (TouchPanelComputeCalibration scenario_display collinear_screen None
     calibrated).1.1 = bad_parameter /\
  tpMatrix (TouchPanelComputeCalibration scenario_display collinear_screen
              None calibrated).2
    = mkMatrix 155000 (-12000) 1700000 10000 120000 3000000 0 /\
  tpMatrix (TouchPanelComputeCalibration scenario_display collinear_screen
              None calibrated).2 <> tpMatrix calibrated.
Proof. repeat split; discriminate. Qed.

(** One axis of the round trip: [d0], [d1], [d2] are the targets'
    coordinates on that axis and [(x, y)] a raw sample that the affine map
    through the three anchors sends to [d]. *)
Lemma axis_round_trip xs0 ys0 xs1 ys1 xs2 ys2 d0 d1 d2 x y d :
  in10 xs0 -> in10 ys0 -> in10 xs1 -> in10 ys1 -> in10 xs2 -> in10 ys2 ->
  in10 d ->
  ((xs0 ⊖ xs2) ⊗ (ys1 ⊖ ys2)) ⊖ ((xs1 ⊖ xs2) ⊗ (ys0 ⊖ ys2)) <> 0 ->
  ((d0 - d2) * (ys1 - ys2) - (d1 - d2) * (ys0 - ys2)) * x
  + ((xs0 - xs2) * (d1 - d2) - (d0 - d2) * (xs1 - xs2)) * y
  + ((xs2 * d1 - xs1 * d2) * ys0 + (xs0 * d2 - xs2 * d0) * ys1
     + (xs1 * d0 - xs0 * d1) * ys2)
  = d * ((xs0 - xs2) * (ys1 - ys2) - (xs1 - xs2) * (ys0 - ys2)) ->
  int16
    ((((((d0 ⊖ d2) ⊗ (ys1 ⊖ ys2)) ⊖ ((d1 ⊖ d2) ⊗ (ys0 ⊖ ys2))) ⊗ x)
      ⊕ ((((xs0 ⊖ xs2) ⊗ (d1 ⊖ d2)) ⊖ ((d0 ⊖ d2) ⊗ (xs1 ⊖ xs2))) ⊗ y)
      ⊕ ((xs2 ⊗ d1 ⊖ xs1 ⊗ d2) ⊗ ys0 ⊕ (xs0 ⊗ d2 ⊖ xs2 ⊗ d0) ⊗ ys1
         ⊕ (xs1 ⊗ d0 ⊖ xs0 ⊗ d1) ⊗ ys2))
     ⊘ (((xs0 ⊖ xs2) ⊗ (ys1 ⊖ ys2)) ⊖ ((xs1 ⊖ xs2) ⊗ (ys0 ⊖ ys2))))
  = d.
Proof.
  unfold in10. intros Hx0 Hy0 Hx1 Hy1 Hx2 Hy2 Hd Hne Hid.
  set (Dt := (xs0 - xs2) * (ys1 - ys2) - (xs1 - xs2) * (ys0 - ys2)) in *.
  assert (HDt : - (2 * (1023 * 1023)) <= Dt <= 2 * (1023 * 1023)).
  { pose proof (mul_bound (xs0 - xs2) (ys1 - ys2) 1023).
    pose proof (mul_bound (xs1 - xs2) (ys0 - ys2) 1023).
    subst Dt. lia. }
  assert (HD : ((xs0 ⊖ xs2) ⊗ (ys1 ⊖ ys2)) ⊖ ((xs1 ⊖ xs2) ⊗ (ys0 ⊖ ys2)) = Dt).
  { apply eqm32_inj.
    - unfold add32, sub32, mul32. rewrite !int32_eqm. reflexivity.
    - apply int32_range.
    - lia. }
  rewrite HD in *.
  match goal with |- int16 (?n ⊘ _) = _ => assert (HN : n = d * Dt) end.
  { apply eqm32_inj.
    - unfold add32, sub32, mul32. rewrite !int32_eqm. rewrite <- Hid.
      match goal with |- eqm32 ?a ?b => replace a with b by ring end.
      reflexivity.
    - apply int32_range.
    - assert (- (1023 * (2 * (1023 * 1023))) <= d * Dt
              <= 1023 * (2 * (1023 * 1023))) by nia.
      lia. }
  rewrite HN. unfold div32. rewrite Z.quot_mul by exact Hne.
  rewrite int32_small by lia. apply int16_small. lia.
Qed.

(** C2, within the range the code is written for: for three display
    targets and three raw samples with all coordinates in 0..1023 (a 10-bit
    digitizer) and a computed [Divider] other than 0,
    [TouchPanelComputeCalibration] succeeds, hands the active matrix to the
    caller, and the transform of [TouchPanelReadable] with that matrix
    sends each of the three raw samples to its display target exactly. *)
Theorem calibration_round_trip
    (displayPtr screenPtr : points3) (matrixPtr : option tpMatrix_t)
    (s : RA8875) :
  points_in10 displayPtr ->
  points_in10 screenPtr ->
  calc_Divider screenPtr <> 0 ->
  let res := TouchPanelComputeCalibration displayPtr screenPtr matrixPtr s in
  let m := tpMatrix res.2 in
  res.1.1 = noerror /\
  res.1.2 = (fun _ => m) <$> matrixPtr /\
  Divider m <> 0 /\
  getDisplayPoint m (px (pt0 screenPtr)) (py (pt0 screenPtr)) = pt0 displayPtr /\
  getDisplayPoint m (px (pt1 screenPtr)) (py (pt1 screenPtr)) = pt1 displayPtr /\
  getDisplayPoint m (px (pt2 screenPtr)) (py (pt2 screenPtr)) = pt2 displayPtr.
Proof.
  destruct displayPtr as [[xd0 yd0] [xd1 yd1] [xd2 yd2]].
  destruct screenPtr as [[xs0 ys0] [xs1 ys1] [xs2 ys2]].
  unfold points_in10, point_in10. cbn [pt0 pt1 pt2 px py].
  intros [[? ?] [[? ?] [? ?]]] [[? ?] [[? ?] [? ?]]] Hne.
  unfold TouchPanelComputeCalibration.
  cbn [tpMatrix set_tpMatrix Divider set_Divider].
  destruct (Z.eqb_spec
              (calc_Divider (mkPoints3 (mkPoint xs0 ys0) (mkPoint xs1 ys1)
                                       (mkPoint xs2 ys2))) 0) as [E|_];
    [contradiction|].
  cbn zeta. cbn [fst snd tpMatrix set_tpMatrix set_touchState Divider].
  split; [reflexivity|]. split; [now destruct matrixPtr|].
  split; [exact Hne|].
  unfold getDisplayPoint, calc_An, calc_Bn, calc_Cn, calc_Dn, calc_En,
    calc_Fn, calc_Divider in *.
  cbn [An Bn Cn Dn En Fn Divider pt0 pt1 pt2 px py] in *.
  repeat split; f_equal; apply axis_round_trip; auto; ring.
Qed.

(** The end-to-end scenario: targets (50,50), (430,150), (225,250) against
    raw samples (100,100), (900,300), (500,600). *)
Lemma calibration_round_trip_scenario :
  let res := TouchPanelComputeCalibration scenario_display scenario_screen
               (Some (mkMatrix 0 0 0 0 0 0 0)) calibrated in
  let m := tpMatrix res.2 in
  res.1.1 = noerror /\
  res.1.2 = (fun _ => m) <$> Some (mkMatrix 0 0 0 0 0 0 0) /\
  Divider m <> 0 /\
  getDisplayPoint m 100 100 = mkPoint 50 50 /\
  getDisplayPoint m 900 300 = mkPoint 430 150 /\
  getDisplayPoint m 500 600 = mkPoint 225 250.
Proof.
  apply (calibration_round_trip scenario_display scenario_screen).
  - unfold points_in10, point_in10, in10. cbn. lia.
  - unfold points_in10, point_in10, in10. cbn. lia.
  - vm_compute. discriminate.
Defined.

(** C2 as stated fails outside that range: the raw samples (0,0), (4095,0),
    (0,4095) of a 12-bit digitizer are not collinear ([Divider] is
    16769025), the calibration succeeds, and the transform sends the second
    raw sample to (-82,-106), not to its target (430,150): the product
    [An * 4095] does not fit 32 bits. *)
Lemma calibration_round_trip_overflow :
  let res := TouchPanelComputeCalibration scenario_display wide_screen None
               calibrated in
  calc_Divider wide_screen = 16769025 /\
  res.1.1 = noerror /\
  Divider (tpMatrix res.2) <> 0 /\
  getDisplayPoint (tpMatrix res.2) 4095 0 = mkPoint (-82) (-106) /\
  getDisplayPoint (tpMatrix res.2) (px (pt1 wide_screen)) (py (pt1 wide_screen))
    <> pt1 scenario_display.
Proof. vm_compute. repeat split; discriminate. Qed.

(** ** InsertionSort *)

(** The inner loop on a buffer [pre ++ h :: suf], entered at the slot of
    [h]: [temp] lands between the entries of [pre] it is not below and the
    trailing ones that exceed it. *)
Lemma shift_down_spec temp : forall pre suf h,
  exists a b,
    pre = a ++ b /\
    shift_down (pre ++ h :: suf) temp (length pre) = a ++ temp :: b ++ suf /\
    Forall (fun z => temp < z) b /\
    (a = [] \/ exists a' z, a = a' ++ [z] /\ z <= temp).
Proof.
  induction pre as [|x pre IH] using rev_ind; intros suf h.
  - exists [], []. cbn. auto.
  - rewrite length_app, Nat.add_1_r. cbn [length shift_down].
    assert (Hl : load ((pre ++ [x]) ++ h :: suf) (length pre) = x).
    { unfold load. rewrite <- app_assoc. cbn.
      now rewrite list_lookup_middle. }
    assert (Hst : forall v, store ((pre ++ [x]) ++ h :: suf) (S (length pre)) v
                  = pre ++ x :: v :: suf).
    { intros v. unfold store. rewrite <- app_assoc. cbn [app].
      replace (S (length pre)) with (length pre + 1)%nat by lia.
      now rewrite insert_app_r. }
    rewrite Hl, !Hst. destruct (Z.gtb_spec x temp) as [Hgt|Hle].
    + destruct (IH (x :: suf) x) as (a & b & -> & E & Hb & Ha).
      exists a, (b ++ [x]). rewrite E, <- !app_assoc. cbn [app].
      repeat split; auto. apply Forall_app. split; [exact Hb|].
      constructor; [lia | constructor].
    + exists (pre ++ [x]), []. rewrite <- !app_assoc. cbn [app].
      repeat split; auto.
      right. exists pre, x. split; [reflexivity | lia].
Qed.

(** The outer loop keeps the scanned prefix sorted and the buffer a
    rearrangement of what it was. *)
Lemma sort_from_spec n : forall pre rest,
  StronglySorted Z.le pre ->
  (n <= length rest)%nat ->
  exists pre' rest',
    sort_from n (length pre) (pre ++ rest) = pre' ++ rest' /\
    length pre' = (length pre + n)%nat /\
    StronglySorted Z.le pre' /\
    pre' ++ rest' ≡ₚ pre ++ rest.
Proof.
  induction n as [|n IH]; intros pre rest Hs Hn.
  - exists pre, rest. cbn. rewrite Nat.add_0_r. auto.
  - destruct rest as [|h suf]; [cbn in Hn; lia|].
    cbn [sort_from].
    assert (Hl : load (pre ++ h :: suf) (length pre) = h).
    { unfold load. now rewrite list_lookup_middle. }
    rewrite Hl.
    destruct (shift_down_spec h pre suf h) as (a & b & -> & E & Hb & Ha).
    rewrite E.
    assert (Hs' : StronglySorted Z.le (a ++ h :: b)).
    { apply StronglySorted_app in Hs as (Hab & Hsa & Hsb).
      apply StronglySorted_app_2.
      - intros x1 x2 H1 H2. apply elem_of_cons in H2 as [->|H2].
        + destruct Ha as [->|(a' & z & -> & Hz)]; [inversion H1|].
          apply elem_of_app in H1 as [H1|H1].
          * apply StronglySorted_app in Hsa as (Hz' & _ & _).
            specialize (Hz' x1 z H1 ltac:(left)). lia.
          * apply list_elem_of_singleton in H1 as ->. exact Hz.
        + auto.
      - exact Hsa.
      - constructor; [exact Hsb|].
        eapply Forall_impl; [exact Hb|]. cbn. intros; lia. }
    destruct (IH (a ++ h :: b) suf Hs') as (pre' & rest' & E' & Hlen & Hs'' & Hp).
    { cbn in Hn. lia. }
    replace (S (length (a ++ b))) with (length (a ++ h :: b))
      by (rewrite !length_app; cbn; lia).
    replace (a ++ h :: b ++ suf) with ((a ++ h :: b) ++ suf)
      by (now rewrite <- app_assoc).
    exists pre', rest'. rewrite E'. repeat split; auto.
    + rewrite Hlen, !length_app. cbn. lia.
    + rewrite Hp, <- !app_assoc. cbn.
      apply Permutation_app_head. apply Permutation_middle.
Qed.

(** [InsertionSort] sorts: on a buffer of [bufsize] entries the result is
    in ascending order and a rearrangement of the buffer. *)
Lemma InsertionSort_sorts buf bufsize :
  Z.of_nat (length buf) = bufsize ->
  StronglySorted Z.le (InsertionSort buf bufsize) /\
  InsertionSort buf bufsize ≡ₚ buf.
Proof.
  intros Hlen. unfold InsertionSort. destruct buf as [|x buf].
  - cbn in Hlen. subst. cbn. split; constructor.
  - destruct (sort_from_spec (Z.to_nat (bufsize - 1)) [x] buf)
      as (pre' & rest' & E & Hl & Hs & Hp).
    + repeat constructor.
    + cbn [length] in Hlen. lia.
    + cbn [length app] in E. rewrite E.
      assert (rest' = []) as ->.
      { apply (f_equal length) in E. apply Permutation_length in Hp.
        rewrite length_app in Hp. cbn [length app] in *.
        destruct rest'; [reflexivity|]. cbn in Hp. lia. }
      rewrite app_nil_r in *. split; [exact Hs | exact Hp].
Qed.

(** A buffer of equal entries is sorted as it stands. *)
Lemma load_replicate m v i : (i < m)%nat -> load (replicate m v) i = v.
Proof. intros H. unfold load. now rewrite lookup_replicate_2. Qed.

Lemma store_replicate m v i : store (replicate m v) i v = replicate m v.
Proof.
  unfold store. destruct (decide (i < m)%nat) as [H|H].
  - apply list_insert_id. now apply lookup_replicate_2.
  - apply list_insert_ge. rewrite length_replicate. lia.
Qed.

Lemma shift_down_replicate m v i :
  (i < m)%nat -> shift_down (replicate m v) v i = replicate m v.
Proof.
  intros H. destruct i as [|i]; cbn [shift_down].
  - apply store_replicate.
  - rewrite load_replicate by lia.
    rewrite Z.gtb_ltb, Z.ltb_irrefl. apply store_replicate.
Qed.

Lemma sort_from_replicate n : forall i m v,
  (i + n <= m)%nat -> sort_from n i (replicate m v) = replicate m v.
Proof.
  induction n as [|n IH]; intros i m v H; [reflexivity|].
  cbn [sort_from]. rewrite load_replicate by lia.
  rewrite shift_down_replicate by lia. apply IH. lia.
Qed.

Lemma InsertionSort_replicate v :
  InsertionSort (replicate 16 v) TPBUFSIZE = replicate 16 v.
Proof. unfold InsertionSort. apply sort_from_replicate. vm_compute. lia. Qed.

(** ** _TouchTicker *)

Lemma elapse_elapse a b s : elapse a (elapse b s) = elapse (b + a) s.
Proof. destruct s. unfold elapse, set_touchTimer. cbn. f_equal. lia. Qed.

Lemma elapse_0 s : elapse 0 s = s.
Proof. destruct s. unfold elapse, set_touchTimer. cbn. f_equal. lia. Qed.

Lemma TouchTicker_quiet s :
  touchTimer s <= NOTOUCH_TIMEOUT_uS -> _TouchTicker s = s.
Proof.
  intros H. unfold _TouchTicker.
  destruct (Z.gtb_spec (touchTimer s) NOTOUCH_TIMEOUT_uS); [lia | reflexivity].
Qed.

Lemma TouchTicker_fires s :
  NOTOUCH_TIMEOUT_uS < touchTimer s ->
  _TouchTicker s
    = set_touchTimer 0
        (set_touchState
           (match touchState s with held => release | _ => no_touch end)
           (set_touchSample 0 s)).
Proof.
  intros H. unfold _TouchTicker.
  destruct (Z.gtb_spec (touchTimer s) NOTOUCH_TIMEOUT_uS); [|lia].
  cbn. now destruct (touchState s).
Qed.

(** C5, as the code has it: a check that finds the timer at 100,000
    microseconds or less changes nothing; a check that finds it above
    100,000 clears the sample index, restarts the timer, and moves [held] to
    [release] and every other state to [no_touch] at once. *)
Theorem TouchTicker_spec (s : RA8875) :
  (touchTimer s <= NOTOUCH_TIMEOUT_uS -> _TouchTicker s = s) /\
  (NOTOUCH_TIMEOUT_uS < touchTimer s ->
   touchState (_TouchTicker s)
     = match touchState s with held => release | _ => no_touch end /\
   touchSample (_TouchTicker s) = 0 /\
   touchTimer (_TouchTicker s) = 0 /\
   _TouchTicker s
     = set_touchTimer 0
         (set_touchState (touchState (_TouchTicker s)) (set_touchSample 0 s))).
Proof.
  split; [apply TouchTicker_quiet|].
  intros H. rewrite (TouchTicker_fires s H). cbn. auto.
Qed.

Lemma TouchTicker_spec_witness :
  touchState (_TouchTicker (set_touchTimer 100001 (set_touchState held calibrated)))
    = release /\
  touchState (_TouchTicker (set_touchTimer 100001 (set_touchState release calibrated)))
    = no_touch /\
  _TouchTicker (set_touchTimer 100000 (set_touchState held calibrated))
    = set_touchTimer 100000 (set_touchState held calibrated).
Proof.
  split; [|split].
  - apply (TouchTicker_spec (set_touchTimer 100001 (set_touchState held calibrated))).
    vm_compute. reflexivity.
  - apply (TouchTicker_spec (set_touchTimer 100001 (set_touchState release calibrated))).
    vm_compute. reflexivity.
  - apply (TouchTicker_spec (set_touchTimer 100000 (set_touchState held calibrated))).
    vm_compute. discriminate.
Defined.

(** C5 as stated fails: from [touch], a check 100,001 microseconds after
    the last sample moves the state to [no_touch] with no [release] in
    between; and at 100,000 microseconds exactly a check leaves [held]. *)
Lemma TouchTicker_skips_release :
  touchState (set_touchTimer 100001 (set_touchState touch calibrated)) = touch /\
  touchState (_TouchTicker (set_touchTimer 100001 (set_touchState touch calibrated)))
    = no_touch /\
  touchState (_TouchTicker (set_touchTimer 100000 (set_touchState held calibrated)))
    = held.
Proof. vm_compute. auto. Qed.

Lemma run_ticker_add a b s :
  run_ticker (a + b) s = run_ticker b (run_ticker a s).
Proof.
  revert s. induction a as [|a IH]; intros s; [reflexivity|].
  cbn. apply IH.
Qed.

(** While the timer stays within the threshold, the ticker only lets time
    pass. *)
Lemma run_ticker_quiet k s :
  touchTimer s + TOUCH_TICKER_uS * Z.of_nat k <= NOTOUCH_TIMEOUT_uS ->
  run_ticker k s = elapse (TOUCH_TICKER_uS * Z.of_nat k) s.
Proof.
  revert s. induction k as [|k IH]; intros s H.
  - cbn. now rewrite elapse_0.
  - cbn [run_ticker]. unfold TOUCH_TICKER_uS in *.
    rewrite TouchTicker_quiet by (cbn; lia).
    rewrite IH by (cbn; lia). rewrite elapse_elapse. f_equal. lia.
Qed.

(** The first check that finds the timer above the threshold. *)
Lemma run_ticker_expires k s :
  touchTimer s + TOUCH_TICKER_uS * Z.of_nat k <= NOTOUCH_TIMEOUT_uS ->
  NOTOUCH_TIMEOUT_uS < touchTimer s + TOUCH_TICKER_uS * Z.of_nat (S k) ->
  run_ticker (S k) s
    = set_touchTimer 0
        (set_touchState
           (match touchState s with held => release | _ => no_touch end)
           (set_touchSample 0 s)).
Proof.
  intros Hq Hf. replace (S k) with (k + 1)%nat by lia.
  rewrite run_ticker_add, (run_ticker_quiet k s Hq). cbn [run_ticker].
  rewrite elapse_elapse, TouchTicker_fires by (cbn; lia).
  destruct s; reflexivity.
Qed.

(** C6: from [held], with no sample arriving, the periodic ticker alone
    takes the state to [release] at its first check that finds the timer
    above 100,000 microseconds, keeps it there for the next 100 checks, and
    takes it to [no_touch] at the 101st.  [run_ticker] reads no register. *)
Theorem watchdog_held_release_no_touch (s : RA8875) :
  touchState s = held ->
  let n := S (Z.to_nat ((NOTOUCH_TIMEOUT_uS - touchTimer s) / TOUCH_TICKER_uS)) in
  (forall k, (k < n)%nat -> touchState (run_ticker k s) = held) /\
  touchState (run_ticker n s) = release /\
  (forall k, (n <= k < n + 101)%nat -> touchState (run_ticker k s) = release) /\
  touchState (run_ticker (n + 101) s) = no_touch.
Proof.
  intros Hheld n.
  set (q := Z.to_nat ((NOTOUCH_TIMEOUT_uS - touchTimer s) / TOUCH_TICKER_uS)) in *.
  set (s1 := set_touchTimer 0 (set_touchState release (set_touchSample 0 s))).
  unfold NOTOUCH_TIMEOUT_uS, TOUCH_TICKER_uS in q.
  assert (Hquiet : forall k, (k <= q)%nat -> k <> O ->
            touchTimer s + TOUCH_TICKER_uS * Z.of_nat k <= NOTOUCH_TIMEOUT_uS).
  { intros k Hk Hk0. unfold NOTOUCH_TIMEOUT_uS, TOUCH_TICKER_uS.
    assert (0 < (100000 - touchTimer s) / 1000) by (subst q; lia).
    pose proof (Z.mul_div_le (100000 - touchTimer s) 1000).
    assert (Z.of_nat k <= (100000 - touchTimer s) / 1000) by (subst q; lia).
    nia. }
  assert (Hfire : run_ticker n s = s1).
  { subst n. destruct (Nat.eq_dec q O) as [E|E].
    - rewrite E. cbn [run_ticker].
      rewrite TouchTicker_fires.
      + cbn. rewrite Hheld. destruct s; reflexivity.
      + cbn. unfold NOTOUCH_TIMEOUT_uS, TOUCH_TICKER_uS.
        destruct (Z.le_gt_cases 1000 (100000 - touchTimer s)) as [Hle|Hgt]; [|lia].
        pose proof (Z.div_le_mono 1000 (100000 - touchTimer s) 1000).
        change (1000 / 1000) with 1 in *. subst q. lia.
    - rewrite run_ticker_expires.
      + rewrite Hheld. reflexivity.
      + apply Hquiet; [lia | exact E].
      + unfold NOTOUCH_TIMEOUT_uS, TOUCH_TICKER_uS.
        pose proof (Z.mod_pos_bound (100000 - touchTimer s) 1000).
        pose proof (Z.div_mod (100000 - touchTimer s) 1000).
        assert (0 <= (100000 - touchTimer s) / 1000) by (subst q; lia).
        assert (Z.of_nat (S q) = (100000 - touchTimer s) / 1000 + 1)
          by (subst q; lia).
        lia. }
  split; [|split; [|split]].
  - intros k Hk. destruct k as [|k]; [exact Hheld|].
    rewrite run_ticker_quiet by (apply Hquiet; subst n; lia).
    exact Hheld.
  - rewrite Hfire. reflexivity.
  - intros k Hk. replace k with (n + (k - n))%nat by lia.
    rewrite run_ticker_add, Hfire, run_ticker_quiet.
    + reflexivity.
    + unfold NOTOUCH_TIMEOUT_uS, TOUCH_TICKER_uS. cbn [s1 touchTimer set_touchTimer]. lia.
  - replace (n + 101)%nat with (n + S 100)%nat by lia.
    rewrite run_ticker_add, Hfire, run_ticker_expires.
    + reflexivity.
    + vm_compute. discriminate.
    + vm_compute. reflexivity.
Qed.

Lemma watchdog_held_release_no_touch_witness :
  let s := set_touchState held calibrated in
  (forall k, (k < 101)%nat -> touchState (run_ticker k s) = held) /\
  touchState (run_ticker 101 s) = release /\
  (forall k, (101 <= k < 202)%nat -> touchState (run_ticker k s) = release) /\
  touchState (run_ticker 202 s) = no_touch.
Proof.
  apply (watchdog_held_release_no_touch (set_touchState held calibrated)).
  reflexivity.
Defined.

(** ** TouchPanelA2DFiltered *)

Ltac filter_cases :=
  unfold TouchPanelA2DFiltered; cbn;
  repeat match goal with
         | |- context [if ?c then _ else _] => destruct c eqn:?; cbn
         end.

(** The filter leaves the members outside the sampling machinery alone. *)
Lemma TouchPanelA2DFiltered_frame r x y s :
  let s' := (TouchPanelA2DFiltered r x y s).2 in
  useTouchPanel s' = useTouchPanel s /\
  numberOfTouchPoints s' = numberOfTouchPoints s /\
  touchInfo s' = touchInfo s /\
  panelTouched s' = panelTouched s /\
  tpMatrix s' = tpMatrix s.
Proof. destruct s. filter_cases; auto. Qed.

(** Its return code does not depend on the caller's variables or on the
    members it leaves alone. *)
Lemma filtered_code_eq r x y s :
  (TouchPanelA2DFiltered r x y s).1.1.1 = filtered_code r s.
Proof. unfold filtered_code. destruct s. filter_cases; auto. Qed.

Lemma filtered_code_set_touchInfo r v s :
  filtered_code r (set_touchInfo v s) = filtered_code r s.
Proof. unfold filtered_code. destruct s. filter_cases; auto. Qed.

Lemma filtered_code_set_panelTouched r v s :
  filtered_code r (set_panelTouched v s) = filtered_code r s.
Proof. unfold filtered_code. destruct s. filter_cases; auto. Qed.

(** Unless the state machine is idle, the filter reports a touch code. *)
Lemma filtered_code_not_idle r s :
  touchState s <> no_touch -> filtered_code r s <> no_touch.
Proof.
  unfold filtered_code. destruct s as [? ts ? ? ? ? ? ? ? ? ? ?]. cbn.
  intros H. filter_cases; try discriminate; try exact H;
    destruct ts; cbn in *; congruence.
Qed.

(** The sample index stays within the buffers. *)
Lemma TouchPanelA2DFiltered_touchSample r x y s :
  0 <= touchSample s < TPBUFSIZE ->
  0 <= touchSample (TouchPanelA2DFiltered r x y s).2 < TPBUFSIZE.
Proof.
  unfold TPBUFSIZE. intros H.
  assert (E : add32 (touchSample s) 1 = touchSample s + 1)
    by (apply int32_small; lia).
  destruct s. cbn in *. unfold TouchPanelA2DFiltered. cbn.
  repeat match goal with
         | |- context [?a =? ?b] => destruct (Z.eqb_spec a b); cbn
         | |- context [if ?c then _ else _] => destruct c eqn:?; cbn
         end; rewrite ?E in *; unfold TPBUFSIZE in *; lia.
Qed.

(** The completing call of a batch: the averages it reports are the ones it
    keeps in [lastX] and [lastY]. *)
Lemma TouchPanelA2DFiltered_full_batch r x y s :
  tp_interrupt_pending r = true ->
  add32 (touchSample s) 1 = TPBUFSIZE ->
  let res := TouchPanelA2DFiltered r x y s in
  let i := Z.to_nat (touchSample s) in
  res.1.1.2 = scale_average (middle_sum (InsertionSort (store (xbuf s) i (sampleX r)) TPBUFSIZE)) /\
  res.1.2 = scale_average (middle_sum (InsertionSort (store (ybuf s) i (sampleY r)) TPBUFSIZE)) /\
  lastX res.2 = res.1.1.2 /\
  lastY res.2 = res.1.2 /\
  res.1.1.1 = (if touch_or_held (touchState s) then held else touch) /\
  touchState res.2 = res.1.1.1 /\
  touchSample res.2 = 0.
Proof.
  intros Hp Hfull. destruct s. cbn in *.
  unfold TouchPanelA2DFiltered. cbn. rewrite Hp, Hfull. cbn.
  match goal with |- context [touch_or_held ?t] => destruct (touch_or_held t) end;
    cbn; auto 10.
Qed.

(** The nine entries the averaging loop adds up. *)
Lemma middle_sum_entries b0 b1 b2 b3 b4 b5 b6 b7 b8 b9 b10 b11 b12 b13 b14 b15 :
  middle_sum [b0; b1; b2; b3; b4; b5; b6; b7; b8; b9; b10; b11; b12; b13; b14; b15]
  = 0 ⊕ b3 ⊕ b4 ⊕ b5 ⊕ b6 ⊕ b7 ⊕ b8 ⊕ b9 ⊕ b10 ⊕ b11.
Proof. reflexivity. Qed.

(** With no sample pending and no touch in progress or just released, the
    filter reports the state and changes nothing. *)
Lemma TouchPanelA2DFiltered_idle r x y s :
  tp_interrupt_pending r = false ->
  touch_or_held (touchState s) = false ->
  touchState s <> release ->
  TouchPanelA2DFiltered r x y s = (touchState s, x, y, s).
Proof.
  intros Hr Ht Hrel. unfold TouchPanelA2DFiltered. rewrite Hr, Ht.
  destruct (decide (touchState s = release)); [contradiction | reflexivity].
Qed.


(** ** Runs of polls and the batch in the making *)

Lemma poll_log_cons r rs x y s :
  poll_log (r :: rs) x y s
  = let res := TouchPanelA2DFiltered r x y s in
    let rest := poll_log rs res.1.1.2 res.1.2 res.2 in
    (res.1 :: rest.1.1.1, rest.1.1.2, rest.1.2, rest.2).
Proof.
  cbn [poll_log]. destruct (TouchPanelA2DFiltered r x y s) as [[[t x'] y'] s'].
  cbn. destruct (poll_log rs x' y' s') as [[[l x2] y2] s2]. reflexivity.
Qed.

Lemma poll_log_app rs1 rs2 : forall x y s,
  poll_log (rs1 ++ rs2) x y s
  = let a := poll_log rs1 x y s in
    let b := poll_log rs2 a.1.1.2 a.1.2 a.2 in
    (a.1.1.1 ++ b.1.1.1, b.1.1.2, b.1.2, b.2).
Proof.
  induction rs1 as [|r rs1 IH]; intros x y s.
  - cbn. now destruct (poll_log rs2 x y s) as [[[l x2] y2] s2].
  - cbn [app]. rewrite !poll_log_cons. cbv zeta. rewrite IH. reflexivity.
Qed.

(** A call that does not complete a batch stores the sample it finds and
    moves the index on, or finds none and leaves the buffers alone. *)
Lemma TouchPanelA2DFiltered_store r x y s :
  let res := TouchPanelA2DFiltered r x y s in
  if tp_interrupt_pending r then
    add32 (touchSample s) 1 <> TPBUFSIZE ->
    xbuf res.2 = store (xbuf s) (Z.to_nat (touchSample s)) (sampleX r) /\
    ybuf res.2 = store (ybuf s) (Z.to_nat (touchSample s)) (sampleY r) /\
    touchSample res.2 = add32 (touchSample s) 1
  else
    xbuf res.2 = xbuf s /\ ybuf res.2 = ybuf s /\
    touchSample res.2 = touchSample s.
Proof.
  destruct s as [? ts ? ? ? ? i ? xb yb lx ly].
  unfold TouchPanelA2DFiltered. cbn.
  destruct (tp_interrupt_pending r); cbn.
  - intros Hn. destruct (Z.eqb_spec (add32 i 1) TPBUFSIZE); [contradiction|].
    destruct (touch_or_held ts); cbn; auto.
  - destruct (touch_or_held ts); cbn; [auto|].
    destruct (decide (ts = release)); cbn; auto.
Qed.

(** The samples of a batch in the making are in the buffers in the order
    of their arrival, from the index the batch started at. *)
Lemma poll_log_samples rs : forall x y s px sx py sy,
  xbuf s = px ++ sx -> ybuf s = py ++ sy ->
  Z.of_nat (length px) = touchSample s -> length py = length px ->
  let n := length (pending_regs rs) in
  (n <= length sx)%nat -> (n <= length sy)%nat ->
  touchSample s + Z.of_nat n < TPBUFSIZE ->
  let res := poll_log rs x y s in
  xbuf res.2 = px ++ (sampleX <$> pending_regs rs) ++ drop n sx /\
  ybuf res.2 = py ++ (sampleY <$> pending_regs rs) ++ drop n sy /\
  touchSample res.2 = touchSample s + Z.of_nat n.
Proof.
  unfold TPBUFSIZE.
  induction rs as [|r rs IH]; intros x y s px sx py sy Hx Hy Hpx Hpy Hsx Hsy Hn.
  - cbn. rewrite !drop_0. split; [exact Hx|]. split; [exact Hy | lia].
  - rewrite poll_log_cons. cbv zeta. cbn [snd].
    pose proof (TouchPanelA2DFiltered_store r x y s) as Hst. cbv zeta in Hst.
    unfold pending_regs in *. cbn [List.filter] in *.
    destruct (tp_interrupt_pending r) eqn:Hr.
    + cbn [length fmap list_fmap] in *.
      assert (E : add32 (touchSample s) 1 = touchSample s + 1)
        by (apply int32_small; lia).
      destruct Hst as (Hx' & Hy' & Hts'); [rewrite E; unfold TPBUFSIZE; lia|].
      destruct sx as [|a sx]; [cbn in Hsx; lia|].
      destruct sy as [|b sy]; [cbn in Hsy; lia|].
      cbn [length] in Hsx, Hsy.
      set (s1 := (TouchPanelA2DFiltered r x y s).2) in *.
      destruct (IH (TouchPanelA2DFiltered r x y s).1.1.2
                   (TouchPanelA2DFiltered r x y s).1.2 s1
                   (px ++ [sampleX r]) sx (py ++ [sampleY r]) sy)
        as (Ix & Iy & It).
      * rewrite Hx', Hx. unfold store. rewrite <- Hpx, Nat2Z.id.
        rewrite insert_app_r_alt by lia. rewrite Nat.sub_diag. cbn.
        now rewrite <- app_assoc.
      * rewrite Hy', Hy. unfold store. rewrite <- Hpx, Nat2Z.id, <- Hpy.
        rewrite insert_app_r_alt by lia. rewrite Nat.sub_diag. cbn.
        now rewrite <- app_assoc.
      * rewrite Hts', E, length_app. cbn. lia.
      * rewrite !length_app. cbn. lia.
      * lia.
      * lia.
      * rewrite Hts', E. lia.
      * rewrite Ix, Iy, It, Hts', E.
        rewrite <- !app_assoc. cbn. split; [reflexivity|].
        split; [reflexivity | lia].
    + destruct Hst as (Hx' & Hy' & Hts').
      set (s1 := (TouchPanelA2DFiltered r x y s).2) in *.
      destruct (IH (TouchPanelA2DFiltered r x y s).1.1.2
                   (TouchPanelA2DFiltered r x y s).1.2 s1 px sx py sy)
        as (Ix & Iy & It); try assumption; try congruence.
      rewrite Ix, Iy, It, Hts'. auto.
Qed.

(** One call while a touch is in progress that does not complete a batch. *)
Lemma TouchPanelA2DFiltered_in_progress r x y s :
  touch_or_held (touchState s) = true ->
  ~ (tp_interrupt_pending r = true /\ add32 (touchSample s) 1 = TPBUFSIZE) ->
  let res := TouchPanelA2DFiltered r x y s in
  res.1 = (held, lastX s, lastY s) /\
  touchState res.2 = held /\
  lastX res.2 = lastX s /\
  lastY res.2 = lastY s.
Proof.
  intros Ht Hn. destruct s. cbn in *.
  unfold TouchPanelA2DFiltered. cbn.
  destruct (tp_interrupt_pending r); cbn.
  - match goal with |- context [?a =? ?b] => destruct (Z.eqb_spec a b) end.
    + exfalso. apply Hn. auto.
    + cbn. rewrite Ht. cbn. auto.
  - rewrite Ht. cbn. auto.
Qed.

(** As long as the samples arriving do not fill the buffers, every call
    made while a touch is in progress returns [held] with [lastX] and
    [lastY]. *)
Lemma poll_log_in_progress rs : forall x y s,
  touch_or_held (touchState s) = true ->
  0 <= touchSample s ->
  touchSample s + Z.of_nat (length (pending_regs rs)) < TPBUFSIZE ->
  let res := poll_log rs x y s in
  res.1.1.1 = replicate (length rs) (held, lastX s, lastY s) /\
  lastX res.2 = lastX s /\ lastY res.2 = lastY s /\
  (rs <> [] ->
   touchState res.2 = held /\ res.1.1.2 = lastX s /\ res.1.2 = lastY s).
Proof.
  unfold TPBUFSIZE.
  induction rs as [|r rs IH]; intros x y s Ht H0 Hn.
  - cbn. repeat split; auto; contradiction.
  - rewrite poll_log_cons. cbv zeta. cbn [fst snd].
    assert (E : add32 (touchSample s) 1 = touchSample s + 1)
      by (apply int32_small; lia).
    assert (Hnc : ~ (tp_interrupt_pending r = true /\
                     add32 (touchSample s) 1 = TPBUFSIZE)).
    { intros [Hr Hc]. unfold pending_regs in Hn. cbn [List.filter] in Hn.
      rewrite Hr in Hn. cbn [length] in Hn. rewrite E in Hc.
      unfold TPBUFSIZE in Hc. lia. }
    destruct (TouchPanelA2DFiltered_in_progress r x y s Ht Hnc)
      as (H1 & Hst & HX & HY).
    pose proof (TouchPanelA2DFiltered_store r x y s) as Hs. cbv zeta in Hs.
    set (f := TouchPanelA2DFiltered r x y s) in *.
    assert (Hts : 0 <= touchSample f.2 /\
                  touchSample f.2 + Z.of_nat (length (pending_regs rs)) < 16).
    { unfold pending_regs in *. cbn [List.filter] in Hn.
      destruct (tp_interrupt_pending r).
      - cbn [length] in Hn.
        destruct Hs as (_ & _ & ->); [rewrite E; unfold TPBUFSIZE; lia|].
        rewrite E. lia.
      - destruct Hs as (_ & _ & ->). lia. }
    destruct Hts as [Hts0 Hts1].
    destruct (IH f.1.1.2 f.1.2 f.2) as (I1 & I2 & I3 & I4);
      [rewrite Hst; reflexivity | exact Hts0 | exact Hts1 |].
    rewrite I1, I2, I3, HX, HY. cbn [length replicate].
    split; [rewrite H1; reflexivity|].
    split; [reflexivity|]. split; [reflexivity|].
    intros _. destruct rs as [|r' rs'].
    + cbn. rewrite H1. cbn. auto.
    + destruct I4 as (J1 & J2 & J3); [discriminate|].
      rewrite J1, J2, J3, HX, HY. auto.
Qed.

(** C7: while the buffers have not filled again and the touch is in
    progress, every call reports the previous completed batch.  A batch is
    sixteen samples [batch], found by calls that may alternate with calls
    finding none; the call that finds the sixteenth hands out the averages
    [X] and [Y] of that batch, computed from its samples as the filter
    does, and leaves a touch in progress.  Every call of any run [rs] that
    follows with fewer than sixteen new samples, whether it finds a sample
    or not and whatever the caller's variables hold, returns [held] and
    writes [X] and [Y] to them; [lastX] and [lastY] keep these values. *)
Theorem TouchPanelA2DFiltered_partial_batch
    (rs1 : list Regs) (r16 : Regs) (rs : list Regs) (x y x' y' : Z)
    (s : RA8875) :
  touchSample s = 0 ->
  length (xbuf s) = 16%nat -> length (ybuf s) = 16%nat ->
  length (pending_regs rs1) = 15%nat ->
  tp_interrupt_pending r16 = true ->
  (length (pending_regs rs) < 16)%nat ->
  let batch := pending_regs rs1 ++ [r16] in
  let X := scale_average
             (middle_sum (InsertionSort (sampleX <$> batch) TPBUFSIZE)) in
  let Y := scale_average
             (middle_sum (InsertionSort (sampleY <$> batch) TPBUFSIZE)) in
  let a := poll_log (rs1 ++ [r16]) x y s in
  let b := poll_log rs x' y' a.2 in
  (exists t, last a.1.1.1 = Some (t, X, Y) /\ touch_or_held t = true) /\
  touch_or_held (touchState a.2) = true /\
  b.1.1.1 = replicate (length rs) (held, X, Y) /\
  lastX b.2 = X /\ lastY b.2 = Y /\
  touch_or_held (touchState b.2) = true.
Proof.
  intros H0 Hlx Hly H15 Hr16 Hrs. cbv zeta.
  rewrite poll_log_app. cbv zeta. cbn [fst snd].
  destruct (poll_log_samples rs1 x y s [] (xbuf s) [] (ybuf s))
    as (Hxb & Hyb & Hts); try reflexivity;
    try (rewrite H15; lia); try (rewrite H0; reflexivity).
  { rewrite H15, H0. unfold TPBUFSIZE. lia. }
  rewrite H15, H0 in Hts. cbn [app] in Hxb, Hyb. rewrite H15 in Hxb, Hyb.
  set (a := poll_log rs1 x y s) in *.
  rewrite poll_log_cons. cbv zeta. cbn [poll_log fst snd].
  assert (Hfull : add32 (touchSample a.2) 1 = TPBUFSIZE)
    by (rewrite Hts; reflexivity).
  destruct (TouchPanelA2DFiltered_full_batch r16 a.1.1.2 a.1.2 a.2 Hr16 Hfull)
    as (HX & HY & HlX & HlY & Hret & Hst & Hts0).
  cbv zeta in *.
  assert (Ex : store (xbuf a.2) (Z.to_nat (touchSample a.2)) (sampleX r16)
               = sampleX <$> (pending_regs rs1 ++ [r16])).
  { rewrite Hxb, Hts. unfold store. rewrite fmap_app.
    assert (Hl : length (sampleX <$> pending_regs rs1) = 15%nat)
      by (rewrite length_fmap; exact H15).
    destruct (drop 15 (xbuf s)) as [|v [|? ?]] eqn:Ed;
      try (apply (f_equal length) in Ed; rewrite length_drop, Hlx in Ed;
           cbn in Ed; lia).
    change (Z.to_nat (0 + Z.of_nat 15)) with 15%nat. rewrite <- Hl at 1.
    rewrite insert_app_r_alt by lia. rewrite Nat.sub_diag. reflexivity. }
  assert (Ey : store (ybuf a.2) (Z.to_nat (touchSample a.2)) (sampleY r16)
               = sampleY <$> (pending_regs rs1 ++ [r16])).
  { rewrite Hyb, Hts. unfold store. rewrite fmap_app.
    assert (Hl : length (sampleY <$> pending_regs rs1) = 15%nat)
      by (rewrite length_fmap; exact H15).
    destruct (drop 15 (ybuf s)) as [|v [|? ?]] eqn:Ed;
      try (apply (f_equal length) in Ed; rewrite length_drop, Hly in Ed;
           cbn in Ed; lia).
    change (Z.to_nat (0 + Z.of_nat 15)) with 15%nat. rewrite <- Hl at 1.
    rewrite insert_app_r_alt by lia. rewrite Nat.sub_diag. reflexivity. }
  rewrite Ex in HX. rewrite Ey in HY.
  set (f := TouchPanelA2DFiltered r16 a.1.1.2 a.1.2 a.2) in *.
  assert (Hth : touch_or_held (touchState f.2) = true).
  { rewrite Hst, Hret. now destruct (touch_or_held (touchState a.2)). }
  split.
  { exists f.1.1.1. rewrite last_snoc. split.
    - rewrite <- HX, <- HY. now destruct f as [[[? ?] ?] ?].
    - rewrite <- Hst. exact Hth. }
  split; [exact Hth|].
  destruct (poll_log_in_progress rs x' y' f.2 Hth) as (L1 & L2 & L3 & _).
  { rewrite Hts0. lia. }
  { rewrite Hts0. unfold TPBUFSIZE. lia. }
  rewrite L1, L2, L3, HlX, HlY, HX, HY.
  split; [reflexivity|]. split; [reflexivity|]. split; [reflexivity|].
  destruct rs as [|r rs']; [exact Hth|].
  destruct (poll_log_in_progress (r :: rs') x' y' f.2 Hth) as (_ & _ & _ & L4).
  { rewrite Hts0. lia. }
  { rewrite Hts0. unfold TPBUFSIZE. lia. }
  destruct L4 as (-> & _); [discriminate | reflexivity].
Qed.

(** Sixteen samples (300 + k, 200 + 2k), quiet polls in between, on a
    calibrated object: the batch gives (345, 240), and the three polls that
    follow, two of them with new samples, report it. *)
Lemma TouchPanelA2DFiltered_partial_batch_witness :
  let smp := fun k => sample_regs (300 + k) (200 + 2 * k) in
  let rs1 := [smp 0; smp 1; quiet_regs; smp 2; smp 3; smp 4; smp 5;
              quiet_regs; quiet_regs; smp 6; smp 7; smp 8; smp 9; smp 10;
              smp 11; smp 12; quiet_regs; smp 13; smp 14] in
  let a := poll_log (rs1 ++ [smp 15]) 0 0 calibrated in
  let b := poll_log [smp 700; quiet_regs; smp 900] 7 8 a.2 in
  last a.1.1.1 = Some (touch, 345, 240) /\
  b.1.1.1 = [(held, 345, 240); (held, 345, 240); (held, 345, 240)] /\
  lastX b.2 = 345 /\ lastY b.2 = 240.
Proof.
  cbv zeta.
  set (smp := fun k => sample_regs (300 + k) (200 + 2 * k)).
  set (rs1 := [smp 0; smp 1; quiet_regs; smp 2; smp 3; smp 4; smp 5;
               quiet_regs; quiet_regs; smp 6; smp 7; smp 8; smp 9; smp 10;
               smp 11; smp 12; quiet_regs; smp 13; smp 14]).
  destruct (TouchPanelA2DFiltered_partial_batch rs1 (smp 15)
              [smp 700; quiet_regs; smp 900] 0 0 7 8 calibrated)
    as (_ & _ & Hb & HX & HY & _); try reflexivity.
  - vm_compute. lia.
  - split; [vm_compute; reflexivity|].
    rewrite Hb, HX, HY. vm_compute. auto.
Defined.

(** The call that follows the completing call of a batch, whatever it finds
    in the registers, reports that batch's averages. *)
Lemma TouchPanelA2DFiltered_after_full_batch r r' x y x' y' s :
  tp_interrupt_pending r = true ->
  add32 (touchSample s) 1 = TPBUFSIZE ->
  let res := TouchPanelA2DFiltered r x y s in
  (TouchPanelA2DFiltered r' x' y' res.2).1 = (held, res.1.1.2, res.1.2).
Proof.
  intros Hp Hfull. destruct s. cbn in *.
  unfold TouchPanelA2DFiltered at 2 3 4. cbn. rewrite Hp, Hfull. cbn.
  match goal with |- context [touch_or_held ?t] => destruct (touch_or_held t) end;
    cbn; unfold TouchPanelA2DFiltered; cbn;
    destruct (tp_interrupt_pending r'); cbn;
    change (add32 0 1 =? TPBUFSIZE) with false; cbn; reflexivity.
Qed.

(** A sample is a 10-bit value. *)
Lemma sample_range r : 0 <= sampleX r <= 1023 /\ 0 <= sampleY r <= 1023.
Proof.
  unfold sampleX, sampleY, ReadCommand, uint8.
  pose proof (Z.mod_pos_bound (TPXH r) (2 ^ 8)).
  pose proof (Z.mod_pos_bound (TPYH r) (2 ^ 8)).
  set (a := TPXH r mod 2 ^ 8) in *. set (b := TPYH r mod 2 ^ 8) in *.
  set (c := TPXYL r mod 2 ^ 8) in *.
  rewrite Z.shiftr_land, !Z.shiftl_mul_pow2 by lia.
  change (Z.shiftr 12 2) with (Z.ones 2). change 3 with (Z.ones 2).
  rewrite !Z.land_ones by lia.
  pose proof (Z.mod_pos_bound c (2 ^ 2)).
  pose proof (Z.mod_pos_bound (Z.shiftr c 2) (2 ^ 2)).
  pose proof (Z.add_lor_land (a * 2 ^ 2) (c mod 2 ^ 2)).
  pose proof (Z.add_lor_land (b * 2 ^ 2) (Z.shiftr c 2 mod 2 ^ 2)).
  assert (0 <= Z.land (a * 2 ^ 2) (c mod 2 ^ 2)) by (apply Z.land_nonneg; lia).
  assert (0 <= Z.lor (a * 2 ^ 2) (c mod 2 ^ 2)) by (apply Z.lor_nonneg; lia).
  assert (0 <= Z.land (b * 2 ^ 2) (Z.shiftr c 2 mod 2 ^ 2))
    by (apply Z.land_nonneg; lia).
  assert (0 <= Z.lor (b * 2 ^ 2) (Z.shiftr c 2 mod 2 ^ 2))
    by (apply Z.lor_nonneg; lia).
  lia.
Qed.

(** After [k] calls that each find the sample of [r], the first [k] slots
    of the buffers hold it. *)
Lemma feed_fills r x y s k :
  tp_interrupt_pending r = true ->
  touchSample s = 0 ->
  length (xbuf s) = 16%nat -> length (ybuf s) = 16%nat ->
  (k < 16)%nat ->
  let s' := (feed k r x y s).2 in
  touchSample s' = Z.of_nat k /\
  length (xbuf s') = 16%nat /\ length (ybuf s') = 16%nat /\
  take k (xbuf s') = replicate k (sampleX r) /\
  take k (ybuf s') = replicate k (sampleY r).
Proof.
  intros Hp H0 Hx Hy. induction k as [|k IH]; intros Hk.
  - cbn. rewrite !take_0. auto.
  - cbn [feed]. destruct IH as (Hs & Hlx & Hly & Htx & Hty); [lia|].
    destruct (feed k r x y s) as [[[t1 x1] y1] s1]. cbn [snd] in *.
    assert (E : add32 (touchSample s1) 1 = Z.of_nat (S k)).
    { rewrite Hs. unfold add32. rewrite int32_small; lia. }
    destruct s1. cbn in *. unfold TouchPanelA2DFiltered. cbn.
    rewrite Hp, E. destruct (Z.eqb_spec (Z.of_nat (S k)) TPBUFSIZE) as [Heq|_];
      [unfold TPBUFSIZE in Heq; lia|].
    subst touchSample0. rewrite Nat2Z.id.
    assert (Hins : forall (l : list Z) v, length l = 16%nat ->
              take k l = replicate k v ->
              take (S k) (store l k v) = replicate (S k) v).
    { intros l v Hl Ht. unfold store.
      rewrite (take_S_r _ _ v) by (apply list_lookup_insert_eq; lia).
      rewrite take_insert_ge by lia. rewrite Ht.
      rewrite <- replicate_S_end. reflexivity. }
    destruct (touch_or_held touchState0); cbn; repeat split;
      try (apply Hins; assumption);
      unfold store; rewrite ?length_insert; auto.
Qed.

Lemma feed_S n r x y s :
  feed (S n) r x y s
  = TouchPanelA2DFiltered r (feed n r x y s).1.1.2 (feed n r x y s).1.2
      (feed n r x y s).2.
Proof. cbn [feed]. now destruct (feed n r x y s) as [[[? ?] ?] ?]. Qed.

(** On sixteen identical samples the filter reports nine eighths of the
    sample. *)
Lemma feed_identical r x y s :
  tp_interrupt_pending r = true ->
  touchSample s = 0 ->
  length (xbuf s) = 16%nat -> length (ybuf s) = 16%nat ->
  (feed 16 r x y s).1.1.2 = 9 * sampleX r / 8 /\
  (feed 16 r x y s).1.2 = 9 * sampleY r / 8.
Proof.
  intros Hp H0 Hx Hy. rewrite (feed_S 15).
  destruct (feed_fills r x y s 15 Hp H0 Hx Hy) as (Hs & Hlx & Hly & Htx & Hty);
    [lia|].
  destruct (feed 15 r x y s) as [[[t1 x1] y1] s1]. cbn [fst snd] in *.
  assert (Hfull : add32 (touchSample s1) 1 = TPBUFSIZE) by (now rewrite Hs).
  destruct (TouchPanelA2DFiltered_full_batch r x1 y1 s1 Hp Hfull)
    as (Ex & Ey & _).
  rewrite Ex, Ey, Hs. change (Z.to_nat (Z.of_nat 15)) with 15%nat.
  assert (Hbuf : forall (l : list Z) v, length l = 16%nat ->
            take 15 l = replicate 15 v -> store l 15 v = replicate 16 v).
  { intros l v Hl Ht. rewrite <- (take_drop 15 l), Ht.
    do 16 (destruct l as [|? l]; try discriminate Hl).
    destruct l; [|discriminate Hl]. reflexivity. }
  rewrite (Hbuf _ _ Hlx Htx), (Hbuf _ _ Hly Hty), !InsertionSort_replicate.
  pose proof (sample_range r) as [Hrx Hry].
  assert (Hsum : forall v, 0 <= v <= 1023 ->
            scale_average (middle_sum (replicate 16 v)) = 9 * v / 8).
  { intros v Hv. cbn [replicate]. rewrite middle_sum_entries.
    unfold add32.
    repeat match goal with
           | |- context [int32 (?a + v)] => rewrite (int32_small (a + v)) by lia
           end.
    unfold scale_average, TPBUFSIZE.
    rewrite Z.quot_div_nonneg by lia.
    rewrite int32_small by (Z.div_mod_to_equations; lia).
    Z.div_mod_to_equations; lia. }
  rewrite (Hsum _ Hrx), (Hsum _ Hry). auto.
Qed.

(** C3 at a failing input: from a freshly initialised object, sixteen
    samples all equal to 8 (and all equal to 512) complete one batch, and
    the filtered output is 9 (and 576): the loop adds up the nine sorted
    entries of index 3 to 11 and the sum is divided by 8. *)
Theorem filter_identical_batch :
  sampleX (sample_regs 8 8) = 8 /\ sampleY (sample_regs 8 8) = 8 /\
  (feed 16 (sample_regs 8 8) 0 0 (fresh scenario_matrix)).1 = (touch, 9, 9) /\
  sampleX (sample_regs 512 512) = 512 /\ sampleY (sample_regs 512 512) = 512 /\
  (feed 16 (sample_regs 512 512) 0 0 (fresh scenario_matrix)).1
    = (touch, 576, 576).
Proof. vm_compute. auto 10. Qed.

(** ** TouchPanelReadable *)

(** The resistive branch, in terms of what the filter returns. *)
Lemma TouchPanelReadable_resistive r tp s :
  useTouchPanel s = TP_RES ->
  let res := TouchPanelReadable r tp s in
  let t0 := touchInfo0 s in
  (filtered_code r s = no_touch ->
     panelTouched res.2 = false /\
     touchCode (touchInfo0 res.2) = no_touch /\
     coordinates (touchInfo0 res.2) = coordinates t0 /\
     res.1.1 = (if panelTouched s
                then match tp with Some _ => no_touch | None => touch end
                else no_touch)) /\
  (filtered_code r s <> no_touch ->
     panelTouched res.2 = false /\
     tpMatrix res.2 = tpMatrix s /\
     (Divider (tpMatrix s) = 0 ->
        touchCode (touchInfo0 res.2) = no_cal /\
        coordinates (touchInfo0 res.2) = coordinates t0 /\
        res.1.1 = match tp with Some _ => no_cal | None => touch end /\
        res.1.2 = match tp with Some _ => Some (coordinates t0) | None => None end) /\
     (Divider (tpMatrix s) <> 0 ->
        touchCode (touchInfo0 res.2) = filtered_code r s /\
        res.1.1 = match tp with
                  | Some _ => filtered_code r s
                  | None => touch
                  end)).
Proof.
  intros Hmode. unfold TouchPanelReadable. rewrite Hmode.
  pose proof (TouchPanelA2DFiltered_frame r 0 0 (set_touchID0 0 s)) as Hf.
  pose proof (filtered_code_eq r 0 0 (set_touchID0 0 s)) as Hc.
  destruct (TouchPanelA2DFiltered r 0 0 (set_touchID0 0 s))
    as [[[ts ax] ay] s1] eqn:E.
  cbn in Hf, Hc. unfold set_touchID0 at 1, set_touchInfo0 in Hc.
  rewrite filtered_code_set_touchInfo in Hc.
  destruct Hf as (_ & _ & Hti & Hpt & Hm). subst ts.
  assert (Hpt' : panelTouched s1 = panelTouched s) by (rewrite Hpt; now destruct s).
  assert (Hm' : tpMatrix s1 = tpMatrix s) by (rewrite Hm; now destruct s).
  assert (Hco : coordinates (touchInfo s1 !!! 0%fin) = coordinates (touchInfo0 s)).
  { rewrite Hti. unfold set_touchID0, set_touchInfo0, touchInfo0.
    destruct s. cbn. now rewrite vlookup_insert. }
  split; intros Hcode.
  - destruct (decide (filtered_code r s <> no_touch)) as [?|_]; [contradiction|].
    unfold touchInfo0, set_touchCode0, set_touchInfo0, touchInfo0.
    destruct s1. cbn in *. rewrite Hpt'.
    destruct (panelTouched s); cbn; rewrite ?vlookup_insert; cbn;
      destruct tp; cbn; rewrite ?vlookup_insert; cbn; auto.
  - destruct (decide (filtered_code r s <> no_touch)) as [_|?]; [|contradiction].
    cbn [panelTouched set_panelTouched set_numberOfTouchPoints tpMatrix].
    rewrite Hm'.
    destruct (decide (Divider (tpMatrix s) <> 0)) as [Hd|Hd];
      unfold touchInfo0, set_touchCode0, set_coordinates0, set_touchInfo0,
        touchInfo0;
      destruct s1; cbn in *; destruct tp; cbn; rewrite ?vlookup_insert; cbn;
      repeat split; auto; try congruence; intros; try contradiction;
      try lia; cbn; rewrite ?vlookup_insert; cbn; auto;
      unfold touchInfo0 in Hco; now rewrite Hco.
Qed.

(** Outside the resistive mode the function only hands out what the
    interrupt routine has recorded. *)
Lemma TouchPanelReadable_other r tp s :
  useTouchPanel s <> TP_RES ->
  TouchPanelReadable r tp s
    = if panelTouched s
      then match tp with
           | Some _ => (touchCode (touchInfo0 s), Some (coordinates (touchInfo0 s)),
                        set_panelTouched false s)
           | None => (touch, None, set_panelTouched false s)
           end
      else (no_touch, tp, s).
Proof.
  intros H. unfold TouchPanelReadable.
  destruct (useTouchPanel s) eqn:E; try contradiction;
    destruct (panelTouched s) eqn:Ep; destruct tp; destruct s; cbn in *;
    reflexivity.
Qed.

(** C4, as the code has it: on the resistive panel, when the active matrix
    has [Divider] 0 and the filter reports a touch code other than
    [no_touch], [TouchPanelReadable] computes no coordinate (channel 0 keeps
    the coordinates it had), records [no_cal] as channel 0's touch code and
    consumes the event; called with a point pointer it returns [no_cal],
    called without one it returns [touch]. *)
Theorem TouchPanelReadable_uncalibrated
    (r : Regs) (TouchPoint : option point_t) (s : RA8875) :
  useTouchPanel s = TP_RES ->
  Divider (tpMatrix s) = 0 ->
  filtered_code r s <> no_touch ->
  let res := TouchPanelReadable r TouchPoint s in
  res.1.1 = match TouchPoint with Some _ => no_cal | None => touch end /\
  touchCode (touchInfo0 res.2) = no_cal /\
  coordinates (touchInfo0 res.2) = coordinates (touchInfo0 s) /\
  panelTouched res.2 = false.
Proof.
  intros Hmode Hd Hc.
  destruct (TouchPanelReadable_resistive r TouchPoint s Hmode) as [_ H].
  destruct (H Hc) as (Hp & _ & H0 & _).
  destruct (H0 Hd) as (? & ? & ? & _). auto.
Qed.

(** An object whose calibration was refused: [Divider] is 0. *)
Lemma TouchPanelReadable_uncalibrated_witness :
  let s := set_touchState held
             (TouchPanelComputeCalibration scenario_display collinear_screen
                None calibrated).2 in
  let res := TouchPanelReadable quiet_regs (Some (mkPoint 7 7)) s in
  res.1.1 = no_cal /\
  touchCode (touchInfo0 res.2) = no_cal /\
  coordinates (touchInfo0 res.2) = coordinates (touchInfo0 s) /\
  panelTouched res.2 = false.
Proof.
  apply (TouchPanelReadable_uncalibrated quiet_regs (Some (mkPoint 7 7))
           (set_touchState held
              (TouchPanelComputeCalibration scenario_display collinear_screen
                 None calibrated).2)).
  - reflexivity.
  - reflexivity.
  - vm_compute. discriminate.
Defined.

(** C4 as stated fails: with [Divider] 0 and a touch held, a call without a
    point pointer returns [touch], not [no_cal]. *)
Lemma TouchPanelReadable_uncalibrated_null :
  let s := set_touchState held
             (TouchPanelComputeCalibration scenario_display collinear_screen
                None calibrated).2 in
  useTouchPanel s = TP_RES /\
  Divider (tpMatrix s) = 0 /\
  filtered_code quiet_regs s = held /\
  (TouchPanelReadable quiet_regs None s).1.1 = touch /\
  (TouchPanelReadable quiet_regs None s).1.1 <> no_cal.
Proof. vm_compute. repeat split; discriminate. Qed.

(** A call without a point pointer that finds no event pending. *)
Lemma TouchPanelReadable_null_idle r s :
  panelTouched s = false ->
  (useTouchPanel s = TP_RES -> filtered_code r s = no_touch) ->
  (TouchPanelReadable r None s).1.1 = no_touch.
Proof.
  intros Hp Hq. destruct (decide (useTouchPanel s = TP_RES)) as [Hmode|Hmode].
  - destruct (TouchPanelReadable_resistive r None s Hmode) as [H _].
    destruct (H (Hq Hmode)) as (_ & _ & _ & ->). now rewrite Hp.
  - rewrite (TouchPanelReadable_other r None s Hmode), Hp. reflexivity.
Qed.

(** The mode is fixed at construction. *)
Lemma TouchPanelReadable_mode r tp s :
  useTouchPanel (TouchPanelReadable r tp s).2 = useTouchPanel s.
Proof.
  unfold TouchPanelReadable.
  pose proof (TouchPanelA2DFiltered_frame r 0 0 (set_touchID0 0 s)) as Hf.
  destruct (TouchPanelA2DFiltered r 0 0 (set_touchID0 0 s))
    as [[[ts ax] ay] s1] eqn:E.
  cbn in Hf. destruct Hf as (Hu & _).
  destruct (useTouchPanel s) eqn:Hm;
    repeat match goal with
           | |- context [if ?c then _ else _] => destruct c eqn:?; cbn
           | |- context [match ?c with Some _ => _ | None => _ end] =>
               destruct c eqn:?; cbn
           end; auto;
    destruct s1; cbn in *; rewrite Hu; destruct s; cbn in *; auto.
Qed.

(** The filter's return code depends on the state and the sample index
    only. *)
Lemma filtered_code_depends r s s' :
  touchState s = touchState s' -> touchSample s = touchSample s' ->
  filtered_code r s = filtered_code r s'.
Proof.
  unfold filtered_code. destruct s, s'. cbn. intros -> ->.
  filter_cases; reflexivity.
Qed.

(** On the resistive panel [TouchPanelReadable] polls the filter once: the
    state and the sample index it leaves are the filter's. *)
Lemma TouchPanelReadable_filter_state r tp s :
  useTouchPanel s = TP_RES ->
  touchState (TouchPanelReadable r tp s).2
  = touchState (TouchPanelA2DFiltered r 0 0 s).2 /\
  touchSample (TouchPanelReadable r tp s).2
  = touchSample (TouchPanelA2DFiltered r 0 0 s).2.
Proof.
  intros Hmode.
  assert (Hs : touchState (TouchPanelA2DFiltered r 0 0 (set_touchID0 0 s)).2
               = touchState (TouchPanelA2DFiltered r 0 0 s).2 /\
               touchSample (TouchPanelA2DFiltered r 0 0 (set_touchID0 0 s)).2
               = touchSample (TouchPanelA2DFiltered r 0 0 s).2).
  { unfold set_touchID0, set_touchInfo0. destruct s. filter_cases; auto. }
  destruct Hs as [<- <-].
  unfold TouchPanelReadable. rewrite Hmode.
  destruct (TouchPanelA2DFiltered r 0 0 (set_touchID0 0 s))
    as [[[ts ax] ay] s1].
  destruct s1. cbn.
  repeat match goal with
         | |- context [if ?c then _ else _] => destruct c; cbn
         | |- context [match ?c with Some _ => _ | None => _ end] =>
             destruct c; cbn
         end; auto.
Qed.

(** With no sample pending, the filter reports a release once. *)
Lemma TouchPanelA2DFiltered_released r x y s :
  tp_interrupt_pending r = false ->
  touchState s = release ->
  TouchPanelA2DFiltered r x y s
  = (release, lastX s, lastY s, set_touchState no_touch s).
Proof.
  intros Hr Hs. unfold TouchPanelA2DFiltered. rewrite Hr, Hs. cbn.
  destruct (decide (release = release)); [reflexivity | contradiction].
Qed.

(** A call without a point pointer that finds an event pending. *)
Lemma TouchPanelReadable_null_pending r s :
  panelTouched s = true \/
    (useTouchPanel s = TP_RES /\ filtered_code r s <> no_touch) ->
  (TouchPanelReadable r None s).1.1 = touch /\
  (TouchPanelReadable r None s).1.2 = None /\
  panelTouched (TouchPanelReadable r None s).2 = false.
Proof.
  intros Hpend.
  destruct (decide (useTouchPanel s = TP_RES)) as [Hmode|Hmode].
  - assert (Hout : (TouchPanelReadable r None s).1.2 = None).
    { unfold TouchPanelReadable. rewrite Hmode.
      destruct (TouchPanelA2DFiltered r 0 0 (set_touchID0 0 s))
        as [[[ts ax] ay] s1].
      repeat match goal with
             | |- context [if ?c then _ else _] => destruct c eqn:?; cbn
             end; reflexivity. }
    destruct (TouchPanelReadable_resistive r None s Hmode) as [H0 H1].
    destruct (decide (filtered_code r s = no_touch)) as [Hc|Hc].
    + destruct Hpend as [Hp|[_ ?]]; [|contradiction].
      destruct (H0 Hc) as (? & _ & _ & ->). rewrite Hp. auto.
    + destruct (H1 Hc) as (? & _ & Hz & Hnz).
      destruct (decide (Divider (tpMatrix s) = 0)) as [Hd|Hd].
      * destruct (Hz Hd) as (_ & _ & -> & _). auto.
      * destruct (Hnz Hd) as (_ & ->). auto.
  - destruct Hpend as [Hp|[? _]]; [|contradiction].
    rewrite (TouchPanelReadable_other r None s Hmode), Hp.
    destruct s; cbn; auto.
Qed.

(** C9: when an event is pending at the test of [panelTouched] (the flag
    was set before the call or, on the resistive panel, the filter reports a
    touch code other than [no_touch]), a call without a point pointer
    returns [touch] whatever touch code channel 0 holds, writes nothing and
    clears the flag.  What the next such call returns, with nothing setting
    the flag in between: on a panel that is not resistive, [no_touch]; on
    the resistive panel the first call has polled the filter once, and the
    next call returns [no_touch] when the filter, from the state that poll
    left, reports [no_touch] for the registers it finds, and [touch]
    otherwise.  In particular, neither call finding a sample: [no_touch]
    when the first call found the state machine idle or in [release], and
    [touch] again when it found a touch in progress. *)
Theorem TouchPanelReadable_null (r r' : Regs) (s : RA8875) :
  panelTouched s = true \/
    (useTouchPanel s = TP_RES /\ filtered_code r s <> no_touch) ->
  let res := TouchPanelReadable r None s in
  let next := (TouchPanelReadable r' None res.2).1.1 in
  res.1.1 = touch /\
  res.1.2 = None /\
  panelTouched res.2 = false /\
  (useTouchPanel s <> TP_RES -> next = no_touch) /\
  (useTouchPanel s = TP_RES ->
     next = if decide (filtered_code r' (TouchPanelA2DFiltered r 0 0 s).2
                       = no_touch)
            then no_touch else touch) /\
  (useTouchPanel s = TP_RES ->
   tp_interrupt_pending r = false -> tp_interrupt_pending r' = false ->
     (touchState s = no_touch \/ touchState s = release -> next = no_touch) /\
     (touch_or_held (touchState s) = true -> next = touch)).
Proof.
  intros Hpend. cbv zeta.
  destruct (TouchPanelReadable_null_pending r s Hpend) as (H1 & H2 & H3).
  assert (Hexact : useTouchPanel s = TP_RES ->
            (TouchPanelReadable r' None (TouchPanelReadable r None s).2).1.1
            = if decide (filtered_code r' (TouchPanelA2DFiltered r 0 0 s).2
                         = no_touch)
              then no_touch else touch).
  { intros Hmode.
    destruct (TouchPanelReadable_filter_state r None s Hmode) as [Hst Hts].
    rewrite <- (filtered_code_depends r' _ _ Hst Hts).
    destruct (decide (filtered_code r' (TouchPanelReadable r None s).2
                      = no_touch)) as [Hc|Hc].
    - apply TouchPanelReadable_null_idle; [exact H3 | intros _; exact Hc].
    - apply TouchPanelReadable_null_pending. right.
      rewrite TouchPanelReadable_mode. auto. }
  split; [exact H1|]. split; [exact H2|]. split; [exact H3|].
  split; [|split; [exact Hexact|]].
  - intros Hmode. apply TouchPanelReadable_null_idle; [exact H3|].
    rewrite TouchPanelReadable_mode. intros ?. contradiction.
  - intros Hmode Hr Hr'. rewrite (Hexact Hmode). clear Hexact H1 H2 H3 Hpend.
    unfold filtered_code. split.
    + intros Hidle.
      assert (Hs1 : touchState (TouchPanelA2DFiltered r 0 0 s).2 = no_touch).
      { destruct Hidle as [Hi|Hi].
        - rewrite TouchPanelA2DFiltered_idle;
            rewrite ?Hi; auto; discriminate.
        - rewrite TouchPanelA2DFiltered_released by assumption.
          now destruct s. }
      rewrite TouchPanelA2DFiltered_idle by (rewrite ?Hs1; auto; discriminate).
      cbn. rewrite Hs1. destruct (decide (no_touch = no_touch)); congruence.
    + intros Ht.
      destruct (TouchPanelA2DFiltered_in_progress r 0 0 s Ht) as (_ & Hh & _).
      { intros [Hp _]. congruence. }
      destruct (TouchPanelA2DFiltered_in_progress r' 0 0
                  (TouchPanelA2DFiltered r 0 0 s).2) as (Hc & _).
      { rewrite Hh. reflexivity. }
      { intros [Hp _]. congruence. }
      rewrite Hc. cbn. destruct (decide (held = no_touch)); congruence.
Qed.

(** On the resistive panel: a touch of sixteen samples read with a point,
    then left alone until the watchdog has made it a [release].  The call
    without a point finds no sample, records [release] for channel 0 and
    returns [touch]; the next one returns [no_touch]. *)
Lemma TouchPanelReadable_null_witness :
  let s0 := (feed 16 (sample_regs 100 100) 0 0 calibrated).2 in
  let s1 := (TouchPanelReadable quiet_regs (Some (mkPoint 0 0)) s0).2 in
  let s := run_ticker 101 s1 in
  let res := TouchPanelReadable quiet_regs None s in
  touchState s = release /\
  panelTouched s = false /\
  touchCode (touchInfo0 res.2) = release /\
  res.1.1 = touch /\
  res.1.2 = None /\
  panelTouched res.2 = false /\
  (TouchPanelReadable quiet_regs None res.2).1.1 = no_touch.
Proof.
  cbv zeta.
  set (s := run_ticker 101
              (TouchPanelReadable quiet_regs (Some (mkPoint 0 0))
                 (feed 16 (sample_regs 100 100) 0 0 calibrated).2).2).
  assert (Hst : touchState s = release) by (vm_compute; reflexivity).
  split; [exact Hst|].
  split; [vm_compute; reflexivity|].
  split; [vm_compute; reflexivity|].
  destruct (TouchPanelReadable_null quiet_regs quiet_regs s)
    as (H1 & H2 & H3 & _ & _ & H6).
  - right. split; [reflexivity | vm_compute; discriminate].
  - split; [exact H1|]. split; [exact H2|]. split; [exact H3|].
    assert (Hmode : useTouchPanel s = TP_RES) by (vm_compute; reflexivity).
    assert (Hq : tp_interrupt_pending quiet_regs = false) by reflexivity.
    apply (proj1 (H6 Hmode Hq Hq)). right. exact Hst.
Defined.

(** ** TouchPanelCalibrate *)

Lemma TouchTicker_tpMatrix s : tpMatrix (_TouchTicker s) = tpMatrix s.
Proof.
  unfold _TouchTicker. destruct s. cbn.
  repeat match goal with
         | |- context [if ?c then _ else _] => destruct c; cbn
         end; reflexivity.
Qed.

Lemma run_ticker_tpMatrix n s : tpMatrix (run_ticker n s) = tpMatrix s.
Proof.
  revert s. induction n as [|n IH]; intros s; [reflexivity|].
  cbn [run_ticker]. rewrite IH, TouchTicker_tpMatrix. now destruct s.
Qed.

Lemma in_time_later t t' maxwait_s :
  in_time t maxwait_s = false -> t <= t' -> in_time t' maxwait_s = false.
Proof. unfold in_time. intros H Hle. apply Z.ltb_ge. apply Z.ltb_ge in H. lia. Qed.

Section SessionProperties.
Variable hw : nat -> Regs.
Variable idle_callback : option (nat -> RetCode_t).
Variable maxwait_s : Z.
Variable m0 : tpMatrix_t.

Lemma poll_inv x y t w :
  session_inv maxwait_s m0 t w ->
  session_inv maxwait_s m0 t (poll hw x y w).2.
Proof.
  unfold poll. intros (Ht & Hm & Hs & He).
  pose proof (TouchPanelA2DFiltered_frame (hw (polls w)) x y (dev w)) as Hf.
  destruct (TouchPanelA2DFiltered (hw (polls w)) x y (dev w))
    as [[[ts x'] y'] d].
  cbn in *. destruct Hf as (_ & _ & _ & _ & Hf).
  repeat split; cbn; auto. congruence.
Qed.

Lemma wait_ms_inv ms t w :
  session_inv maxwait_s m0 t w ->
  in_time t maxwait_s = true ->
  session_inv maxwait_s m0 (t + 20000) (wait_ms ms w).
Proof.
  unfold wait_ms. intros (Ht & Hm & Hs & He) Hin.
  repeat split; cbn; try lia; auto.
  - now rewrite run_ticker_tpMatrix.
  - intros Hw. rewrite (He Hw) in Hin. discriminate.
Qed.

Lemma wait_ms_inv_late ms t w :
  session_inv maxwait_s m0 t w ->
  session_inv maxwait_s m0 (t + 20000) (wait_ms ms w).
Proof.
  unfold wait_ms. intros (Ht & Hm & Hs & He).
  repeat split; cbn; try lia; auto.
  - now rewrite run_ticker_tpMatrix.
  - intros Hw. apply (in_time_later t); [auto | lia].
Qed.

Lemma idle_inv t w :
  session_inv maxwait_s m0 t w ->
  session_inv maxwait_s m0 t (idle idle_callback w).2 /\
  ((idle idle_callback w).1 = true -> idle_callback <> None).
Proof.
  unfold idle. intros H. destruct idle_callback as [cb|]; cbn.
  - split; [exact H | discriminate].
  - split; [exact H | discriminate].
Qed.

Lemma wait_while_inv touched fuel : forall t x y w,
  session_inv maxwait_s m0 t w ->
  maxwait_s * 1000000 - t <= 20000 * (Z.of_nat fuel - 1) ->
  (1 <= fuel)%nat ->
  exists f,
    wait_while hw idle_callback touched fuel maxwait_s t x y w = Some f /\
    flow_inv idle_callback maxwait_s m0 (fun a => a.1.1) f.
Proof.
  induction fuel as [|fuel IH]; intros t x y w Hinv Hfuel H1; [lia|].
  cbn [wait_while].
  pose proof (poll_inv x y t w Hinv) as Hp.
  destruct (poll hw x y w) as [[[ts x'] y'] w1]. cbn [snd] in Hp.
  destruct (bool_decide (truthy ts = touched)).
  - destruct (in_time t maxwait_s) eqn:Hin.
    + pose proof (wait_ms_inv 20 t w1 Hp Hin) as Hw.
      destruct (idle_inv (t + 20000) (wait_ms 20 w1) Hw) as [Hi Hstop].
      destruct (idle idle_callback (wait_ms 20 w1)) as [stop w3].
      cbn [fst snd] in *. destruct stop.
      * eexists. split; [reflexivity|]. destruct Hi as (? & ? & ? & ?).
        cbn. auto.
      * unfold in_time in Hin. apply Z.ltb_lt in Hin.
        apply IH; [exact Hi | lia | lia].
    + eexists. split; [reflexivity|]. destruct Hp as (? & ? & Hs & ?).
      repeat split; cbn; auto. intros [E|E]; [discriminate | auto].
  - eexists. split; [reflexivity|]. exact Hp.
Qed.

Lemma settle_inv n : forall t w,
  session_inv maxwait_s m0 t w ->
  flow_inv idle_callback maxwait_s m0 (fun t' => t') (settle idle_callback n t w).
Proof.
  induction n as [|n IH]; intros t w Hinv; [exact Hinv|].
  cbn [settle].
  pose proof (wait_ms_inv_late 20 t w Hinv) as Hw.
  destruct (idle_inv (t + 20000) (wait_ms 20 w) Hw) as [Hi Hstop].
  destruct (idle idle_callback (wait_ms 20 w)) as [stop w3].
  cbn [fst snd] in *. destruct stop.
  - destruct Hi as (? & ? & ? & ?). cbn. auto.
  - apply IH. exact Hi.
Qed.

Lemma target_inv fuel t x y w :
  session_inv maxwait_s m0 t w ->
  maxwait_s * 1000000 <= 20000 * (Z.of_nat fuel - 1) ->
  (1 <= fuel)%nat ->
  exists f,
    target hw idle_callback fuel maxwait_s t x y w = Some f /\
    flow_inv idle_callback maxwait_s m0 (fun a => a.1.1.1) f.
Proof.
  intros Hinv Hfuel H1. unfold target.
  destruct (wait_while_inv false fuel t x y w Hinv) as (f1 & E1 & I1);
    [destruct Hinv; lia | exact H1 |].
  rewrite E1. destruct f1 as [r w1|[[t1 x1] y1] w1]; cbn [bindF].
  { eexists. split; [reflexivity | exact I1]. }
  cbn in I1.
  destruct (wait_while_inv true fuel t1 x1 y1 w1 I1) as (f2 & E2 & I2);
    [destruct I1; lia | exact H1 |].
  rewrite E2. destruct f2 as [r w2|[[t2 x2] y2] w2]; cbn [bindF].
  { eexists. split; [reflexivity | exact I2]. }
  cbn in I2. pose proof (settle_inv 100 t2 w2 I2) as I3.
  destruct (settle idle_callback 100 t2 w2) as [r w3|t3 w3].
  - eexists. split; [reflexivity | exact I3].
  - eexists. split; [reflexivity | exact I3].
Qed.

End SessionProperties.

Lemma enough_fuel_bound maxwait_s fuel :
  enough_fuel maxwait_s fuel ->
  maxwait_s * 1000000 <= 20000 * (Z.of_nat fuel - 1) /\ (1 <= fuel)%nat.
Proof. unfold enough_fuel. intros H. lia. Qed.

Section SessionTime.
Variable hw : nat -> Regs.
Variable idle_callback : option (nat -> RetCode_t).
Variable maxwait_s : Z.

(** The session's timer never runs backwards in a wait loop. *)
Lemma wait_while_time touched fuel : forall t x y w a w',
  wait_while hw idle_callback touched fuel maxwait_s t x y w = Some (Go a w') ->
  t <= a.1.1.
Proof.
  induction fuel as [|fuel IH]; intros t x y w a w' E; [discriminate E|].
  cbn [wait_while] in E.
  destruct (poll hw x y w) as [[[ts x'] y'] w1].
  destruct (bool_decide (truthy ts = touched)).
  - destruct (in_time t maxwait_s).
    + destruct (idle idle_callback (wait_ms 20 w1)) as [stop w3].
      destruct stop; [discriminate E|].
      apply IH in E. lia.
    + injection E as <- _. cbn. lia.
  - injection E as <- _. cbn. lia.
Qed.

(** The delay loop takes its [n] rounds of 20 ms. *)
Lemma settle_time n : forall t w t' w',
  settle idle_callback n t w = Go t' w' -> t' = t + 20000 * Z.of_nat n.
Proof.
  induction n as [|n IH]; intros t w t' w' E.
  - injection E as <- _. lia.
  - cbn [settle] in E.
    destruct (idle idle_callback (wait_ms 20 w)) as [stop w3].
    destruct stop; [discriminate E|]. apply IH in E. lia.
Qed.

(** Each target takes two seconds at least. *)
Lemma target_time fuel t x y w a w' :
  target hw idle_callback fuel maxwait_s t x y w = Some (Go a w') ->
  t + 2000000 <= a.1.1.1.
Proof.
  unfold target. intros E.
  destruct (wait_while hw idle_callback false fuel maxwait_s t x y w)
    as [[r w1|[[t1 x1] y1] w1]|] eqn:E1; cbn [bindF] in E; try discriminate E.
  apply wait_while_time in E1. cbn in E1.
  destruct (wait_while hw idle_callback true fuel maxwait_s t1 x1 y1 w1)
    as [[r w2|[[t2 x2] y2] w2]|] eqn:E2; cbn [bindF] in E; try discriminate E.
  apply wait_while_time in E2. cbn in E2.
  destruct (settle idle_callback 100 t2 w2) as [r w3|t3 w3] eqn:E3;
    [discriminate E|].
  apply settle_time in E3. injection E as <- _. cbn. lia.
Qed.
End SessionTime.

Section SessionIdle.
Variable hw : nat -> Regs.
Variable idle_callback : option (nat -> RetCode_t).
Variable maxwait_s : Z.
Variable i0 : nat.

Lemma poll_idles x y w : idles (poll hw x y w).2 = idles w.
Proof.
  unfold poll.
  now destruct (TouchPanelA2DFiltered (hw (polls w)) x y (dev w))
    as [[[ts x'] y'] d].
Qed.

Lemma idle_answer w :
  no_abort_since idle_callback i0 w ->
  if (idle idle_callback w).1
  then abort_requested idle_callback i0 (idle idle_callback w).2
  else no_abort_since idle_callback i0 (idle idle_callback w).2.
Proof.
  unfold idle. intros [Hi Hn]. destruct idle_callback as [cb|] eqn:Ecb.
  - cbn [fst snd]. destruct (bool_decide_reflect (cb (idles w) = external_abort))
      as [Ha|Ha].
    + exists cb. cbn. repeat split; auto; lia.
    + split; cbn; [lia|]. intros cb' k [= <-] Hk.
      destruct (Nat.eq_dec k (idles w)) as [->|Hne]; [exact Ha|].
      apply (Hn cb k eq_refl). lia.
  - cbn. split; [exact Hi|]. intros cb k Hcb. discriminate Hcb.
Qed.

Lemma wait_while_idle touched fuel : forall t x y w f,
  no_abort_since idle_callback i0 w ->
  wait_while hw idle_callback touched fuel maxwait_s t x y w = Some f ->
  flow_idle idle_callback i0 f.
Proof.
  induction fuel as [|fuel IH]; intros t x y w f Hn E; [discriminate E|].
  cbn [wait_while] in E.
  pose proof (poll_idles x y w) as Hp.
  destruct (poll hw x y w) as [[[ts x'] y'] w1]. cbn [snd] in Hp.
  assert (Hn1 : no_abort_since idle_callback i0 w1).
  { destruct Hn as [Hi Hn]. split; rewrite Hp; auto. }
  destruct (bool_decide (truthy ts = touched)).
  - destruct (in_time t maxwait_s).
    + assert (Hn2 : no_abort_since idle_callback i0 (wait_ms 20 w1))
        by exact Hn1.
      pose proof (idle_answer (wait_ms 20 w1) Hn2) as Ha.
      destruct (idle idle_callback (wait_ms 20 w1)) as [stop w3].
      cbn [fst snd] in Ha. destruct stop.
      * injection E as <-. split; [reflexivity | exact Ha].
      * exact (IH _ _ _ _ _ Ha E).
    + injection E as <-. exact Hn1.
  - injection E as <-. exact Hn1.
Qed.

Lemma settle_idle n : forall t w,
  no_abort_since idle_callback i0 w ->
  flow_idle idle_callback i0 (settle idle_callback n t w).
Proof.
  induction n as [|n IH]; intros t w Hn; [exact Hn|].
  cbn [settle].
  assert (Hn2 : no_abort_since idle_callback i0 (wait_ms 20 w)) by exact Hn.
  pose proof (idle_answer (wait_ms 20 w) Hn2) as Ha.
  destruct (idle idle_callback (wait_ms 20 w)) as [stop w3].
  cbn [fst snd] in Ha. destruct stop.
  - split; [reflexivity | exact Ha].
  - apply IH. exact Ha.
Qed.

Lemma target_idle fuel t x y w f :
  no_abort_since idle_callback i0 w ->
  target hw idle_callback fuel maxwait_s t x y w = Some f ->
  flow_idle idle_callback i0 f.
Proof.
  unfold target. intros Hn E.
  destruct (wait_while hw idle_callback false fuel maxwait_s t x y w)
    as [[r w1|[[t1 x1] y1] w1]|] eqn:E1; cbn [bindF] in E; try discriminate E.
  { apply (wait_while_idle _ _ _ _ _ _ _ Hn) in E1. injection E as <-.
    exact E1. }
  apply (wait_while_idle _ _ _ _ _ _ _ Hn) in E1. cbn in E1.
  destruct (wait_while hw idle_callback true fuel maxwait_s t1 x1 y1 w1)
    as [[r w2|[[t2 x2] y2] w2]|] eqn:E2; cbn [bindF] in E; try discriminate E.
  { apply (wait_while_idle _ _ _ _ _ _ _ E1) in E2. injection E as <-.
    exact E2. }
  apply (wait_while_idle _ _ _ _ _ _ _ E1) in E2. cbn in E2.
  pose proof (settle_idle 100 t2 w2 E2) as E3.
  destruct (settle idle_callback 100 t2 w2) as [r w3|t3 w3];
    injection E as <-; exact E3.
Qed.
End SessionIdle.


(** What a session given enough rounds comes to: it is left on the idle
    callback's request, or it ends on the timeout test, or it has lasted six
    seconds at least within its budget and ends in the solver. *)
Lemma TouchPanelCalibrate_session
    (hw : nat -> Regs) (idle_callback : option (nat -> RetCode_t))
    (width height : Z) (fuel : nat) (matrix : option tpMatrix_t)
    (maxwait_s x0 y0 : Z) (w : World) :
  enough_fuel maxwait_s fuel ->
  trace w = [] ->
  exists r m' w',
    TouchPanelCalibrate hw idle_callback width height fuel matrix maxwait_s
      x0 y0 w = Some (r, m', w') /\
    (((r = external_abort /\ abort_requested idle_callback (idles w) w' \/
       r = touch_cal_timeout /\ no_abort_since idle_callback (idles w) w') /\
      m' = matrix /\ tpMatrix (dev w') = tpMatrix (dev w) /\
      ~ In EvSolver (trace w'))
     \/
     (exists pSample d,
        6 < maxwait_s /\
        tpMatrix d = tpMatrix (dev w) /\
        TouchPanelComputeCalibration (pTest width height) pSample matrix d
        = (r, m', dev w') /\
        trace w' = [EvSolver] /\
        no_abort_since idle_callback (idles w) w')).
Proof.
  intros Hfuel Htr. apply enough_fuel_bound in Hfuel as [Hfuel H1].
  assert (I0 : session_inv maxwait_s (tpMatrix (dev w)) 0 w).
  { unfold session_inv. rewrite Htr. cbn. repeat split; auto; try lia;
      intros []. }
  assert (N0 : no_abort_since idle_callback (idles w) w).
  { split; [lia|]. intros cb k _ Hk. lia. }
  unfold TouchPanelCalibrate.
  destruct (wait_while_inv hw idle_callback maxwait_s (tpMatrix (dev w))
              true fuel 0 x0 y0 w I0) as (f0 & E0 & J0); [lia | exact H1 |].
  rewrite E0.
  pose proof (wait_while_idle hw idle_callback maxwait_s (idles w)
                _ _ _ _ _ _ _ N0 E0) as N1.
  destruct f0 as [r w0|[[t0 x] y] w0]; cbn [bindF].
  { destruct J0 as (_ & _ & ? & ?). destruct N1 as [-> N1].
    eexists _, _, _. split; [reflexivity|]. left. auto 6. }
  apply wait_while_time in E0. cbn in J0, E0, N1.
  destruct (target_inv hw idle_callback maxwait_s (tpMatrix (dev w))
              fuel t0 x y w0 J0 Hfuel H1) as (f1 & E1 & J1).
  rewrite E1.
  pose proof (target_idle hw idle_callback maxwait_s (idles w)
                _ _ _ _ _ _ N1 E1) as N2.
  destruct f1 as [r w1|[[[t1 x1] y1] p0] w1]; cbn [bindF].
  { destruct J1 as (_ & _ & ? & ?). destruct N2 as [-> N2].
    eexists _, _, _. split; [reflexivity|]. left. auto 6. }
  apply target_time in E1. cbn in J1, E1, N2.
  destruct (target_inv hw idle_callback maxwait_s (tpMatrix (dev w))
              fuel t1 x1 y1 w1 J1 Hfuel H1) as (f2 & E2 & J2).
  rewrite E2.
  pose proof (target_idle hw idle_callback maxwait_s (idles w)
                _ _ _ _ _ _ N2 E2) as N3.
  destruct f2 as [r w2|[[[t2 x2] y2] p1] w2]; cbn [bindF].
  { destruct J2 as (_ & _ & ? & ?). destruct N3 as [-> N3].
    eexists _, _, _. split; [reflexivity|]. left. auto 6. }
  apply target_time in E2. cbn in J2, E2, N3.
  destruct (target_inv hw idle_callback maxwait_s (tpMatrix (dev w))
              fuel t2 x2 y2 w2 J2 Hfuel H1) as (f3 & E3 & J3).
  rewrite E3.
  pose proof (target_idle hw idle_callback maxwait_s (idles w)
                _ _ _ _ _ _ N3 E3) as N4.
  destruct f3 as [r w3|[[[t3 x3] y3] p2] w3]; cbn [bindF].
  { destruct J3 as (_ & _ & ? & ?). destruct N4 as [-> N4].
    eexists _, _, _. split; [reflexivity|]. left. auto 6. }
  apply target_time in E3. cbn in J3, E3, N4.
  destruct J3 as (? & Hm & Hs & He).
  destruct (in_time t3 maxwait_s) eqn:Hin.
  - destruct (TouchPanelComputeCalibration
                (pTest width height) (mkPoints3 p0 p1 p2) matrix (dev w3))
      as [[r m] d] eqn:Ec.
    eexists _, _, _. split; [reflexivity|]. right.
    exists (mkPoints3 p0 p1 p2), (dev w3).
    unfold in_time in Hin. apply Z.ltb_lt in Hin.
    split; [lia|]. split; [exact Hm|]. split; [exact Ec|].
    split; [|exact N4].
    cbn. f_equal.
    destruct (trace w3) as [|[] tr]; [reflexivity| |].
    + assert (Hw : In EvWaitExpired (EvWaitExpired :: tr)) by (left; reflexivity).
      apply He in Hw. discriminate Hw.
    + exfalso. apply Hs. left. reflexivity.
  - eexists _, _, _. split; [reflexivity|]. left. auto 6.
Qed.




(** * Further properties *)

(** ** Samples and InsertionSort *)

(** X1: [InsertionSort] on a buffer of [bufsize] entries leaves them in
    ascending order, and they are the entries the buffer had, each as often
    as before. *)
Theorem InsertionSort_sorted_permutation (buf : list Z) (bufsize : Z) :
  Z.of_nat (length buf) = bufsize ->
  StronglySorted Z.le (InsertionSort buf bufsize) /\
  InsertionSort buf bufsize ≡ₚ buf /\
  length (InsertionSort buf bufsize) = length buf.
Proof.
  intros H. destruct (InsertionSort_sorts buf bufsize H) as [Hs Hp].
  split; [exact Hs|]. split; [exact Hp|]. now apply Permutation_length.
Qed.

Lemma InsertionSort_sorted_permutation_witness :
  StronglySorted Z.le (InsertionSort [5; 3; 9; 1; 1; 7; 0; 2] 8) /\
  InsertionSort [5; 3; 9; 1; 1; 7; 0; 2] 8 ≡ₚ [5; 3; 9; 1; 1; 7; 0; 2] /\
  length (InsertionSort [5; 3; 9; 1; 1; 7; 0; 2] 8) = 8%nat.
Proof.
  apply (InsertionSort_sorted_permutation [5; 3; 9; 1; 1; 7; 0; 2] 8).
  reflexivity.
Defined.

(** X2: whatever the touch registers hold, the sample the driver assembles
    from them is a 10-bit value on each axis. *)
Theorem samples_are_10_bit (r : Regs) :
  0 <= sampleX r <= 1023 /\ 0 <= sampleY r <= 1023.
Proof. exact (sample_range r). Qed.

(** ** TouchPanelA2DRaw *)

(** X3: [TouchPanelA2DRaw] returns [touch] when the touch interrupt is
    pending, and then hands out a 10-bit sample and restarts the timer;
    otherwise it returns [no_touch] and leaves the caller's variables
    alone.  Either way the touch state becomes the code returned, whatever
    it was: a quiet raw read from [held] or [release] makes the next quiet
    filtered read report [no_touch], with no [release] reported. *)
Theorem TouchPanelA2DRaw_spec (r r' : Regs) (x y x' y' : Z) (s : RA8875) :
  let res := TouchPanelA2DRaw r x y s in
  touchState res.2 = res.1.1.1 /\
  (if tp_interrupt_pending r
   then res.1.1.1 = touch /\
        res.1.1.2 = sampleX r /\ 0 <= res.1.1.2 <= 1023 /\
        res.1.2 = sampleY r /\ 0 <= res.1.2 <= 1023 /\
        res.2 = set_touchState touch (set_touchTimer 0 s)
   else res.1.1.1 = no_touch /\ res.1.1.2 = x /\ res.1.2 = y /\
        res.2 = set_touchState no_touch s /\
        (tp_interrupt_pending r' = false ->
         (TouchPanelA2DFiltered r' x' y' res.2).1 = (no_touch, x', y'))).
Proof.
  pose proof (sample_range r) as [Hx Hy].
  unfold TouchPanelA2DRaw. destruct (tp_interrupt_pending r); cbn.
  - repeat split; auto; lia.
  - repeat split; auto. intros Hq.
    destruct s. unfold TouchPanelA2DFiltered. cbn. rewrite Hq. reflexivity.
Qed.

(** ** TouchPanelGet *)

(** X4: when [TouchPanelGet] returns, it has polled at least once, and the
    code it returns is [no_touch] exactly when it left the loop because the
    idle callback, at its latest call, asked for the abort; with no idle
    callback attached it never returns [no_touch]. *)
Theorem TouchPanelGet_result
    (hw : nat -> Regs) (async : nat -> RA8875 -> RA8875)
    (idle_callback : option (nat -> RetCode_t)) (fuel : nat) :
  forall (TouchPoint : option point_t) (w : World) t tp' w',
  TouchPanelGet hw async idle_callback fuel TouchPoint w = Some (t, tp', w') ->
  (polls w < polls w')%nat /\
  (idles w <= idles w')%nat /\
  (t = no_touch <->
   exists cb, idle_callback = Some cb /\ (idles w < idles w')%nat /\
              cb (pred (idles w')) = external_abort).
Proof.
  induction fuel as [|fuel IH]; intros tp w t tp' w' H; [discriminate H|].
  cbn [TouchPanelGet] in H.
  destruct (TouchPanelReadable (hw (polls w)) tp (async (polls w) (dev w)))
    as [[t1 tp1] d1].
  destruct (decide (t1 <> no_touch)) as [Hne|He].
  - injection H as <- <- <-. cbn. repeat split; try lia.
    + intros ->. contradiction.
    + intros (cb & _ & Hlt & _). lia.
  - unfold idle in H. destruct idle_callback as [cb|] eqn:Ecb; cbn in H.
    + destruct (bool_decide (cb (idles w) = external_abort)) eqn:Eb.
      * injection H as <- <- <-. cbn. apply bool_decide_eq_true in Eb.
        repeat split; try lia. exists cb. repeat split; [lia | exact Eb].
      * apply IH in H as (Hp & Hi & Hiff). cbn in Hp, Hi.
        split; [lia|]. split; [lia|]. rewrite Hiff. cbn.
        split; intros (cb' & E' & Hlt & Hab); exists cb';
          repeat split; auto; try lia.
        injection E' as <-. apply bool_decide_eq_false in Eb.
        destruct (decide (idles w' = S (idles w))) as [Heq|]; [|lia].
        rewrite Heq in Hab. cbn in Hab. contradiction.
    + apply IH in H as (Hp & Hi & Hiff). cbn in Hp, Hi.
      split; [lia|]. split; [lia|]. rewrite Hiff.
      split; intros (cb' & E' & _); discriminate E'.
Qed.

(** A panel nobody touches, and an idle callback that asks for the abort
    at its second call. *)
Lemma TouchPanelGet_result_witness :
  exists w',
    TouchPanelGet untouched (fun _ d => d) (abort_at 1) 2 (Some (mkPoint 0 0))
      (mkWorld calibrated O O [])
    = Some (no_touch, Some (mkPoint 0 0), w') /\
    (0 < polls w')%nat /\ (0 <= idles w')%nat.
Proof.
  destruct (TouchPanelGet untouched (fun _ d => d) (abort_at 1) 2
              (Some (mkPoint 0 0)) (mkWorld calibrated O O []))
    as [[[t tp'] w']|] eqn:E.
  - destruct (TouchPanelGet_result _ _ _ _ _ _ _ _ _ E) as (Hp & Hi & _).
    vm_compute in E. injection E as <- <- <-.
    eexists. split; [reflexivity|]. split; [exact Hp | exact Hi].
  - vm_compute in E. discriminate E.
Defined.

(** ** TouchPanelInit with parameters *)

(** X5: on a panel that is not capacitive, [TouchPanelInit] with parameters
    succeeds exactly when [bTpEnable] is [TP_ENABLE] and the other five
    parameters are in range; it then clears the sample index, sets the
    touch state to [no_cal] and attaches the ticker.  Any other value,
    [TP_DISABLE] included, is refused with [bad_parameter] and changes
    nothing, so the call never detaches the ticker. *)
Theorem TouchPanelInitParams_spec
    (bTpEnable bTpAutoManual bTpDebounce bTpManualMode bTpAdcClkDiv
       bTpAdcSampleTime : Z) (s : RA8875) :
  useTouchPanel s <> TP_CAP ->
  let res := TouchPanelInitParams bTpEnable bTpAutoManual bTpDebounce
               bTpManualMode bTpAdcClkDiv bTpAdcSampleTime s in
  let in_range :=
    uint8 bTpEnable = 128 /\
    (uint8 bTpAutoManual = 0 \/ uint8 bTpAutoManual = 64) /\
    (uint8 bTpDebounce = 0 \/ uint8 bTpDebounce = 4) /\
    uint8 bTpManualMode <= 3 /\
    uint8 bTpAdcClkDiv <= 7 /\
    uint8 bTpAdcSampleTime <= 112 in
  (in_range ->
   res = (noerror, Some TickerAttach,
          set_touchTimer 0 (set_touchState no_cal (set_touchSample 0 s)))) /\
  (~ in_range -> res = (bad_parameter, None, s)) /\
  (uint8 bTpEnable = TP_DISABLE -> res = (bad_parameter, None, s)) /\
  res.1.2 <> Some TickerDetach.
Proof.
  intros Hmode. cbv zeta. unfold TouchPanelInitParams.
  change TP_ENABLE with 128. change TP_DISABLE with 0.
  change TP_MODE_AUTO with 0. change TP_MODE_MANUAL with 64.
  change TP_DEBOUNCE_OFF with 0. change TP_DEBOUNCE_ON with 4.
  change TP_MANUAL_LATCH_Y with 3. change TP_ADC_CLKDIV_128 with 7.
  change TP_ADC_SAMPLE_65536_CLKS with 112.
  set (e := uint8 bTpEnable). set (a := uint8 bTpAutoManual).
  set (d := uint8 bTpDebounce). set (m := uint8 bTpManualMode).
  set (c := uint8 bTpAdcClkDiv). set (t := uint8 bTpAdcSampleTime).
  destruct (useTouchPanel s); try contradiction;
    destruct (Z.eqb_spec e 128); destruct (Z.eqb_spec a 0);
    destruct (Z.eqb_spec a 64); destruct (Z.eqb_spec d 0);
    destruct (Z.eqb_spec d 4); destruct (Z.leb_spec m 3);
    destruct (Z.leb_spec c 7); destruct (Z.leb_spec t 112); cbn;
    repeat split; intros; try discriminate; try reflexivity;
    try (exfalso; lia); try tauto.
Qed.

Lemma TouchPanelInitParams_spec_witness :
  TouchPanelInitParams TP_ENABLE TP_MODE_AUTO TP_DEBOUNCE_ON 0 3 64 calibrated
    = (noerror, Some TickerAttach,
       set_touchTimer 0 (set_touchState no_cal (set_touchSample 0 calibrated))) /\
  TouchPanelInitParams TP_DISABLE TP_MODE_AUTO TP_DEBOUNCE_ON 0 3 64 calibrated
    = (bad_parameter, None, calibrated).
Proof.
  split.
  - apply (TouchPanelInitParams_spec TP_ENABLE TP_MODE_AUTO TP_DEBOUNCE_ON
             0 3 64 calibrated); [discriminate|].
    vm_compute. repeat split; auto; discriminate.
  - apply (TouchPanelInitParams_spec TP_DISABLE TP_MODE_AUTO TP_DEBOUNCE_ON
             0 3 64 calibrated); [discriminate|].
    reflexivity.
Defined.

(** ** The capacitive panel *)

Lemma uint8_range z : 0 <= uint8 z <= 255.
Proof. unfold uint8. pose proof (Z.mod_pos_bound z (2 ^ 8)). lia. Qed.

Lemma uint8_small z : 0 <= z <= 255 -> uint8 z = z.
Proof. intros H. unfold uint8. apply Z.mod_small. lia. Qed.

Lemma uint16_small z : 0 <= z <= 65535 -> uint16 z = z.
Proof. intros H. unfold uint16. apply Z.mod_small. lia. Qed.

Lemma land_15 z : Z.land z 15 = z mod 16.
Proof. change 15 with (Z.ones 4). now rewrite Z.land_ones by lia. Qed.

(** One touch record as the interrupt routine decodes it. *)
Lemma read_touch_range i2c XH XL YH YL :
  let t := read_touch i2c XH XL YH YL in
  0 <= touchID t <= 15 /\
  touchCode t <> no_cal /\
  px (coordinates t)
    = readRegister8 i2c XH mod 16 * 256 + readRegister8 i2c XL /\
  py (coordinates t)
    = readRegister8 i2c YH mod 16 * 256 + readRegister8 i2c YL /\
  0 <= px (coordinates t) <= 4095 /\
  0 <= py (coordinates t) <= 4095.
Proof.
  unfold read_touch, readRegister8. cbn [touchID touchCode coordinates px py].
  pose proof (uint8_range (i2c (uint8 XH))) as Hxh.
  pose proof (uint8_range (i2c (uint8 XL))) as Hxl.
  pose proof (uint8_range (i2c (uint8 YH))) as Hyh.
  pose proof (uint8_range (i2c (uint8 YL))) as Hyl.
  set (xh := uint8 (i2c (uint8 XH))) in *. set (xl := uint8 (i2c (uint8 XL))) in *.
  set (yh := uint8 (i2c (uint8 YH))) in *. set (yl := uint8 (i2c (uint8 YL))) in *.
  rewrite !land_15.
  pose proof (Z.mod_pos_bound xh 16). pose proof (Z.mod_pos_bound yh 16).
  assert (Ex : int16 (xh mod 16 ⊗ 256 ⊕ xl) = xh mod 16 * 256 + xl).
  { unfold add32, mul32. rewrite (int32_small (_ * _)) by lia.
    rewrite int32_small by lia. apply int16_small. lia. }
  assert (Ey : int16 (yh mod 16 ⊗ 256 ⊕ yl) = yh mod 16 * 256 + yl).
  { unfold add32, mul32. rewrite (int32_small (_ * _)) by lia.
    rewrite int32_small by lia. apply int16_small. lia. }
  rewrite Ex, Ey. rewrite !Z.shiftr_div_pow2 by lia.
  change (2 ^ 4) with 16. change (2 ^ 6) with 64.
  assert (0 <= yh / 16 <= 15) by (Z.div_mod_to_equations; lia).
  assert (0 <= xh / 64 <= 3) by (Z.div_mod_to_equations; lia).
  repeat split; try lia.
  - rewrite uint8_small; lia.
  - rewrite uint8_small; lia.
  - assert (Hq : xh / 64 = 0 \/ xh / 64 = 1 \/ xh / 64 = 2 \/ xh / 64 = 3)
      by lia.
    destruct Hq as [->|[->|[->| ->]]]; discriminate.
Qed.

Lemma read_touch_ok i2c XH XL YH YL :
  let t := read_touch i2c XH XL YH YL in
  0 <= touchID t <= 15 /\
  touchCode t <> no_cal /\
  0 <= px (coordinates t) <= 4095 /\
  0 <= py (coordinates t) <= 4095.
Proof.
  destruct (read_touch_range i2c XH XL YH YL) as (? & ? & _ & _ & ? & ?).
  auto.
Qed.

(** The five records after an interrupt, whatever they were before. *)
Lemma getTouchPositions_touchInfo i2c c :
  touchInfo (obj (getTouchPositions i2c c).2)
  = [# read_touch i2c FT5206_TOUCH1_XH FT5206_TOUCH1_XL
         FT5206_TOUCH1_YH FT5206_TOUCH1_YL;
       read_touch i2c FT5206_TOUCH2_XH FT5206_TOUCH2_XL
         FT5206_TOUCH2_YH FT5206_TOUCH2_YL;
       read_touch i2c FT5206_TOUCH3_XH FT5206_TOUCH3_XL
         FT5206_TOUCH3_YH FT5206_TOUCH3_YL;
       read_touch i2c FT5206_TOUCH4_XH FT5206_TOUCH4_XL
         FT5206_TOUCH4_YH FT5206_TOUCH4_YL;
       read_touch i2c FT5206_TOUCH5_XH FT5206_TOUCH5_XL
         FT5206_TOUCH5_YH FT5206_TOUCH5_YL ].
Proof.
  destruct c as [s g]. destruct s as [? ? ? ti ? ? ? ? ? ? ? ?].
  unfold getTouchPositions. cbn [obj snd touchInfo set_touchInfo
    set_numberOfTouchPoints].
  inv_vec ti. intros t1 t2 t3 t4 t5. reflexivity.
Qed.

Lemma touchInfo_at_lookup channel s :
  exists i : fin 5, touchInfo_at channel s = touchInfo s !!! i.
Proof. unfold touchInfo_at. repeat case_match; eauto. Qed.

(** X6: after the interrupt routine has read the controller, whatever the
    registers held, the touch count is within 0..15 and is the value
    returned, the gesture is a byte, and for every channel argument of the
    accessors the touch ID is within 0..15, the touch code is one of
    [touch], [release], [held], [no_touch] (never [no_cal]) and both
    coordinates are within 0..4095. *)
Theorem getTouchPositions_ranges (i2c : Z -> Z) (c : CapPanel) (channel : Z) :
  let res := getTouchPositions i2c c in
  let s := obj res.2 in
  0 <= TouchCount s <= 15 /\
  res.1 = TouchCount s /\
  0 <= TouchGesture res.2 <= 255 /\
  0 <= TouchID channel s <= 15 /\
  TouchCode channel s <> no_cal /\
  0 <= px (TouchCoordinates channel s) <= 4095 /\
  0 <= py (TouchCoordinates channel s) <= 4095.
Proof.
  cbv zeta.
  assert (Hn : TouchCount (obj (getTouchPositions i2c c).2)
               = readRegister8 i2c FT5206_TD_STATUS mod 16 /\
               (getTouchPositions i2c c).1
               = readRegister8 i2c FT5206_TD_STATUS mod 16).
  { destruct c as [s g]. destruct s. unfold getTouchPositions, TouchCount.
    cbn [obj fst snd numberOfTouchPoints set_touchInfo
      set_numberOfTouchPoints].
    rewrite land_15.
    pose proof (Z.mod_pos_bound (readRegister8 i2c FT5206_TD_STATUS) 16).
    rewrite uint16_small, uint8_small by lia. auto. }
  destruct Hn as [Hn Hr]. rewrite Hn, Hr.
  pose proof (Z.mod_pos_bound (readRegister8 i2c FT5206_TD_STATUS) 16).
  split; [lia|]. split; [reflexivity|].
  split.
  { destruct c as [s g]. unfold TouchGesture, getTouchPositions.
    cbn [gesture snd]. apply uint8_range. }
  unfold TouchID, TouchCode, TouchCoordinates.
  destruct (touchInfo_at_lookup channel (obj (getTouchPositions i2c c).2))
    as [i ->].
  rewrite getTouchPositions_touchInfo.
  repeat (inv_fin i; [exact (read_touch_ok _ _ _ _ _) | intros i]); inv_fin i.
Qed.

(** X7: on a panel that is not resistive, an interrupt followed by
    [TouchPanelReadable] with a point pointer returns the code of the first
    touch's event flag and its 12-bit coordinates as read from the
    controller; the calibration matrix plays no part.  The event is then
    consumed: the next call returns [no_touch] and leaves the caller's point
    alone. *)
Theorem TouchPanelISR_then_Readable
    (i2c : Z -> Z) (c : CapPanel) (r r' : Regs) (p p' : point_t) :
  useTouchPanel (obj c) <> TP_RES ->
  let res := TouchPanelReadable r (Some p) (obj (TouchPanelISR i2c c)) in
  res.1.1 = EventFlagToTouchCode (readRegister8 i2c FT5206_TOUCH1_XH / 64) /\
  res.1.2 = Some (mkPoint
                    (readRegister8 i2c FT5206_TOUCH1_XH mod 16 * 256
                     + readRegister8 i2c FT5206_TOUCH1_XL)
                    (readRegister8 i2c FT5206_TOUCH1_YH mod 16 * 256
                     + readRegister8 i2c FT5206_TOUCH1_YL)) /\
  tpMatrix res.2 = tpMatrix (obj c) /\
  TouchPanelReadable r' (Some p') res.2 = (no_touch, Some p', res.2).
Proof.
  intros Hmode. cbv zeta.
  assert (Hti : touchInfo0 (obj (TouchPanelISR i2c c))
                = read_touch i2c FT5206_TOUCH1_XH FT5206_TOUCH1_XL
                    FT5206_TOUCH1_YH FT5206_TOUCH1_YL).
  { unfold touchInfo0, TouchPanelISR. cbn [obj].
    change (touchInfo (set_panelTouched true (obj (getTouchPositions i2c c).2)))
      with (touchInfo (obj (getTouchPositions i2c c).2)).
    rewrite getTouchPositions_touchInfo. reflexivity. }
  assert (Hfr : useTouchPanel (obj (TouchPanelISR i2c c)) = useTouchPanel (obj c)
                /\ panelTouched (obj (TouchPanelISR i2c c)) = true
                /\ tpMatrix (obj (TouchPanelISR i2c c)) = tpMatrix (obj c)).
  { destruct c as [s g]. destruct s. cbn. auto. }
  destruct Hfr as (Hu & Hp & Hm).
  rewrite TouchPanelReadable_other by (rewrite Hu; exact Hmode).
  rewrite Hp. cbn [fst snd]. rewrite Hti.
  destruct (read_touch_range i2c FT5206_TOUCH1_XH FT5206_TOUCH1_XL
              FT5206_TOUCH1_YH FT5206_TOUCH1_YL) as (_ & _ & Ex & Ey & _).
  split.
  { unfold read_touch. cbn [touchCode].
    rewrite Z.shiftr_div_pow2 by lia. reflexivity. }
  split.
  { f_equal. destruct (coordinates _) as [x y]. cbn in Ex, Ey. congruence. }
  split.
  { rewrite <- Hm. now destruct (obj (TouchPanelISR i2c c)). }
  rewrite TouchPanelReadable_other.
  - now destruct (obj (TouchPanelISR i2c c)).
  - rewrite <- Hu in Hmode. now destruct (obj (TouchPanelISR i2c c)).
Qed.

(** The controller reports one touch put down at (300, 200). *)
Lemma TouchPanelISR_then_Readable_witness :
  let i2c := fun reg : Z =>
    match reg with 2 => 1 | 3 => 1 | 4 => 44 | 5 => 0 | 6 => 200 | _ => 0 end in
  let c := mkCap (set_panelTouched false (TouchPanelInit
             (mkRA8875 TP_CAP no_touch 0
                (vreplicate 5 (mkTouchInfo 0 no_touch (mkPoint 0 0)))
                false 0 0 (mkMatrix 0 0 0 0 0 0 0)
                (replicate 16 0) (replicate 16 0) 0 0)).2) 0 in
  let res := TouchPanelReadable quiet_regs (Some (mkPoint 0 0))
               (obj (TouchPanelISR i2c c)) in
  res.1.1 = touch /\
  res.1.2 = Some (mkPoint 300 200) /\
  tpMatrix res.2 = mkMatrix 0 0 0 0 0 0 0 /\
  TouchPanelReadable quiet_regs (Some (mkPoint 1 1)) res.2
    = (no_touch, Some (mkPoint 1 1), res.2).
Proof.
  cbv zeta.
  apply (TouchPanelISR_then_Readable
           (fun reg : Z =>
              match reg with
              | 2 => 1 | 3 => 1 | 4 => 44 | 5 => 0 | 6 => 200 | _ => 0
              end)).
  discriminate.
Defined.

(** ** The life of a touch on the resistive panel *)

Lemma poll_all_cons r rs x y s :
  poll_all (r :: rs) x y s
  = let res := TouchPanelA2DFiltered r x y s in
    let rest := poll_all rs res.1.1.2 res.1.2 res.2 in
    (res.1.1.1 :: rest.1.1.1, rest.1.1.2, rest.1.2, rest.2).
Proof.
  cbn [poll_all]. destruct (TouchPanelA2DFiltered r x y s) as [[[t x1] y1] s1].
  cbn. now destruct (poll_all rs x1 y1 s1) as [[[ts x2] y2] s2].
Qed.

Lemma poll_all_app rs1 rs2 x y s :
  poll_all (rs1 ++ rs2) x y s
  = let a := poll_all rs1 x y s in
    let b := poll_all rs2 a.1.1.2 a.1.2 a.2 in
    (a.1.1.1 ++ b.1.1.1, b.1.1.2, b.1.2, b.2).
Proof.
  revert x y s. induction rs1 as [|r rs1 IH]; intros x y s.
  - cbn. now destruct (poll_all rs2 x y s) as [[[? ?] ?] ?].
  - cbn [app]. rewrite !poll_all_cons. cbn zeta. rewrite IH. reflexivity.
Qed.

(** While the batch fills from idle, nothing is reported. *)
Lemma poll_all_filling rs : forall x y s,
  Forall (fun r => tp_interrupt_pending r = true) rs ->
  touchState s = no_touch ->
  0 <= touchSample s ->
  touchSample s + Z.of_nat (length rs) < TPBUFSIZE ->
  length (xbuf s) = 16%nat -> length (ybuf s) = 16%nat ->
  let res := poll_all rs x y s in
  res.1 = (replicate (length rs) no_touch, x, y) /\
  touchState res.2 = no_touch /\
  touchSample res.2 = touchSample s + Z.of_nat (length rs) /\
  length (xbuf res.2) = 16%nat /\ length (ybuf res.2) = 16%nat.
Proof.
  unfold TPBUFSIZE.
  induction rs as [|r rs IH]; intros x y s Hp Hst H0 Hlt Hx Hy.
  - cbn. repeat split; auto. lia.
  - rewrite poll_all_cons. cbn zeta. inversion Hp as [|? ? Hr Hp']; subst.
    assert (E : TouchPanelA2DFiltered r x y s
                = (no_touch, x, y, (TouchPanelA2DFiltered r x y s).2) /\
                touchState (TouchPanelA2DFiltered r x y s).2 = no_touch /\
                touchSample (TouchPanelA2DFiltered r x y s).2 = touchSample s + 1 /\
                length (xbuf (TouchPanelA2DFiltered r x y s).2) = 16%nat /\
                length (ybuf (TouchPanelA2DFiltered r x y s).2) = 16%nat).
    { cbn [length] in Hlt.
      assert (Ea : add32 (touchSample s) 1 = touchSample s + 1)
        by (apply int32_small; lia).
      destruct s. cbn in *. unfold TouchPanelA2DFiltered. cbn.
      rewrite Hr, Ea, Hst.
      destruct (Z.eqb_spec (touchSample0 + 1) TPBUFSIZE) as [Heq|_];
        [unfold TPBUFSIZE in Heq; lia|].
      cbn. unfold store. rewrite !length_insert. auto. }
    destruct E as (E & Hst' & Hts' & Hx' & Hy').
    rewrite E. cbn [fst snd].
    destruct (IH x y (TouchPanelA2DFiltered r x y s).2 Hp' Hst')
      as (E2 & ? & Hts2 & ? & ?); try assumption; cbn [length] in *; try lia.
    cbn zeta in E2. rewrite E2. cbn [fst snd replicate].
    repeat split; auto. lia.
Qed.

(** Quiet polls during a touch report [held] and the last averages. *)
Lemma poll_all_held qs : forall x y s,
  Forall (fun r => tp_interrupt_pending r = false) qs ->
  touch_or_held (touchState s) = true ->
  let res := poll_all qs x y s in
  res.1.1.1 = replicate (length qs) held /\
  (qs <> [] -> res.1.1.2 = lastX s /\ res.1.2 = lastY s /\
               res.2 = set_touchState held s) /\
  (qs = [] -> res = ([], x, y, s)).
Proof.
  induction qs as [|q qs IH]; intros x y s Hq Hst.
  - cbn. split; [reflexivity|]. split; [intros Hne; contradiction | reflexivity].
  - rewrite poll_all_cons. cbn zeta. inversion Hq as [|? ? Hr Hq']; subst.
    assert (E : TouchPanelA2DFiltered q x y s
                = (held, lastX s, lastY s, set_touchState held s)).
    { destruct s. cbn in *. unfold TouchPanelA2DFiltered. cbn.
      now rewrite Hr, Hst. }
    rewrite E. cbn [fst snd].
    destruct (IH (lastX s) (lastY s) (set_touchState held s) Hq' eq_refl)
      as (Hc & Hne & Hnil).
    cbn zeta in *. rewrite Hc. cbn [length replicate]. split; [reflexivity|].
    split; [|intros Hc0; discriminate Hc0].
    intros _. destruct qs as [|q' qs'].
    + rewrite (Hnil eq_refl). auto.
    + destruct Hne as (-> & -> & ->); [discriminate|].
      destruct s; auto.
Qed.

Lemma TouchPanelA2DFiltered_pending_timer r x y s :
  tp_interrupt_pending r = true ->
  touchTimer (TouchPanelA2DFiltered r x y s).2 = 0.
Proof.
  intros Hp. destruct s. unfold TouchPanelA2DFiltered. cbn. rewrite Hp.
  repeat match goal with
         | |- context [if ?c then _ else _] => destruct c; cbn
         end; reflexivity.
Qed.

(** X8: the life of a touch on the resistive panel.  From idle, sixteen
    polls that each find a new sample report nothing for the first fifteen
    and [touch] for the sixteenth; the quiet polls that follow (at least
    one) report [held]; when the ticker has then run for 101 periods, the
    next quiet poll reports [release] and the one after it [no_touch].
    From the sixteenth poll on, the coordinates handed out are the averages
    of that batch. *)
Theorem touch_lifecycle
    (rs qs : list Regs) (q1 q2 : Regs) (x y : Z) (s : RA8875) :
  length rs = 16%nat ->
  Forall (fun r => tp_interrupt_pending r = true) rs ->
  Forall (fun r => tp_interrupt_pending r = false) qs ->
  qs <> [] ->
  tp_interrupt_pending q1 = false ->
  tp_interrupt_pending q2 = false ->
  touchState s = no_touch ->
  touchSample s = 0 ->
  length (xbuf s) = 16%nat -> length (ybuf s) = 16%nat ->
  let a := poll_all rs x y s in
  let b := poll_all qs a.1.1.2 a.1.2 a.2 in
  let c := poll_all [q1; q2] b.1.1.2 b.1.2 (run_ticker 101 b.2) in
  a.1.1.1 = replicate 15 no_touch ++ [touch] /\
  b.1.1.1 = replicate (length qs) held /\
  c.1.1.1 = [release; no_touch] /\
  (b.1.1.2, b.1.2) = (a.1.1.2, a.1.2) /\
  (c.1.1.2, c.1.2) = (a.1.1.2, a.1.2) /\
  touchState c.2 = no_touch.
Proof.
  intros Hlen Hp Hq Hne Hq1 Hq2 Hst H0 Hx Hy.
  rewrite <- (take_drop 15 rs) in Hp |- *.
  apply Forall_app in Hp as [Hp15 Hp16].
  assert (Hl15 : length (take 15 rs) = 15%nat) by (rewrite length_take; lia).
  destruct (drop 15 rs) as [|r16 [|? ?]] eqn:Ed;
    try (apply (f_equal length) in Ed; rewrite length_drop in Ed;
         cbn in Ed; lia).
  inversion Hp16 as [|? ? Hr16 _]; subst.
  cbv zeta. rewrite poll_all_app. cbn zeta.
  destruct (poll_all_filling (take 15 rs) x y s Hp15 Hst)
    as (E15 & Hst15 & Hts15 & Hx15 & Hy15);
    try assumption; try (unfold TPBUFSIZE; lia).
  cbn zeta in *. rewrite Hl15 in *.
  set (s15 := (poll_all (take 15 rs) x y s).2) in *.
  rewrite E15. cbn [fst snd].
  rewrite poll_all_cons. cbn zeta. cbn [poll_all fst snd].
  assert (Hfull : add32 (touchSample s15) 1 = TPBUFSIZE)
    by (rewrite Hts15, H0; reflexivity).
  destruct (TouchPanelA2DFiltered_full_batch r16 x y s15 Hr16 Hfull)
    as (_ & _ & HlX & HlY & Hret & Hst16 & _).
  pose proof (TouchPanelA2DFiltered_pending_timer r16 x y s15 Hr16) as Ht16.
  cbn zeta in *. rewrite Hst15 in Hret. cbn in Hret.
  set (r := TouchPanelA2DFiltered r16 x y s15) in *.
  rewrite Hret in *.
  destruct (poll_all_held qs r.1.1.2 r.1.2 r.2 Hq) as (Hc & Hb & _).
  { rewrite Hst16. reflexivity. }
  destruct (Hb Hne) as (Hbx & Hby & Hbs). clear Hb.
  cbn zeta in *. rewrite Hc, Hbx, Hby, Hbs, HlX, HlY.
  assert (Htick : run_ticker 101 (set_touchState held r.2)
                  = set_touchTimer 0 (set_touchState release
                      (set_touchSample 0 (set_touchState held r.2)))).
  { rewrite run_ticker_expires.
    - reflexivity.
    - destruct r.2. cbn in *. rewrite Ht16. vm_compute. discriminate.
    - destruct r.2. cbn in *. rewrite Ht16. vm_compute. reflexivity. }
  rewrite Htick.
  split; [reflexivity|]. split; [reflexivity|].
  clear Hc Hbx Hby Hbs Htick Hfull. clearbody r.
  destruct r as [[[rt rx] ry] [? ? ? ? ? ? ? ? ? ? lx ly]].
  cbn in HlX, HlY, Hst16. subst lx ly.
  unfold TouchPanelA2DFiltered. cbn. rewrite Hq1. cbn. rewrite Hq2. cbn.
  auto.
Qed.

Lemma touch_lifecycle_witness :
  let rs := map (fun k => sample_regs (300 + k) (200 + 2 * k))
                [0; 1; 2; 3; 4; 5; 6; 7; 8; 9; 10; 11; 12; 13; 14; 15] in
  let qs := [quiet_regs; quiet_regs; quiet_regs] in
  let a := poll_all rs 0 0 calibrated in
  let b := poll_all qs a.1.1.2 a.1.2 a.2 in
  let c := poll_all [quiet_regs; quiet_regs] b.1.1.2 b.1.2
             (run_ticker 101 b.2) in
  a.1.1.1 = replicate 15 no_touch ++ [touch] /\
  b.1.1.1 = replicate (length qs) held /\
  c.1.1.1 = [release; no_touch] /\
  (b.1.1.2, b.1.2) = (a.1.1.2, a.1.2) /\
  (c.1.1.2, c.1.2) = (a.1.1.2, a.1.2) /\
  touchState c.2 = no_touch.
Proof.
  apply touch_lifecycle; try reflexivity; try discriminate.
  - repeat (constructor; [reflexivity|]). constructor.
  - repeat (constructor; [reflexivity|]). constructor.
Defined.

(** ** The sampling buffers *)

Lemma InsertionSort_in10 buf :
  length buf = 16%nat -> Forall in10 buf ->
  length (InsertionSort buf TPBUFSIZE) = 16%nat /\
  Forall in10 (InsertionSort buf TPBUFSIZE).
Proof.
  intros Hl Hf.
  destruct (InsertionSort_sorts buf TPBUFSIZE) as [_ Hp].
  { rewrite Hl. reflexivity. }
  split.
  - rewrite <- Hl. now apply Permutation_length.
  - now rewrite Hp.
Qed.

Lemma add32_small a b : - 2 ^ 31 <= a + b < 2 ^ 31 -> add32 a b = a + b.
Proof. apply int32_small. Qed.

Lemma average_in_range buf :
  length buf = 16%nat -> Forall in10 buf ->
  0 <= scale_average (middle_sum buf) <= 1150.
Proof.
  intros Hl Hf.
  do 17 (destruct buf as [|? buf]; try discriminate Hl).
  rewrite middle_sum_entries.
  repeat match goal with
         | H : Forall _ (_ :: _) |- _ =>
             apply Forall_cons in H as [? H]
         end.
  unfold in10 in *.
  repeat match goal with
         | |- context [add32 ?a ?b] =>
             rewrite (add32_small a b) by lia
         end.
  unfold scale_average, TPBUFSIZE.
  rewrite Z.quot_div_nonneg by lia.
  rewrite int32_small; Z.div_mod_to_equations; lia.
Qed.

Lemma TouchPanelA2DFiltered_buffers r x y s :
  buffers_ok s ->
  let res := TouchPanelA2DFiltered r x y s in
  buffers_ok res.2 /\
  (touch_or_held res.1.1.1 = true ->
   0 <= res.1.1.2 <= 1150 /\ 0 <= res.1.2 <= 1150 /\
   res.1.1.2 = lastX res.2 /\ res.1.2 = lastY res.2).
Proof.
  unfold buffers_ok, TPBUFSIZE. intros (Hi & Hlx & Hly & Hfx & Hfy & HX & HY).
  pose proof (sample_range r) as [HsX HsY].
  assert (E : add32 (touchSample s) 1 = touchSample s + 1)
    by (apply int32_small; lia).
  destruct s as [? ts ? ? ? ? i ? xb yb lx ly]. cbn in *.
  assert (Hx' : length (store xb (Z.to_nat i) (sampleX r)) = 16%nat)
    by (unfold store; now rewrite length_insert).
  assert (Hy' : length (store yb (Z.to_nat i) (sampleY r)) = 16%nat)
    by (unfold store; now rewrite length_insert).
  assert (Fx' : Forall in10 (store xb (Z.to_nat i) (sampleX r)))
    by (apply Forall_insert; [exact Hfx | exact HsX]).
  assert (Fy' : Forall in10 (store yb (Z.to_nat i) (sampleY r)))
    by (apply Forall_insert; [exact Hfy | exact HsY]).
  destruct (InsertionSort_in10 _ Hx' Fx') as [Hsx Fsx].
  destruct (InsertionSort_in10 _ Hy' Fy') as [Hsy Fsy].
  pose proof (average_in_range _ Hsx Fsx) as Hax.
  pose proof (average_in_range _ Hsy Fsy) as Hay.
  unfold TouchPanelA2DFiltered. cbn. rewrite E. unfold TPBUFSIZE in *.
  destruct (tp_interrupt_pending r); cbn.
  - destruct (Z.eqb_spec (i + 1) 16); cbn.
    + destruct (touch_or_held ts); cbn; repeat split; auto; lia.
    + destruct (touch_or_held ts) eqn:Et; cbn; rewrite ?Et;
        repeat split; auto; try lia; try discriminate.
  - destruct (touch_or_held ts) eqn:Et; cbn.
    + repeat split; auto; lia.
    + destruct (decide (ts = release)); cbn; rewrite ?Et;
        repeat split; auto; try lia; try discriminate.
Qed.

Lemma TouchTicker_buffers s : buffers_ok s -> buffers_ok (_TouchTicker s).
Proof.
  unfold buffers_ok, TPBUFSIZE, _TouchTicker. destruct s. cbn.
  intros H.
  repeat match goal with
         | |- context [if ?c then _ else _] => destruct c; cbn
         end; intuition lia.
Qed.

Lemma TouchPanelInit_buffers s :
  buffers_ok s -> buffers_ok (TouchPanelInit s).2.
Proof.
  unfold buffers_ok, TPBUFSIZE, TouchPanelInit.
  destruct s as [[] ? ? ? ? ? ? ? ? ? ? ?]; cbn; intros H; intuition lia.
Qed.

Lemma call_buffers c s : buffers_ok s -> buffers_ok (call c s).
Proof.
  intros H. destruct c; cbn [call].
  - now apply TouchPanelInit_buffers.
  - unfold TouchPanelInitParams.
    pose proof (TouchPanelInit_buffers s H) as Hi.
    revert H Hi. unfold buffers_ok, TPBUFSIZE, TouchPanelInit.
    destruct s as [[] ? ? ? ? ? ? ? ? ? ? ?]; cbn; intros H Hi;
      repeat match goal with
             | |- context [if ?c then _ else _] => destruct c; cbn
             end; intuition lia.
  - unfold TouchPanelSetMatrix. destruct matrixPtr as [m|]; [|exact H].
    destruct (Divider m =? 0); [exact H|]. destruct s; exact H.
  - unfold TouchPanelComputeCalibration. destruct s. cbn.
    destruct (_ =? 0); [exact H|]. destruct matrixPtr; exact H.
  - unfold TouchPanelA2DRaw. destruct s.
    destruct (tp_interrupt_pending r); exact H.
  - now apply TouchPanelA2DFiltered_buffers.
  - unfold TouchPanelReadable.
    destruct (useTouchPanel s) eqn:Eu.
    + destruct (panelTouched s); [|exact H].
      destruct s; destruct TouchPoint; exact H.
    + assert (H0 : buffers_ok (set_touchID0 0 s)) by (destruct s; exact H).
      pose proof (TouchPanelA2DFiltered_buffers r 0 0 _ H0) as [Hf _].
      destruct (TouchPanelA2DFiltered r 0 0 (set_touchID0 0 s))
        as [[[ts a2dX] a2dY] s1].
      cbn [snd] in Hf. destruct s1.
      repeat match goal with
             | |- context [if ?c then _ else _] => destruct c; cbn
             | |- context [match ?c with Some _ => _ | None => _ end] =>
                 destruct c; cbn
             end; exact Hf.
    + destruct (panelTouched s); [|exact H].
      destruct s; destruct TouchPoint; exact H.
  - apply TouchTicker_buffers. destruct s. exact H.
Qed.

(** X9: the sampling buffers are never left.  From an object whose sample
    index is within the buffers, whose buffers hold 16 10-bit values each
    and whose last averages are within 0..1150 (the object is one after
    its first [TouchPanelInit]), every sequence of calls of the touch
    interface and of the ticker leads to such an object again; so each
    store of [TouchPanelA2DFiltered] is within [xbuf] and [ybuf]. *)
Theorem calls_keep_buffers (cs : list Call) (s : RA8875) :
  buffers_ok s -> buffers_ok (calls cs s).
Proof.
  revert s. induction cs as [|c cs IH]; intros s H; [exact H|].
  cbn. apply IH. now apply call_buffers.
Qed.

Lemma calls_keep_buffers_witness :
  buffers_ok
    (calls [CInit; CA2DFiltered (sample_regs 300 200) 0 0; CTicker 200000;
            CReadable quiet_regs None; CSetMatrix (Some scenario_matrix)]
       (fresh (mkMatrix 0 0 0 0 0 0 0))).
Proof.
  apply calls_keep_buffers. unfold buffers_ok, fresh, TPBUFSIZE. cbn.
  repeat split; try lia; try reflexivity;
    repeat (constructor; [unfold in10; lia|]); constructor.
Defined.

(** X10: the coordinates [TouchPanelA2DFiltered] hands out with [touch] or
    [held] are within 0..1150 (nine 10-bit entries, divided by eight), and
    they are the averages kept in [lastX] and [lastY]. *)
Theorem filter_output_range (r : Regs) (x y : Z) (s : RA8875) :
  buffers_ok s ->
  let res := TouchPanelA2DFiltered r x y s in
  touch_or_held res.1.1.1 = true ->
  0 <= res.1.1.2 <= 1150 /\ 0 <= res.1.2 <= 1150 /\
  res.1.1.2 = lastX res.2 /\ res.1.2 = lastY res.2.
Proof.
  intros H. exact (proj2 (TouchPanelA2DFiltered_buffers r x y s H)).
Qed.

(** The sixteenth sample of (1023, 1023): the upper bound is reached. *)
Lemma filter_output_range_witness :
  let s := (feed 15 (sample_regs 1023 1023) 0 0 calibrated).2 in
  let res := TouchPanelA2DFiltered (sample_regs 1023 1023) 0 0 s in
  res.1 = (touch, 1150, 1150) /\
  0 <= res.1.1.2 <= 1150 /\ 0 <= res.1.2 <= 1150 /\
  res.1.1.2 = lastX res.2 /\ res.1.2 = lastY res.2.
Proof.
  split; [vm_compute; reflexivity|].
  apply filter_output_range.
  - unfold buffers_ok, TPBUFSIZE. vm_compute.
    repeat split; try discriminate;
      repeat (constructor; [split; discriminate|]); constructor.
  - vm_compute. reflexivity.
Defined.

(** ** The calibration session as a whole *)

Lemma TouchPanelComputeCalibration_result d p m s r m' s' :
  TouchPanelComputeCalibration d p m s = (r, m', s') ->
  (r = noerror /\ Divider (tpMatrix s') <> 0 /\ touchState s' = no_touch /\
   m' = match m with Some _ => Some (tpMatrix s') | None => None end) \/
  (r = bad_parameter /\ Divider (tpMatrix s') = 0 /\ m' = m).
Proof.
  unfold TouchPanelComputeCalibration. destruct s. cbn.
  destruct (Z.eqb_spec (calc_Divider p) 0) as [E|E]; intros [= <- <- <-]; cbn.
  - right. auto.
  - left. destruct m; auto.
Qed.

(** X11: what a calibration session can come to.  Given enough rounds it
    returns, with [noerror], [bad_parameter], [touch_cal_timeout] or
    [external_abort] and nothing else.  The solver has run exactly when the
    code is [noerror] or [bad_parameter].  With [noerror] the active matrix
    has a [Divider] other than 0, the state is [no_touch] and the caller's
    matrix, when there is one, is the active matrix; with any other code the
    caller's matrix is as it was; with [bad_parameter] the active matrix is
    left with [Divider] 0; with [touch_cal_timeout] and [external_abort] the
    active matrix is as it was, and [external_abort] needs an idle callback. *)
Theorem TouchPanelCalibrate_outcomes
    (hw : nat -> Regs) (idle_callback : option (nat -> RetCode_t))
    (width height : Z) (fuel : nat) (matrix : option tpMatrix_t)
    (maxwait_s x0 y0 : Z) (w : World) :
  enough_fuel maxwait_s fuel ->
  trace w = [] ->
  exists r m' w',
    TouchPanelCalibrate hw idle_callback width height fuel matrix maxwait_s
      x0 y0 w = Some (r, m', w') /\
    (r = noerror \/ r = bad_parameter \/ r = touch_cal_timeout \/
     r = external_abort) /\
    (In EvSolver (trace w') <-> r = noerror \/ r = bad_parameter) /\
    (r = noerror ->
       Divider (tpMatrix (dev w')) <> 0 /\ touchState (dev w') = no_touch /\
       m' = match matrix with
            | Some _ => Some (tpMatrix (dev w'))
            | None => None
            end) /\
    (r <> noerror -> m' = matrix) /\
    (r = bad_parameter -> Divider (tpMatrix (dev w')) = 0) /\
    (r = touch_cal_timeout \/ r = external_abort ->
       tpMatrix (dev w') = tpMatrix (dev w)) /\
    (r = external_abort -> idle_callback <> None).
Proof.
  intros Hfuel Htr.
  destruct (TouchPanelCalibrate_session hw idle_callback width height fuel
              matrix maxwait_s x0 y0 w Hfuel Htr)
    as (r & m' & w' & E &
        [(Hr & Hm & Ht & Hs)|(pS & d & H6 & Hd & Ec & Htr' & _)]).
  - exists r, m', w'. split; [exact E|].
    destruct Hr as [[-> Hcb]|[-> _]].
    + assert (idle_callback <> None)
        by (destruct Hcb as (cb & -> & _); discriminate).
      repeat split; auto; try discriminate; try tauto.
      intros [|]; discriminate.
    + repeat split; auto; try discriminate; try tauto.
      intros [|]; discriminate.
  - exists r, m', w'. split; [exact E|].
    apply TouchPanelComputeCalibration_result in Ec.
    rewrite Htr'.
    destruct Ec as [(-> & Hdiv & Hst & Hm)|(-> & Hdiv & Hm)].
    + repeat split; auto; try discriminate; try tauto.
      * intros _. left. reflexivity.
      * intros [|]; discriminate.
    + repeat split; auto; try discriminate; try tauto.
      * intros _. left. reflexivity.
      * intros [|]; discriminate.
Qed.

(** Three taps of sixteen samples each, a budget of 15 seconds, a matrix of
    the caller: the session ends in the solver with [noerror]. *)
Lemma TouchPanelCalibrate_outcomes_witness :
  exists m w',
    TouchPanelCalibrate three_taps None 480 272 751
      (Some (mkMatrix 0 0 0 0 0 0 0)) 15 0 0 (mkWorld calibrated O O [])
    = Some (noerror, Some m, w') /\
    In EvSolver (trace w') /\
    Divider m <> 0 /\ tpMatrix (dev w') = m /\ touchState (dev w') = no_touch.
Proof.
  destruct (TouchPanelCalibrate_outcomes three_taps None 480 272 751
              (Some (mkMatrix 0 0 0 0 0 0 0)) 15 0 0
              (mkWorld calibrated O O []))
    as (r & m' & w' & E & _ & Hs & Hok & _).
  - unfold enough_fuel. vm_compute. lia.
  - reflexivity.
  - vm_compute in E. injection E as <- <- <-.
    destruct (Hok eq_refl) as (Hdiv & Hst & _).
    eexists _, _. split; [vm_compute; reflexivity|].
    split; [apply Hs; left; reflexivity|].
    split; [exact Hdiv|]. split; [reflexivity | exact Hst].
Defined.



(** ** Reading a calibrated resistive panel *)

(** The filter's results do not depend on the touch records. *)
Lemma TouchPanelA2DFiltered_set_touchInfo r x y v s :
  (TouchPanelA2DFiltered r x y (set_touchInfo v s)).1
  = (TouchPanelA2DFiltered r x y s).1.
Proof. destruct s. filter_cases; reflexivity. Qed.

(** What the filter leaves in the caller's variables, by the code it
    returns: the averages kept in [lastX] and [lastY] with [touch] and
    [held], and with [release] when it found no sample; what the variables
    held before with [no_cal] and [no_touch], and with [release] when it
    found a sample. *)
Lemma TouchPanelA2DFiltered_outputs r x y s :
  let f := TouchPanelA2DFiltered r x y s in
  (touch_or_held f.1.1.1 = true ->
     f.1.1.2 = lastX f.2 /\ f.1.2 = lastY f.2) /\
  (f.1.1.1 = release ->
     (f.1.1.2, f.1.2) = if tp_interrupt_pending r then (x, y)
                        else (lastX f.2, lastY f.2)) /\
  (f.1.1.1 = no_cal \/ f.1.1.1 = no_touch -> (f.1.1.2, f.1.2) = (x, y)).
Proof.
  destruct s as [? ts ? ? ? ? i ? xb yb lx ly].
  unfold TouchPanelA2DFiltered. cbn.
  destruct (tp_interrupt_pending r); cbn.
  - destruct (add32 i 1 =? TPBUFSIZE); cbn.
    + destruct (touch_or_held ts); cbn;
        (split; [auto|]; split; [discriminate|]; intros [|]; discriminate).
    + destruct (touch_or_held ts) eqn:Et; cbn; rewrite ?Et.
      * split; [auto|]. split; [discriminate|]. intros [|]; discriminate.
      * split; [discriminate|]. auto.
  - destruct (touch_or_held ts) eqn:Et; cbn.
    + split; [auto|]. split; [discriminate|]. intros [|]; discriminate.
    + destruct (decide (ts = release)) as [->|Hn]; cbn.
      * split; [discriminate|]. split; [auto|]. intros [|]; discriminate.
      * rewrite Et. split; [discriminate|].
        split; [intros ->; contradiction | auto].
Qed.

(** X13: with a calibration installed, [TouchPanelReadable] called with a
    point on the resistive panel returns the filter's code.  When that code
    is not [no_touch], the point handed out is the pair the filter has left
    in the variables [a2dX] and [a2dY], which start at 0, mapped by the
    active matrix, and the accessors of channel 0 give one touch point with
    id 0, that code and that point.  The pair is the averages kept in
    [lastX] and [lastY] when the code is [touch] or [held], and when it is
    [release] with no sample found; it is still (0, 0), so that the point
    is the map of (0, 0), when the code is [no_cal], and when it is
    [release] with a sample found.  When the code is [no_touch] and no touch
    was left pending, the caller's point is as it was and the touch count
    is 0. *)
Theorem TouchPanelReadable_calibrated (r : Regs) (p : point_t) (s : RA8875) :
  useTouchPanel s = TP_RES ->
  Divider (tpMatrix s) <> 0 ->
  let f := TouchPanelA2DFiltered r 0 0 s in
  let res := TouchPanelReadable r (Some p) s in
  res.1.1 = f.1.1.1 /\
  (f.1.1.1 <> no_touch ->
     res.1.2 = Some (getDisplayPoint (tpMatrix s) f.1.1.2 f.1.2) /\
     TouchCount res.2 = 1 /\
     TouchID 0 res.2 = 0 /\
     TouchCode 0 res.2 = f.1.1.1 /\
     TouchCoordinates 0 res.2 = getDisplayPoint (tpMatrix s) f.1.1.2 f.1.2) /\
  (touch_or_held f.1.1.1 = true ->
     f.1.1.2 = lastX f.2 /\ f.1.2 = lastY f.2) /\
  (f.1.1.1 = release ->
     (f.1.1.2, f.1.2) = if tp_interrupt_pending r then (0, 0)
                        else (lastX f.2, lastY f.2)) /\
  (f.1.1.1 = no_cal ->
     (f.1.1.2, f.1.2) = (0, 0) /\
     res.1.2 = Some (getDisplayPoint (tpMatrix s) 0 0)) /\
  (f.1.1.1 = no_touch -> panelTouched s = false ->
     res.1.2 = Some p /\ TouchCount res.2 = 0).
Proof.
  intros Hmode Hdiv. cbv zeta.
  destruct (TouchPanelA2DFiltered_outputs r 0 0 s) as (Oh & Or & Oc).
  cbv zeta in Oh, Or, Oc.
  assert (Main :
    (TouchPanelReadable r (Some p) s).1.1
      = (TouchPanelA2DFiltered r 0 0 s).1.1.1 /\
    ((TouchPanelA2DFiltered r 0 0 s).1.1.1 <> no_touch ->
       (TouchPanelReadable r (Some p) s).1.2
       = Some (getDisplayPoint (tpMatrix s)
                 (TouchPanelA2DFiltered r 0 0 s).1.1.2
                 (TouchPanelA2DFiltered r 0 0 s).1.2) /\
       TouchCount (TouchPanelReadable r (Some p) s).2 = 1 /\
       TouchID 0 (TouchPanelReadable r (Some p) s).2 = 0 /\
       TouchCode 0 (TouchPanelReadable r (Some p) s).2
       = (TouchPanelA2DFiltered r 0 0 s).1.1.1 /\
       TouchCoordinates 0 (TouchPanelReadable r (Some p) s).2
       = getDisplayPoint (tpMatrix s)
           (TouchPanelA2DFiltered r 0 0 s).1.1.2
           (TouchPanelA2DFiltered r 0 0 s).1.2) /\
    ((TouchPanelA2DFiltered r 0 0 s).1.1.1 = no_touch ->
     panelTouched s = false ->
       (TouchPanelReadable r (Some p) s).1.2 = Some p /\
       TouchCount (TouchPanelReadable r (Some p) s).2 = 0)).
  { clear Oh Or Oc.
    unfold TouchPanelReadable. rewrite Hmode.
    pose proof (TouchPanelA2DFiltered_frame r 0 0 (set_touchID0 0 s)) as Hf.
    pose proof (TouchPanelA2DFiltered_set_touchInfo r 0 0
                  (vinsert 0%fin
                     (mkTouchInfo 0 (touchCode (touchInfo0 s))
                        (coordinates (touchInfo0 s))) (touchInfo s)) s) as Ha.
    change (set_touchInfo _ s) with (set_touchID0 0 s) in Ha.
    rewrite <- Ha. clear Ha.
    destruct (TouchPanelA2DFiltered r 0 0 (set_touchID0 0 s))
      as [[[ts ax] ay] s1].
    cbn in Hf. destruct Hf as (_ & _ & Hti & Hpt & Hm).
    assert (Hpt' : panelTouched s1 = panelTouched s)
      by (rewrite Hpt; now destruct s).
    assert (Hm' : tpMatrix s1 = tpMatrix s) by (rewrite Hm; now destruct s).
    assert (Hid : touchID (touchInfo s1 !!! 0%fin) = 0).
    { rewrite Hti. unfold set_touchID0, set_touchInfo0.
      destruct s. cbn. now rewrite vlookup_insert. }
    clear Hpt Hm Hti.
    cbn [fst snd]. rewrite <- Hm' in Hdiv |- *. rewrite <- Hpt'.
    unfold TouchCount, TouchID, TouchCode, TouchCoordinates, touchInfo_at.
    change (uint8 0) with 0.
    destruct s1 as [? ? ? ti pt ? ? m ? ? ? ?]. cbn in Hdiv, Hid |- *.
    destruct (decide (ts <> no_touch)) as [Hts|Hts]; cbn.
    - destruct (decide (Divider m <> 0)) as [_|Hn]; [|contradiction]. cbn.
      unfold touchInfo0. cbn. rewrite !vlookup_insert. cbn.
      split; [reflexivity|]. split; [auto 6 | intros ->; contradiction].
    - assert (ts = no_touch) as -> by (destruct ts; try reflexivity;
                                       exfalso; apply Hts; discriminate).
      unfold touchInfo0. cbn. rewrite ?vlookup_insert. cbn.
      destruct pt; cbn; rewrite ?vlookup_insert; cbn.
      + split; [reflexivity|]. split; [intros []; reflexivity|].
        intros _ Hp. discriminate Hp.
      + split; [reflexivity|]. split; [intros []; reflexivity|]. auto. }
  destruct Main as (M1 & M2 & M3).
  split; [exact M1|]. split; [exact M2|]. split; [exact Oh|].
  split; [exact Or|]. split; [|exact M3].
  intros Hc. assert (Hxy := Oc (or_introl Hc)).
  split; [exact Hxy|].
  destruct M2 as (-> & _); [rewrite Hc; discriminate|].
  injection Hxy as -> ->. reflexivity.
Qed.

(** The sixteenth sample of (100, 100) on the calibrated object of the
    design document's scenario: [touch] at the map of the averages
    (112, 112). *)
Lemma TouchPanelReadable_calibrated_witness :
  let s := (feed 15 (sample_regs 100 100) 0 0 calibrated).2 in
  let res := TouchPanelReadable (sample_regs 100 100) (Some (mkPoint 0 0)) s in
  res.1 = (touch, Some (mkPoint 55 54)) /\
  TouchCount res.2 = 1 /\
  TouchCoordinates 0 res.2 = mkPoint 55 54.
Proof.
  cbv zeta.
  destruct (TouchPanelReadable_calibrated (sample_regs 100 100) (mkPoint 0 0)
              (feed 15 (sample_regs 100 100) 0 0 calibrated).2)
    as (Hc & Ht & _).
  - reflexivity.
  - vm_compute. discriminate.
  - destruct Ht as (Hp & Hn & _ & _ & Hco).
    + vm_compute. discriminate.
    + split; [|split; [exact Hn|]].
      * rewrite (surjective_pairing (TouchPanelReadable _ _ _).1).
        rewrite Hc, Hp. vm_compute. reflexivity.
      * rewrite Hco. vm_compute. reflexivity.
Defined.

(** ** After TouchPanelInit *)

(** X14: after [TouchPanelInit] the resistive panel reports [no_cal],
    whatever matrix is installed: every poll of the filter that finds no
    sample returns [no_cal] and changes nothing, and [TouchPanelReadable]
    called with a point returns [no_cal].  This lasts until the watchdog
    fires: after 101 periods of the ticker the filter reports [no_touch]. *)
Theorem TouchPanelInit_reports_no_cal
    (s : RA8875) (qs : list Regs) (q : Regs) (p : point_t) (x y : Z) :
  useTouchPanel s = TP_RES ->
  Forall (fun r => tp_interrupt_pending r = false) qs ->
  tp_interrupt_pending q = false ->
  let s1 := (TouchPanelInit s).2 in
  poll_all qs x y s1 = (replicate (length qs) no_cal, x, y, s1) /\
  (TouchPanelReadable q (Some p) s1).1.1 = no_cal /\
  (TouchPanelA2DFiltered q x y (run_ticker 101 s1)).1 = (no_touch, x, y).
Proof.
  intros Hmode Hqs Hq s1.
  assert (Hst : touchState s1 = no_cal /\ touchTimer s1 = 0 /\
                useTouchPanel s1 = TP_RES).
  { subst s1. unfold TouchPanelInit. destruct s. cbn in *. subst. cbn. auto. }
  destruct Hst as (Hst & Htm & Hmode1).
  split; [|split].
  - clear Hq. induction Hqs as [|r qs Hr _ IH]; [reflexivity|].
    rewrite poll_all_cons. cbv zeta.
    rewrite TouchPanelA2DFiltered_idle by (rewrite ?Hst; auto; discriminate).
    cbn [fst snd]. rewrite IH, Hst. reflexivity.
  - assert (Hc : filtered_code q s1 = no_cal).
    { unfold filtered_code.
      rewrite TouchPanelA2DFiltered_idle by (rewrite ?Hst; auto; discriminate).
      exact Hst. }
    destruct (TouchPanelReadable_resistive q (Some p) s1 Hmode1) as [_ H].
    cbv zeta in H. rewrite Hc in H.
    destruct H as (_ & _ & H0 & H1); [discriminate|].
    destruct (Z.eq_dec (Divider (tpMatrix s1)) 0) as [E|E].
    + destruct (H0 E) as (_ & _ & Hr & _). exact Hr.
    + destruct (H1 E) as (_ & Hr). exact Hr.
  - rewrite run_ticker_expires.
    + rewrite Hst.
      rewrite TouchPanelA2DFiltered_idle; destruct s1; cbn; auto; discriminate.
    + rewrite Htm. vm_compute. discriminate.
    + rewrite Htm. vm_compute. reflexivity.
Qed.

(** A calibrated panel initialised again. *)
Lemma TouchPanelInit_reports_no_cal_witness :
  let s1 := (TouchPanelInit calibrated).2 in
  poll_all [quiet_regs; quiet_regs] 7 8 s1 = ([no_cal; no_cal], 7, 8, s1) /\
  (TouchPanelReadable quiet_regs (Some (mkPoint 1 2)) s1).1.1 = no_cal /\
  (TouchPanelA2DFiltered quiet_regs 7 8 (run_ticker 101 s1)).1
  = (no_touch, 7, 8).
Proof.
  apply (TouchPanelInit_reports_no_cal calibrated [quiet_regs; quiet_regs]
           quiet_regs (mkPoint 1 2) 7 8).
  - reflexivity.
  - repeat constructor.
  - reflexivity.
Defined.

(** ** Storing and restoring a calibration *)

(** X15: a matrix handed out by a successful [TouchPanelComputeCalibration]
    can be installed again.  Given to [TouchPanelSetMatrix] on any object,
    it is accepted, becomes that object's active matrix, the state becomes
    [no_touch], and raw samples are mapped as the calibrated object maps
    them. *)
Theorem calibration_matrix_restores
    (displayPtr screenPtr : points3) (m0 : tpMatrix_t) (s s2 : RA8875) :
  let res := TouchPanelComputeCalibration displayPtr screenPtr (Some m0) s in
  res.1.1 = noerror ->
  exists m,
    res.1.2 = Some m /\
    m = tpMatrix res.2 /\
    let res2 := TouchPanelSetMatrix (Some m) s2 in
    res2.1 = noerror /\
    tpMatrix res2.2 = m /\
    touchState res2.2 = no_touch /\
    forall a2dX a2dY,
      getDisplayPoint (tpMatrix res2.2) a2dX a2dY
      = getDisplayPoint (tpMatrix res.2) a2dX a2dY.
Proof.
  cbv zeta. intros Hr.
  destruct (TouchPanelComputeCalibration displayPtr screenPtr (Some m0) s)
    as [[r m'] s'] eqn:E.
  cbn in Hr. subst r.
  apply TouchPanelComputeCalibration_result in E.
  destruct E as [(_ & Hdiv & _ & ->)|(Hbad & _)]; [|discriminate Hbad].
  exists (tpMatrix s'). cbn [fst snd].
  split; [reflexivity|]. split; [reflexivity|].
  unfold TouchPanelSetMatrix.
  destruct (Z.eqb_spec (Divider (tpMatrix s')) 0) as [E0|_]; [contradiction|].
  destruct s2. cbn. auto.
Qed.

(** The design document's scenario, restored on a fresh object. *)
Lemma calibration_matrix_restores_witness :
  exists m,
    (TouchPanelComputeCalibration scenario_display scenario_screen
       (Some (mkMatrix 0 0 0 0 0 0 0)) calibrated).1.2 = Some m /\
    m = scenario_matrix /\
    (TouchPanelSetMatrix (Some m) (fresh (mkMatrix 0 0 0 0 0 0 0))).1
    = noerror.
Proof.
  destruct (calibration_matrix_restores scenario_display scenario_screen
              (mkMatrix 0 0 0 0 0 0 0) calibrated
              (fresh (mkMatrix 0 0 0 0 0 0 0)))
    as (m & Hm & Hm' & Hr & _).
  - reflexivity.
  - exists m. split; [exact Hm|]. split; [|exact Hr].
    rewrite Hm'. vm_compute. reflexivity.
Defined.
